(** * Gymnasium spaces: [MultiBinary] and [Dict]

    A shallow embedding of [gymnasium/spaces/multi_binary.py] and
    [gymnasium/spaces/dict.py], and the properties of the two classes
    that the specification states.

    Python values are embedded as the inductive type [PyObj]; a Python
    [dict] is an association list in insertion order whose keys are
    pairwise distinct; a NumPy array is a dtype tag, a shape and the
    row-major list of its elements.  A call either returns, raises, or
    leaves the fragment of Python and NumPy that is embedded here
    ([Unmodelled]). *)

From Stdlib Require Import List ZArith QArith Qround Bool String Ascii Lia.
From Stdlib Require Import Permutation Sorted.
Import ListNotations.
Local Open Scope string_scope.
Local Open Scope list_scope.
Local Open Scope Z_scope.

Set Implicit Arguments.
Set Warnings "-register-all".

(* ================================================================== *)
(** ** Python values *)

(** Dictionary keys.  The annotations of [Dict] say [str]; the
    constructor also copes with keys of other types (its comment names
    [int] next to [str]), so both are embedded. *)
Inductive Key : Type :=
| KStr (s : string)
| KInt (z : Z).

Definition key_eqb (a b : Key) : bool :=
  match a, b with
  | KStr s, KStr t => String.eqb s t
  | KInt x, KInt y => Z.eqb x y
  | _, _ => false
  end.

(** NumPy element types that occur. *)
Inductive dtype : Type := int8 | int64 | float64 | object_.

Definition dtype_eqb (a b : dtype) : bool :=
  match a, b with
  | int8, int8 | int64, int64 | float64, float64 | object_, object_ => true
  | _, _ => false
  end.

(** One array element: an integer, a float (floats are only compared,
    never computed with, so a rational stands for each finite float), or
    the [None] of an object array. *)
Inductive scalar : Type :=
| SInt (z : Z)
| SFloat (q : Q)
| SNone.

Record ndarray : Type := mk_ndarray {
  nd_dtype : dtype;
  nd_shape : list Z;
  nd_data : list scalar
}.

Inductive PyObj : Type :=
| PyNone
| PyInt (z : Z)
| PyFloat (q : Q)
| PyList (l : list PyObj)             (* a list or a tuple *)
| PyDict (d : list (Key * PyObj))
| PyNdarray (a : ndarray).

(** [type(x)], as it is printed inside the error messages. *)
Inductive pytype : Type :=
| ty_NoneType | ty_int | ty_float | ty_list | ty_dict | ty_ndarray
| ty_other (name : string).

Definition type_of (o : PyObj) : pytype :=
  match o with
  | PyNone => ty_NoneType
  | PyInt _ => ty_int
  | PyFloat _ => ty_float
  | PyList _ => ty_list
  | PyDict _ => ty_dict
  | PyNdarray _ => ty_ndarray
  end.

(** [x is None] *)
Definition is_None (o : PyObj) : bool :=
  match o with PyNone => true | _ => false end.

(** [isinstance(x, collections.abc.Sequence)] *)
Definition is_Sequence (o : PyObj) : bool :=
  match o with PyList _ => true | _ => false end.

(* ================================================================== *)
(** ** Exceptions and results *)

(** The message of an exception is kept as the f-string that builds it:
    literal pieces and the values formatted in between. *)
Inductive msg_part : Type :=
| Lit (s : string)
| Ty (t : pytype)
| Val (o : PyObj)
| KeyName (k : Key)
| KeysView (ks : list Key)
| ShapeOf (s : list Z)
| DTypeOf (d : dtype).

Definition msg : Type := list msg_part.

Inductive exn : Type :=
| TypeError (m : msg)
| ValueError (m : msg)
| AssertionError (m : msg)
| KeyError (k : Key)
| IndexError
| StopIteration.

(** The outcome of a call: a value, an exception, or [Unmodelled] when
    the call leaves the embedded fragment. *)
Inductive Result (A : Type) : Type :=
| Ok (a : A)
| Raise (e : exn)
| Unmodelled.

Arguments Ok {A} a.
Arguments Raise {A} e.
Arguments Unmodelled {A}.

Definition bind {A B : Type} (c : Result A) (k : A -> Result B) : Result B :=
  match c with
  | Ok a => k a
  | Raise e => Raise e
  | Unmodelled => Unmodelled
  end.

Declare Scope result_scope.
Delimit Scope result_scope with res.
Notation "x <- c ;; k" := (bind c (fun x => k))
  (at level 61, c at next level, right associativity) : result_scope.
Notation "' p <- c ;; k" := (bind c (fun x => match x with p => k end))
  (at level 61, p pattern, c at next level, right associativity) : result_scope.
Local Open Scope result_scope.

(** A loop that collects one result per element and stops at the first
    exception. *)
Definition mapM {A B : Type} (f : A -> Result B) : list A -> Result (list B) :=
  fix go (l : list A) : Result (list B) :=
    match l with
    | [] => Ok []
    | x :: xs => y <- f x ;; ys <- go xs ;; Ok (y :: ys)
    end.

(* ================================================================== *)
(** ** Python dictionaries *)

Section PyDictOps.
Variable V : Type.

Definition pydict : Type := list (Key * V).

Definition dict_keys (d : pydict) : list Key := map fst d.
Definition dict_values (d : pydict) : list V := map snd d.

Fixpoint dict_get (k : Key) (d : pydict) : option V :=
  match d with
  | [] => None
  | (k', v) :: d' => if key_eqb k k' then Some v else dict_get k d'
  end.

(** [key in d] *)
Definition dict_mem (k : Key) (d : pydict) : bool :=
  match dict_get k d with Some _ => true | None => false end.

(** [d[k] = v]: an existing key keeps its position, a new key goes to
    the end. *)
Fixpoint dict_set (k : Key) (v : V) (d : pydict) : pydict :=
  match d with
  | [] => [(k, v)]
  | (k', v') :: d' =>
      if key_eqb k k' then (k', v) :: d' else (k', v') :: dict_set k v d'
  end.

(** [dict(items)] *)
Definition dict_of_items (items : list (Key * V)) : pydict :=
  fold_left (fun d kv => dict_set (fst kv) (snd kv) d) items [].

(** [d[k]] *)
Definition dict_getitem (k : Key) (d : pydict) : Result V :=
  match dict_get k d with
  | Some v => Ok v
  | None => Raise (KeyError k)
  end.
End PyDictOps.

(** [a.keys() == b.keys()]: key views compare as sets, that is equal
    sizes and every key of [a] present in [b]. *)
Definition keys_eqb {V W : Type} (a : pydict V) (b : pydict W) : bool :=
  Nat.eqb (List.length a) (List.length b)
  && forallb (fun k => dict_mem k b) (dict_keys a).

(** [a == b] on two dicts: equal sizes, and every key of [a] is in [b]
    with an equal value; the order of insertion plays no part. *)
Definition dict_eqb {V : Type} (veq : V -> V -> bool) (a b : pydict V) : bool :=
  Nat.eqb (List.length a) (List.length b)
  && forallb (fun kv => match dict_get (fst kv) b with
                        | Some bv => veq (snd kv) bv
                        | None => false
                        end) a.

(* ================================================================== *)
(** ** NumPy arrays *)

Fixpoint tuple_eqb (a b : list Z) : bool :=
  match a, b with
  | [], [] => true
  | x :: a', y :: b' => Z.eqb x y && tuple_eqb a' b'
  | _, _ => false
  end.

(** Number of elements of an array of the given shape. *)
Definition nd_size (shape : list Z) : Z := fold_right Z.mul 1 shape.

(** [x == k] for one element and a Python integer [k]. *)
Definition scalar_eq_Z (s : scalar) (k : Z) : bool :=
  match s with
  | SInt z => Z.eqb z k
  | SFloat q => Qeq_bool q (inject_Z k)
  | SNone => false
  end.

Definition scalar_to_py (s : scalar) : PyObj :=
  match s with
  | SInt z => PyInt z
  | SFloat q => PyFloat q
  | SNone => PyNone
  end.

(** Type promotion, along [int8 < int64 < float64 < object]. *)
Definition dtype_rank (d : dtype) : nat :=
  match d with int8 => 0 | int64 => 1 | float64 => 2 | object_ => 3 end%nat.

Definition promote (a b : dtype) : dtype :=
  if Nat.leb (dtype_rank a) (dtype_rank b) then b else a.

Definition to_dtype (d : dtype) (s : scalar) : scalar :=
  match d, s with
  | float64, SInt z => SFloat (inject_Z z)
  | _, _ => s
  end.

(** [np.array] on the already converted items of a sequence: the items
    must agree on their shape (NumPy 1.24 and later reject a ragged
    sequence); an empty sequence gives an empty [float64] array. *)
Definition np_stack (subs : list ndarray) : Result ndarray :=
  match subs with
  | [] => Ok (mk_ndarray float64 [0] [])
  | a :: rest =>
      if forallb (fun b => tuple_eqb (nd_shape b) (nd_shape a)) rest then
        let dt := fold_left promote (map nd_dtype rest) (nd_dtype a) in
        Ok (mk_ndarray dt
              (Z.of_nat (List.length subs) :: nd_shape a)
              (map (to_dtype dt) (List.concat (map nd_data subs))))
      else
        Raise (ValueError
          [Lit "setting an array element with a sequence. The requested array has an inhomogeneous shape"])
  end.

(** [np.array(x)].  Python integers are taken as [int64] whatever their
    size.  An array holding a [dict] is outside the embedding. *)
Fixpoint np_array (o : PyObj) : Result ndarray :=
  match o with
  | PyNone => Ok (mk_ndarray object_ [] [SNone])
  | PyInt z => Ok (mk_ndarray int64 [] [SInt z])
  | PyFloat q => Ok (mk_ndarray float64 [] [SFloat q])
  | PyNdarray a => Ok a
  | PyDict _ => Unmodelled
  | PyList l => subs <- mapM np_array l ;; np_stack subs
  end.

Fixpoint chunks {A : Type} (k size : nat) (l : list A) : list (list A) :=
  match k with
  | O => []
  | S k' => firstn size l :: chunks k' size (skipn size l)
  end.

(** [a.tolist()]: nested lists, one level per axis. *)
Fixpoint tolist_aux (shape : list Z) (data : list scalar) : PyObj :=
  match shape with
  | [] => match data with s :: _ => scalar_to_py s | [] => PyNone end
  | d :: rest =>
      PyList (map (tolist_aux rest)
                  (chunks (Z.to_nat d) (Z.to_nat (nd_size rest)) data))
  end.

Definition tolist (a : ndarray) : PyObj := tolist_aux (nd_shape a) (nd_data a).

Definition fits_int8 (s : scalar) : bool :=
  match s with
  | SInt z => (-128 <=? z) && (z <=? 127)
  | _ => false
  end.

(** [np.asarray(x, np.int8)].  What NumPy does with an entry that is not
    an integer of the [int8] range depends on its version and on where
    the entry comes from; that is left out. *)
Definition np_asarray_int8 (o : PyObj) : Result ndarray :=
  a <- np_array o ;;
  if forallb fits_int8 (nd_data a)
  then Ok (mk_ndarray int8 (nd_shape a) (nd_data a))
  else Unmodelled.

(** [for item in x]: the items of a list, the slices of an array along
    its first axis.  Iterating a [dict] yields its keys, which are not
    values of the embedding. *)
Definition py_iter (o : PyObj) : Result (list PyObj) :=
  match o with
  | PyList l => Ok l
  | PyNdarray a =>
      match nd_shape a with
      | [] => Raise (TypeError [Lit "iteration over a 0-d array"])
      | d :: rest =>
          Ok (map (fun c => PyNdarray (mk_ndarray (nd_dtype a) rest c))
                  (chunks (Z.to_nat d) (Z.to_nat (nd_size rest)) (nd_data a)))
      end
  | PyDict _ => Unmodelled
  | PyNone | PyInt _ | PyFloat _ =>
      Raise (TypeError [Ty (type_of o); Lit " object is not iterable"])
  end.

(** [x[key]] for a key of a [Dict]. *)
Definition py_getitem (o : PyObj) (k : Key) : Result PyObj :=
  match o with
  | PyDict d => dict_getitem k d
  | PyNone | PyInt _ | PyFloat _ =>
      Raise (TypeError [Ty (type_of o); Lit " object is not subscriptable"])
  | PyList _ | PyNdarray _ => Unmodelled
  end.

(** [l[n]] for a list and [n >= 0]. *)
Definition list_getitem {A : Type} (l : list A) (n : nat) : Result A :=
  match nth_error l n with
  | Some x => Ok x
  | None => Raise IndexError
  end.

(** [next(iter(values))] *)
Definition py_next {A : Type} (values : list A) : Result A :=
  match values with
  | x :: _ => Ok x
  | [] => Raise StopIteration
  end.

(** Truncation toward zero, as [int(x)] does on a float. *)
Definition Qtrunc (q : Q) : Z :=
  if Qle_bool 0 q then Qfloor q else Qceiling q.

Definition scalar_int (s : scalar) : Result Z :=
  match s with
  | SInt z => Ok z
  | SFloat q => Ok (Qtrunc q)
  | SNone =>
      Raise (TypeError [Lit "int() argument must be a string, a bytes-like object or a real number, not "; Ty ty_NoneType])
  end.

(** [int(x)] *)
Definition py_int (o : PyObj) : Result Z :=
  match o with
  | PyInt z => Ok z
  | PyFloat q => Ok (Qtrunc q)
  | PyNone | PyList _ | PyDict _ =>
      Raise (TypeError [Lit "int() argument must be a string, a bytes-like object or a real number, not "; Ty (type_of o)])
  | PyNdarray _ => Unmodelled
  end.

(* ================================================================== *)
(** ** The random source *)

(** [numpy.random.Generator], as far as the two classes use it, and the
    seeding of the base class.  The base class [Space] is not part of
    these sources: its [seed] method is a parameter here. *)
Class RandomSource : Type := {
  Generator : Type;
  (** [g.integers(low, high, size=k)]: [k] integers of [[low, high)]. *)
  rs_integers : Z -> Z -> nat -> Generator -> list Z * Generator;
  rs_integers_length : forall lo hi k g,
      List.length (fst (rs_integers lo hi k g)) = k;
  rs_integers_range : forall lo hi k g,
      lo < hi -> Forall (fun z => lo <= z < hi) (fst (rs_integers lo hi k g));
  (** [g.random(size=k)]: [k] floats of [[0, 1)]. *)
  rs_random : nat -> Generator -> list Q * Generator;
  rs_random_length : forall k g, List.length (fst (rs_random k g)) = k;
  rs_random_range : forall k g,
      Forall (fun q => (0 <= q)%Q /\ (q < 1)%Q) (fst (rs_random k g));
  (** [Space.seed(self, seed)] of the base class, on the generator of
      one space: the seed report and the new generator. *)
  base_seed : PyObj -> Generator -> Result (PyObj * Generator)
}.

(* ================================================================== *)
(** ** Elementwise array operations *)

Definition wrap_int8 (z : Z) : Z := (z + 128) mod 256 - 128.

(** [a.astype(np.int8)] *)
Definition astype_int8 (a : ndarray) : Result ndarray :=
  d <- mapM (fun s => z <- scalar_int s ;; Ok (SInt (wrap_int8 z))) (nd_data a) ;;
  Ok (mk_ndarray int8 (nd_shape a) d).

(** [b.astype(np.int8)] for a boolean array [b] *)
Definition bool_astype_int8 (shape : list Z) (b : list bool) : ndarray :=
  mk_ndarray int8 shape (map (fun x : bool => SInt (if x then 1 else 0)) b).

Fixpoint where_data (c : list bool) (x y : list scalar) : list scalar :=
  match c, x, y with
  | b :: c', u :: x', v :: y' => (if b then u else v) :: where_data c' x' y'
  | _, _, _ => []
  end.

(** [np.where(c, x, y)] for three operands of one shape. *)
Definition np_where (c : list bool) (x y : ndarray) : ndarray :=
  mk_ndarray (promote (nd_dtype x) (nd_dtype y)) (nd_shape y)
             (where_data c (nd_data x) (nd_data y)).

(** The value of a number; an array of dtype [float64] holds no [None]. *)
Definition scalar_Q (s : scalar) : Q :=
  match s with
  | SInt z => inject_Z z
  | SFloat q => q
  | SNone => 0%Q
  end.

(** [x <= y] elementwise, for two arrays of one shape. *)
Fixpoint le_data (x y : list scalar) : list bool :=
  match x, y with
  | u :: x', v :: y' => Qle_bool (scalar_Q u) (scalar_Q v) :: le_data x' y'
  | _, _ => []
  end.

(* ================================================================== *)
(** ** Spaces *)

(** [MultiBinary.n]: the integer or the tuple given at construction. *)
Inductive MBn : Type :=
| n_int (z : Z)
| n_tuple (l : list Z).

Definition MBn_eqb (a b : MBn) : bool :=
  match a, b with
  | n_int x, n_int y => Z.eqb x y
  | n_tuple x, n_tuple y => tuple_eqb x y
  | _, _ => false
  end.

(** A [size=] argument as a shape. *)
Definition size_shape (n : MBn) : list Z :=
  match n with
  | n_int z => [z]
  | n_tuple l => l
  end.

Section Spaces.
Context {RS : RandomSource}.

(** The two space classes, each with the fields its instances carry:
    [n], [_shape] and [_np_random] for [MultiBinary] (the dtype is
    always [int8]), [spaces] and [_np_random] for [Dict].  A child
    space belongs to one parent: two keys never hold one and the
    same object. *)
Inductive Space : Type :=
| MultiBinary (n : MBn) (shape : list Z) (np_random : Generator)
| Dict (spaces : list (Key * Space)) (np_random : Generator).

(** [g.integers(low, high, size=.., dtype=..)] and [g.random(size=..)]
    as arrays. *)
Definition Generator_integers (low high : Z) (size : list Z) (dt : dtype)
           (g : Generator) : ndarray * Generator :=
  let r := rs_integers low high (Z.to_nat (nd_size size)) g in
  (mk_ndarray dt size (map SInt (fst r)), snd r).

Definition Generator_random (size : list Z) (g : Generator)
  : ndarray * Generator :=
  let r := rs_random (Z.to_nat (nd_size size)) g in
  (mk_ndarray float64 size (map SFloat (fst r)), snd r).

(* ---------------------------------------------------------------- *)
(** *** MultiBinary *)

(** [MultiBinary.__init__(n, seed)].  The base constructor takes the
    shape, the dtype and the seed; it is not part of these sources,
    and the generator it sets up is the argument [g]. *)
Definition MultiBinary_init (n : PyObj) (g : Generator) : Result Space :=
  match n with
  | PyInt z =>
      let input_n := [z] in
      if forallb (fun i => 0 <? i) input_n
      then Ok (MultiBinary (n_int z) input_n g)
      else Raise (AssertionError [])
  | PyList l =>
      input_n <- mapM py_int l ;;
      if forallb (fun i => 0 <? i) input_n
      then Ok (MultiBinary (n_tuple input_n) input_n g)
      else Raise (AssertionError [])
  | PyNdarray a =>
      match nd_shape a with
      | [] => Raise (TypeError [Lit "iteration over a 0-d array"])
      | [_] =>
          input_n <- mapM scalar_int (nd_data a) ;;
          if forallb (fun i => 0 <? i) input_n
          then Ok (MultiBinary (n_tuple input_n) input_n g)
          else Raise (AssertionError [])
      | _ => Unmodelled
      end
  | PyNone | PyFloat _ | PyDict _ =>
      Raise (ValueError
        [Lit "Expected n to be an int or a sequence of ints, actual type: ";
         Ty (type_of n)])
  end.

(** [MultiBinary.sample(mask, probability)]: the sample and the
    generator after the draw.  An argument left out is [None]. *)
Definition MultiBinary_sample (n : MBn) (shape : list Z) (g : Generator)
           (mask probability : PyObj) : Result (ndarray * Generator) :=
  if negb (is_None mask) && negb (is_None probability) then
    Raise (ValueError
      [Lit "Only one of `mask` or `probability` can be provided, actual values: mask=";
       Val mask; Lit ", probability="; Val probability])
  else if negb (is_None mask) then
    match mask with
    | PyNdarray m =>
        if negb (dtype_eqb (nd_dtype m) int8) then
          Raise (AssertionError
            [Lit "The expected dtype of the mask is np.int8, actual dtype: ";
             DTypeOf (nd_dtype m)])
        else if negb (tuple_eqb (nd_shape m) shape) then
          Raise (AssertionError
            [Lit "The expected shape of the mask is "; ShapeOf shape;
             Lit ", actual shape: "; ShapeOf (nd_shape m)])
        else if negb (forallb (fun s => scalar_eq_Z s 0 || scalar_eq_Z s 1
                                        || scalar_eq_Z s 2) (nd_data m)) then
          Raise (AssertionError
            [Lit "All values of a mask should be 0, 1 or 2, actual values: ";
             Val mask])
        else
          let '(r, g') := Generator_integers 0 2 (size_shape n) int8 g in
          forced <- astype_int8 m ;;
          Ok (np_where (map (fun s => scalar_eq_Z s 2) (nd_data m)) r forced, g')
    | _ =>
        Raise (AssertionError
          [Lit "The expected type of the mask is np.ndarray, actual type: ";
           Ty (type_of mask)])
    end
  else if negb (is_None probability) then
    match probability with
    | PyNdarray p =>
        if negb (dtype_eqb (nd_dtype p) float64) then
          Raise (AssertionError
            [Lit "The expected dtype of the probability is np.float64, actual dtype: ";
             DTypeOf (nd_dtype p)])
        else if negb (tuple_eqb (nd_shape p) shape) then
          Raise (AssertionError
            [Lit "The expected shape of the probability is "; ShapeOf shape;
             Lit ", actual shape: "; Val probability])
        else if negb (forallb (fun s => Qle_bool 0 (scalar_Q s)
                                        && Qle_bool (scalar_Q s) 1)
                              (nd_data p)) then
          Raise (AssertionError
            [Lit "All values of the sample probability should be between 0 and 1, actual values: ";
             Val probability])
        else
          let '(u, g') := Generator_random shape g in
          Ok (bool_astype_int8 shape (le_data (nd_data u) (nd_data p)), g')
    | _ =>
        Raise (AssertionError
          [Lit "The expected type of the probability is np.ndarray, actual type: ";
           Ty (type_of probability)])
    end
  else
    Ok (Generator_integers 0 2 (size_shape n) int8 g).

(** The [shape] property: the tuple stored by the base constructor,
    which a [Dict] calls with [None]. *)
Definition Space_shape (self : Space) : option (list Z) :=
  match self with
  | MultiBinary _ shape _ => Some shape
  | Dict _ _ => None
  end.

(** [MultiBinary.contains(x)] *)
Definition MultiBinary_contains (shape : list Z) (x : PyObj) : Result bool :=
  x' <- (if is_Sequence x
         then a <- np_array x ;; Ok (PyNdarray a)
         else Ok x) ;;
  Ok (match x' with
      | PyNdarray a =>
          tuple_eqb shape (nd_shape a)
          && forallb (fun s => scalar_eq_Z s 0 || scalar_eq_Z s 1) (nd_data a)
      | _ => false
      end).

(** [MultiBinary.to_jsonable(sample_n)] *)
Definition MultiBinary_to_jsonable (sample_n : PyObj) : Result PyObj :=
  a <- np_array sample_n ;;
  Ok (tolist a).

(** [MultiBinary.from_jsonable(sample_n)] *)
Definition MultiBinary_from_jsonable (sample_n : PyObj)
  : Result (list PyObj) :=
  items <- py_iter sample_n ;;
  arrays <- mapM np_asarray_int8 items ;;
  Ok (map PyNdarray arrays).

(* ---------------------------------------------------------------- *)
(** *** Equality of spaces *)

(** [self == other]: [MultiBinary.__eq__] compares [n],
    [Dict.__eq__] compares the two [spaces] dictionaries with the
    [==] of [dict]. *)
Fixpoint Space_eqb (self other : Space) : bool :=
  match self, other with
  | MultiBinary n _ _, MultiBinary m _ _ => MBn_eqb n m
  | Dict sa _, Dict sb _ => dict_eqb Space_eqb sa sb
  | _, _ => false
  end.

(* ---------------------------------------------------------------- *)
(** *** Dict: construction *)

(** [a < b] on two keys: defined inside one type only. *)
Definition key_lt (a b : Key) : Result bool :=
  match a, b with
  | KStr s, KStr t => Ok (String.ltb s t)
  | KInt x, KInt y => Ok (x <? y)
  | _, _ =>
      Raise (TypeError [Lit "'<' not supported between instances of 'str' and 'int'"])
  end.

(** [a < b] on two items [(key, space)], as tuples compare: the first
    components that differ decide; spaces have no order. *)
Definition item_lt (a b : Key * Space) : Result bool :=
  if key_eqb (fst a) (fst b) then
    if Space_eqb (snd a) (snd b) then Ok false
    else Raise (TypeError [Lit "'<' not supported between instances of 'Space' and 'Space'"])
  else key_lt (fst a) (fst b).

(** [sorted(items)]: a stable sort that only asks [<]; it raises when
    a comparison does. *)
Fixpoint insert_item (x : Key * Space) (l : list (Key * Space))
  : Result (list (Key * Space)) :=
  match l with
  | [] => Ok [x]
  | y :: l' =>
      b <- item_lt y x ;;
      if b then l'' <- insert_item x l' ;; Ok (y :: l'')
      else Ok (x :: l)
  end.

Fixpoint py_sorted (l : list (Key * Space)) : Result (list (Key * Space)) :=
  match l with
  | [] => Ok []
  | x :: l' => s <- py_sorted l' ;; insert_item x s
  end.

(** The [spaces] argument of the constructor. *)
Inductive spaces_arg : Type :=
| SpNone
| SpOrderedDict (items : list (Key * Space))  (* an [OrderedDict] *)
| SpMapping (items : list (Key * Space))      (* any other mapping *)
| SpSequence (pairs : list (Key * Space))     (* a sequence of pairs *)
| SpOther (t : pytype).                       (* anything else *)

(** The loop that merges the keyword arguments. *)
Fixpoint add_kwargs (kwargs : list (string * Space)) (spaces : pydict Space)
  : Result (pydict Space) :=
  match kwargs with
  | [] => Ok spaces
  | (key, space) :: rest =>
      if negb (dict_mem (KStr key) spaces)
      then add_kwargs rest (dict_set (KStr key) space spaces)
      else Raise (ValueError
             [Lit "Dict space keyword '"; KeyName (KStr key);
              Lit "' already exists in the spaces dictionary."])
  end.

(** [Dict.__init__(spaces, seed=None, **spaces_kwargs)].  The values
    are spaces by their type here, so the assertion on them holds.
    The base constructor is not part of these sources; the generator
    it sets up is the argument [g]. *)
Definition Dict_init (spaces : spaces_arg) (spaces_kwargs : list (string * Space))
           (g : Generator) : Result Space :=
  d <- match spaces with
       | SpOrderedDict items => Ok (dict_of_items items)
       | SpMapping items =>
           match py_sorted items with
           | Ok s => Ok (dict_of_items s)
           | Raise (TypeError _) => Ok (dict_of_items items)
           | Raise e => Raise e
           | Unmodelled => Unmodelled
           end
       | SpSequence pairs => Ok (dict_of_items pairs)
       | SpNone => Ok []
       | SpOther t =>
           Raise (TypeError
             [Lit "Unexpected Dict space input, expecting dict, OrderedDict or Sequence, actual type: ";
              Ty t])
       end ;;
  d' <- add_kwargs spaces_kwargs d ;;
  Ok (Dict d' g).

(* ---------------------------------------------------------------- *)
(** *** Dict: seeding *)

(** The [seed] method of a space, already bound to it. *)
Definition seed_method : Type := PyObj -> Result (PyObj * Space).

(** [{key: subspace.seed(...) for (key, subspace) in items}] with one
    seed per child; the children come back in their new state. *)
Fixpoint seed_each (items : list (Key * seed_method * PyObj))
  : Result (pydict PyObj * pydict Space) :=
  match items with
  | [] => Ok ([], [])
  | (key, m, s) :: rest =>
      '(r, c') <- m s ;;
      '(rs, cs) <- seed_each rest ;;
      Ok ((key, r) :: rs, (key, c') :: cs)
  end.

(** [{key: self.spaces[key].seed(seed[key]) for key in seed.keys()}];
    [spaces] is the dictionary as the loop has left it so far. *)
Fixpoint seed_by_keys (methods : pydict seed_method) (seed : pydict PyObj)
         (keys : list Key) (spaces : pydict Space)
  : Result (pydict PyObj * pydict Space) :=
  match keys with
  | [] => Ok ([], spaces)
  | key :: ks =>
      m <- dict_getitem key methods ;;
      s <- dict_getitem key seed ;;
      '(r, c') <- m s ;;
      '(rs, spaces') <- seed_by_keys methods seed ks (dict_set key c' spaces) ;;
      Ok ((key, r) :: rs, spaces')
  end.

Definition int32_max : Z := 2147483647.

(** [Dict.seed(seed)].  [methods] holds [subspace.seed] for every
    child.  A child is seeded once in a call (the keys of a dict are
    distinct), so each method acts on its child as the call found it. *)
Definition Dict_seed (methods : pydict seed_method) (spaces : pydict Space)
           (g : Generator) (seed : PyObj) : Result (PyObj * Space) :=
  match seed with
  | PyNone =>
      '(rs, cs) <- seed_each (map (fun km => (fst km, snd km, PyNone)) methods) ;;
      Ok (PyDict rs, Dict cs g)
  | PyInt _ =>
      '(_, g1) <- base_seed seed g ;;
      let subseeds := rs_integers 0 int32_max (List.length spaces) g1 in
      '(rs, cs) <- seed_each (map (fun ks => (fst (fst ks), snd (fst ks), PyInt (snd ks)))
                                  (combine methods (fst subseeds))) ;;
      Ok (PyDict rs, Dict cs (snd subseeds))
  | PyDict seed_d =>
      if negb (keys_eqb seed_d spaces) then
        Raise (ValueError
          [Lit "The seed keys: "; KeysView (dict_keys seed_d);
           Lit " are not identical to space keys: "; KeysView (dict_keys spaces)])
      else
        '(rs, spaces') <- seed_by_keys methods seed_d (dict_keys seed_d) spaces ;;
        Ok (PyDict rs, Dict spaces' g)
  | PyFloat _ | PyList _ | PyNdarray _ =>
      Raise (TypeError
        [Lit "Expected seed type: dict, int or None, actual type: ";
         Ty (type_of seed)])
  end.

(** [space.seed(seed)], by the class of [space]; [MultiBinary]
    inherits the method of the base class. *)
Fixpoint Space_seed (self : Space) : seed_method :=
  match self with
  | MultiBinary n shape g =>
      fun seed => '(r, g') <- base_seed seed g ;; Ok (r, MultiBinary n shape g')
  | Dict spaces g =>
      Dict_seed (map (fun kc => (fst kc, Space_seed (snd kc))) spaces) spaces g
  end.

(* ---------------------------------------------------------------- *)
(** *** Dict: sampling and membership *)

(** [space.sample(mask, probability)], by the class of [space]: the
    sample and the space with its generators advanced.  [Dict.sample]
    hands each child the entry of its key as [mask] or as
    [probability]. *)
Fixpoint Space_sample (self : Space) (mask probability : PyObj)
  : Result (PyObj * Space) :=
  match self with
  | MultiBinary n shape g =>
      '(a, g') <- MultiBinary_sample n shape g mask probability ;;
      Ok (PyNdarray a, MultiBinary n shape g')
  | Dict spaces g =>
      let children (arg : Key -> Result (PyObj * PyObj)) :=
        (fix go (l : list (Key * Space)) : Result (pydict PyObj * pydict Space) :=
           match l with
           | [] => Ok ([], [])
           | kc :: l' =>
               '(m, p) <- arg (fst kc) ;;
               '(v, c') <- Space_sample (snd kc) m p ;;
               '(vs, cs) <- go l' ;;
               Ok ((fst kc, v) :: vs, (fst kc, c') :: cs)
           end) spaces in
      if negb (is_None mask) && negb (is_None probability) then
        Raise (ValueError
          [Lit "Only one of `mask` or `probability` can be provided, actual values: mask=";
           Val mask; Lit ", probability="; Val probability])
      else if negb (is_None mask) then
        match mask with
        | PyDict md =>
            if negb (keys_eqb md spaces) then
              Raise (AssertionError
                [Lit "Expected sample mask keys to be same as space keys, mask keys: ";
                 KeysView (dict_keys md); Lit ", space keys: ";
                 KeysView (dict_keys spaces)])
            else
              '(vs, cs) <- children (fun k => x <- dict_getitem k md ;;
                                              Ok (x, PyNone)) ;;
              Ok (PyDict vs, Dict cs g)
        | _ =>
            Raise (AssertionError
              [Lit "Expected sample mask to be a dict, actual type: ";
               Ty (type_of mask)])
        end
      else if negb (is_None probability) then
        match probability with
        | PyDict pd =>
            if negb (keys_eqb pd spaces) then
              Raise (AssertionError
                [Lit "Expected sample probability mask keys to be same as space keys, mask keys: ";
                 KeysView (dict_keys pd); Lit ", space keys: ";
                 KeysView (dict_keys spaces)])
            else
              '(vs, cs) <- children (fun k => x <- dict_getitem k pd ;;
                                              Ok (PyNone, x)) ;;
              Ok (PyDict vs, Dict cs g)
        | _ =>
            Raise (AssertionError
              [Lit "Expected sample probability mask to be a dict, actual type: ";
               Ty (type_of probability)])
        end
      else
        '(vs, cs) <- children (fun _ => Ok (PyNone, PyNone)) ;;
        Ok (PyDict vs, Dict cs g)
  end.

(** [space.contains(x)], by the class of [space]; [all(...)] stops at
    the first child that does not contain its entry. *)
Fixpoint Space_contains (self : Space) (x : PyObj) : Result bool :=
  match self with
  | MultiBinary _ shape _ => MultiBinary_contains shape x
  | Dict spaces _ =>
      match x with
      | PyDict xd =>
          if keys_eqb xd spaces then
            (fix all (l : list (Key * Space)) : Result bool :=
               match l with
               | [] => Ok true
               | kc :: l' =>
                   v <- dict_getitem (fst kc) xd ;;
                   b <- Space_contains (snd kc) v ;;
                   if b then all l' else Ok false
               end) spaces
          else Ok false
      | _ => Ok false
      end
  end.

(* ---------------------------------------------------------------- *)
(** *** Dict: conversion to and from the JSON form *)

(** [space.to_jsonable(sample_n)], by the class of [space].  The
    comprehension of [Dict.to_jsonable] runs over the items of
    [self.spaces], whose keys are distinct. *)
Fixpoint Space_to_jsonable (self : Space) (sample_n : PyObj) : Result PyObj :=
  match self with
  | MultiBinary _ _ _ => MultiBinary_to_jsonable sample_n
  | Dict spaces _ =>
      cols <- mapM (fun kc =>
                      samples <- py_iter sample_n ;;
                      col <- mapM (fun sample => py_getitem sample (fst kc)) samples ;;
                      j <- Space_to_jsonable (snd kc) (PyList col) ;;
                      Ok (fst kc, j)) spaces ;;
      Ok (PyDict cols)
  end.

(** [space.from_jsonable(sample_n)], by the class of [space]. *)
Fixpoint Space_from_jsonable (self : Space) (sample_n : PyObj)
  : Result (list PyObj) :=
  match self with
  | MultiBinary _ _ _ => MultiBinary_from_jsonable sample_n
  | Dict spaces _ =>
      dict_of_list <- mapM (fun kc =>
                              j <- py_getitem sample_n (fst kc) ;;
                              v <- Space_from_jsonable (snd kc) j ;;
                              Ok (fst kc, v)) spaces ;;
      first <- py_next (dict_values dict_of_list) ;;
      let n_elements := List.length first in
      mapM (fun n =>
              row <- mapM (fun kv => x <- list_getitem (snd kv) n ;;
                                     Ok (fst kv, x)) dict_of_list ;;
              Ok (PyDict row))
           (seq 0 n_elements)
  end.

(* ---------------------------------------------------------------- *)
(** *** Dict: the mapping interface *)

(** [Dict.__getitem__(key)] *)
Definition Dict_getitem (spaces : pydict Space) (key : Key) : Result Space :=
  dict_getitem key spaces.

(** [Dict.__setitem__(key, value)].  The value is a space by its type
    here, so the assertion on it holds. *)
Definition Dict_setitem (spaces : pydict Space) (g : Generator) (key : Key)
           (value : Space) : Space :=
  Dict (dict_set key value spaces) g.

(** [Dict.__iter__()] and [Dict.keys()]: the keys in stored order. *)
Definition Dict_iter (spaces : pydict Space) : list Key := dict_keys spaces.

(** [Dict.__len__()] *)
Definition Dict_len (spaces : pydict Space) : nat := List.length spaces.

(* ---------------------------------------------------------------- *)
(** *** Flattening *)

(** The [is_np_flattenable] property: [True] for a [MultiBinary],
    [all(...)] over the children for a [Dict]. *)
Fixpoint Space_is_np_flattenable (self : Space) : bool :=
  match self with
  | MultiBinary _ _ _ => true
  | Dict spaces _ =>
      forallb (fun kc => Space_is_np_flattenable (snd kc)) spaces
  end.

End Spaces.

Arguments Space {RS}.

(* ================================================================== *)
(** ** The vocabulary of the statements *)

(** The element is 0 or 1. *)
Definition binary (s : scalar) : Prop :=
  scalar_eq_Z s 0 = true \/ scalar_eq_Z s 1 = true.

(** The element is a Python integer. *)
Definition is_SInt (s : scalar) : Prop := exists z, s = SInt z.

(** What makes an array a sample of a [MultiBinary] of shape [shape]. *)
Definition binary_array (shape : list Z) (a : ndarray) : Prop :=
  nd_dtype a = int8
  /\ nd_shape a = shape
  /\ List.length (nd_data a) = Z.to_nat (nd_size shape)
  /\ Forall (fun s => s = SInt 0 \/ s = SInt 1) (nd_data a).

(** An [int8] array of shape [shape], with one integer of the [int8]
    range per element. *)
Definition int8_array (shape : list Z) (a : ndarray) : Prop :=
  nd_dtype a = int8
  /\ nd_shape a = shape
  /\ List.length (nd_data a) = Z.to_nat (nd_size shape)
  /\ Forall (fun s => exists z, s = SInt z /\ -128 <= z <= 127) (nd_data a).

(** What [MultiBinary.sample] asks of a [mask]: an [int8] array of the
    shape of the space whose entries are 0, 1 or 2. *)
Definition valid_mask (shape : list Z) (mask : PyObj) : Prop :=
  exists m, mask = PyNdarray m
            /\ nd_dtype m = int8
            /\ nd_shape m = shape
            /\ Forall (fun s => scalar_eq_Z s 0 = true \/ scalar_eq_Z s 1 = true
                                \/ scalar_eq_Z s 2 = true) (nd_data m).

(** What it asks of a [probability]: a [float64] array of the shape of
    the space whose entries lie in [[0, 1]]. *)
Definition valid_probability (shape : list Z) (probability : PyObj) : Prop :=
  exists p, probability = PyNdarray p
            /\ nd_dtype p = float64
            /\ nd_shape p = shape
            /\ Forall (fun s => (0 <= scalar_Q s)%Q /\ (scalar_Q s <= 1)%Q)
                      (nd_data p).

(** The row that [from_jsonable] builds for index [n]. *)
Definition row_at (dict_of_list : pydict (list PyObj)) (n : nat) : PyObj :=
  PyDict (map (fun kv => (fst kv, nth n (snd kv) PyNone)) dict_of_list).

(** [a < b] holds. *)
Definition key_less (a b : Key) : Prop := key_lt a b = Ok true.

(** [a < b] is defined: the keys are of one type. *)
Definition comparable (a b : Key) : Prop := exists r, key_lt a b = Ok r.

(** Any two of the keys can be compared. *)
Definition mutually_comparable (ks : list Key) : Prop :=
  forall a b, In a ks -> In b ks -> comparable a b.

(** The two elements, and the two lists of elements, are the same. *)
Definition scalar_same (s t : scalar) : bool :=
  match s, t with
  | SInt a, SInt b => Z.eqb a b
  | SFloat a, SFloat b => Qeq_bool a b
  | SNone, SNone => true
  | _, _ => false
  end.

Fixpoint data_same (a b : list scalar) : bool :=
  match a, b with
  | [], [] => true
  | s :: a', t :: b' => scalar_same s t && data_same a' b'
  | _, _ => false
  end.

(** The two values are the same: numbers and arrays element for
    element, dictionaries key for key, in whatever order each of the
    two lists its items. *)
Fixpoint same_value (x y : PyObj) : bool :=
  match x, y with
  | PyNone, PyNone => true
  | PyInt a, PyInt b => Z.eqb a b
  | PyFloat a, PyFloat b => Qeq_bool a b
  | PyList a, PyList b =>
      (fix all2 (a b : list PyObj) : bool :=
         match a, b with
         | [], [] => true
         | u :: a', v :: b' => same_value u v && all2 a' b'
         | _, _ => false
         end) a b
  | PyDict a, PyDict b => dict_eqb same_value a b
  | PyNdarray a, PyNdarray b =>
      dtype_eqb (nd_dtype a) (nd_dtype b)
      && tuple_eqb (nd_shape a) (nd_shape b)
      && data_same (nd_data a) (nd_data b)
  | _, _ => false
  end.

(** [d[k]] for a sample [d] that has the key. *)
Definition entry (k : Key) (x : PyObj) : PyObj :=
  match x with
  | PyDict d => match dict_get k d with Some v => v | None => PyNone end
  | _ => PyNone
  end.

Section Vocabulary.
Context {RS : RandomSource}.

(** The spaces that the constructors build: the shape of a
    [MultiBinary] is its [n] and holds positive entries; the keys of a
    [Dict] are distinct. *)
Fixpoint wf_Space (s : Space) : Prop :=
  match s with
  | MultiBinary n shape _ =>
      shape = size_shape n /\ Forall (fun i => 0 < i) shape
  | Dict spaces _ =>
      NoDup (dict_keys spaces)
      /\ (fix all (l : list (Key * Space)) : Prop :=
            match l with
            | [] => True
            | kc :: l' => wf_Space (snd kc) /\ all l'
            end) spaces
  end.

(** A sample of a space, as [sample] returns them: an [int8] array of
    the shape of a [MultiBinary] that holds 0 and 1; a dictionary over
    the keys of a [Dict], in any order, that holds a sample of each
    child. *)
Fixpoint is_sample (self : Space) (x : PyObj) : Prop :=
  match self with
  | MultiBinary _ shape _ =>
      exists a, x = PyNdarray a
                /\ nd_dtype a = int8
                /\ nd_shape a = shape
                /\ List.length (nd_data a) = Z.to_nat (nd_size shape)
                /\ Forall (fun s => s = SInt 0 \/ s = SInt 1) (nd_data a)
  | Dict spaces _ =>
      exists d, x = PyDict d
                /\ NoDup (dict_keys d)
                /\ (forall k, In k (dict_keys d) <-> In k (dict_keys spaces))
                /\ (fix all (l : list (Key * Space)) : Prop :=
                      match l with
                      | [] => True
                      | kc :: l' => is_sample (snd kc) (entry (fst kc) x) /\ all l'
                      end) spaces
  end.

(** Every [Dict] in the space has a child. *)
Fixpoint every_Dict_has_child (self : Space) : Prop :=
  match self with
  | MultiBinary _ _ _ => True
  | Dict spaces _ =>
      spaces <> []
      /\ (fix all (l : list (Key * Space)) : Prop :=
            match l with
            | [] => True
            | kc :: l' => every_Dict_has_child (snd kc) /\ all l'
            end) spaces
  end.

(** The sample with the items of every dictionary listed in the order
    in which the space stores its keys. *)
Fixpoint in_stored_order (self : Space) (x : PyObj) : PyObj :=
  match self with
  | MultiBinary _ _ _ => x
  | Dict spaces _ =>
      PyDict (map (fun kc => (fst kc, in_stored_order (snd kc) (entry (fst kc) x)))
                  spaces)
  end.

(** The sample lists the keys of every dictionary in the order in which
    the space stores them, as [Dict.sample] builds it. *)
Fixpoint lists_keys_in_stored_order (self : Space) (x : PyObj) : Prop :=
  match self with
  | MultiBinary _ _ _ => True
  | Dict spaces _ =>
      (exists d, x = PyDict d /\ dict_keys d = dict_keys spaces)
      /\ (fix all (l : list (Key * Space)) : Prop :=
            match l with
            | [] => True
            | kc :: l' =>
                lists_keys_in_stored_order (snd kc) (entry (fst kc) x) /\ all l'
            end) spaces
  end.

(** The loop of [Dict.sample] when neither [mask] nor [probability] is
    given. *)
Fixpoint sample_each (l : list (Key * Space))
  : Result (pydict PyObj * pydict Space) :=
  match l with
  | [] => Ok ([], [])
  | kc :: l' =>
      '(v, c') <- Space_sample (snd kc) PyNone PyNone ;;
      '(vs, cs) <- sample_each l' ;;
      Ok ((fst kc, v) :: vs, (fst kc, c') :: cs)
  end.

(** The children handed to the constructor. *)
Definition children_of (spaces : spaces_arg) : list (Key * Space) :=
  match spaces with
  | SpOrderedDict items | SpMapping items | SpSequence items => items
  | SpNone | SpOther _ => []
  end.

(** The two spaces differ in their generators at most: the same
    classes, the same [n] and shape, the same keys in the same order. *)
Fixpoint same_structure (a b : Space) : Prop :=
  match a, b with
  | MultiBinary n shape _, MultiBinary n' shape' _ => n = n' /\ shape = shape'
  | Dict sa _, Dict sb _ =>
      (fix all2 (la lb : list (Key * Space)) : Prop :=
         match la, lb with
         | [], [] => True
         | x :: la', y :: lb' =>
             fst x = fst y /\ same_structure (snd x) (snd y) /\ all2 la' lb'
         | _, _ => False
         end) sa sb
  | _, _ => False
  end.

(** The loop of [Dict.sample]: [arg] gives the [mask] and the
    [probability] handed to the child of each key. *)
Definition sample_children (arg : Key -> Result (PyObj * PyObj))
  : list (Key * Space) -> Result (pydict PyObj * pydict Space) :=
  fix go (l : list (Key * Space)) : Result (pydict PyObj * pydict Space) :=
    match l with
    | [] => Ok ([], [])
    | kc :: l' =>
        '(m, p) <- arg (fst kc) ;;
        '(v, c') <- Space_sample (snd kc) m p ;;
        '(vs, cs) <- go l' ;;
        Ok ((fst kc, v) :: vs, (fst kc, c') :: cs)
    end.

(** The loop of [Dict.contains]. *)
Definition contains_all (xd : pydict PyObj)
  : list (Key * Space) -> Result bool :=
  fix all (l : list (Key * Space)) : Result bool :=
    match l with
    | [] => Ok true
    | kc :: l' =>
        v <- dict_getitem (fst kc) xd ;;
        b <- Space_contains (snd kc) v ;;
        if b then all l' else Ok false
    end.

(** The items that [Dict.seed] hands to its loop: the key and the [seed]
    method of each child with the seed meant for it. *)
Definition seed_items (spaces : pydict Space) (seeds : list PyObj)
  : list (Key * seed_method * PyObj) :=
  map (fun cs => (fst (fst cs), Space_seed (snd (fst cs)), snd cs))
      (combine spaces seeds).

(** The keywords as items of the dictionary. *)
Definition kwargs_items (kwargs : list (string * Space)) : list (Key * Space) :=
  map (fun ks => (KStr (fst ks), snd ks)) kwargs.

End Vocabulary.

(* ================================================================== *)
(** ** A random source for the examples *)

(** The generator is a counter [g]; the [i]-th draw of a call is taken
    from [g + i].  With [g = 0] the first float drawn is [0.0], the
    least value of [[0, 1)]. *)
Definition counter_integers (lo hi : Z) (k : nat) (g : Z) : list Z * Z :=
  (map (fun i => lo + (g + Z.of_nat i) mod (hi - lo)) (seq 0 k), g + Z.of_nat k).

Definition counter_random (k : nat) (g : Z) : list Q * Z :=
  (map (fun i => Qred (Qmake ((g + Z.of_nat i) mod 8) 8)) (seq 0 k),
   g + Z.of_nat k).

Definition counter_seed (seed : PyObj) (g : Z) : Result (PyObj * Z) :=
  match seed with
  | PyNone => Ok (PyInt g, g)
  | PyInt z => Ok (PyInt z, z)
  | _ => Unmodelled
  end.

Definition counterRS : RandomSource.
Proof.
  refine {| Generator := Z;
            rs_integers := counter_integers;
            rs_random := counter_random;
            base_seed := counter_seed |}.
  - intros lo hi k g. unfold counter_integers; simpl.
    now rewrite length_map, length_seq.
  - intros lo hi k g Hlt. unfold counter_integers; simpl.
    apply Forall_forall. intros z Hz. apply in_map_iff in Hz.
    destruct Hz as [i [<- _]].
    pose proof (Z.mod_pos_bound (g + Z.of_nat i) (hi - lo)). lia.
  - intros k g. unfold counter_random; simpl.
    now rewrite length_map, length_seq.
  - intros k g. unfold counter_random. cbn [fst].
    apply Forall_forall. intros q Hq. apply in_map_iff in Hq.
    destruct Hq as [i [<- _]].
    pose proof (Z.mod_pos_bound (g + Z.of_nat i) 8 eq_refl) as Hb.
    split; rewrite Qred_correct; unfold Qle, Qlt; simpl; lia.
Defined.

(** Two spaces for the examples: [MultiBinary(1)] and [MultiBinary(2)]. *)
Definition ex_A : @Space counterRS := @MultiBinary counterRS (n_int 1) [1] 0.
Definition ex_B : @Space counterRS := @MultiBinary counterRS (n_int 2) [2] 0.

(** [Dict({"a": MultiBinary(1), "b": Dict({"c": MultiBinary(2)})})] *)
Definition ex_D : @Space counterRS :=
  @Dict counterRS
    [(KStr "a", ex_A); (KStr "b", @Dict counterRS [(KStr "c", ex_B)] 0)] 0.

(** A sample of [ex_D] that lists its keys in another order than
    [ex_D] stores them. *)
Definition ex_sample : PyObj :=
  PyDict [(KStr "b", PyDict [(KStr "c", PyNdarray (mk_ndarray int8 [2] [SInt 0; SInt 1]))]);
          (KStr "a", PyNdarray (mk_ndarray int8 [1] [SInt 1]))].

(* ================================================================== *)
(** ** Basic facts *)

Lemma tuple_eqb_eq (a b : list Z) : tuple_eqb a b = true <-> a = b.
Proof.
  revert b; induction a as [|x a IH]; intros [|y b]; simpl; split;
    try congruence; try reflexivity.
  - intros H. apply andb_true_iff in H. destruct H as [Hx Hab].
    apply Z.eqb_eq in Hx. apply IH in Hab. congruence.
  - intros H. injection H as -> ->. rewrite Z.eqb_refl. simpl. now apply IH.
Qed.

Lemma tuple_eqb_refl (a : list Z) : tuple_eqb a a = true.
Proof. now apply tuple_eqb_eq. Qed.

Lemma key_eqb_eq (a b : Key) : key_eqb a b = true <-> a = b.
Proof.
  destruct a, b; simpl; split; try congruence.
  - intros H. apply String.eqb_eq in H. congruence.
  - intros H. injection H as ->. apply String.eqb_refl.
  - intros H. apply Z.eqb_eq in H. congruence.
  - intros H. injection H as ->. apply Z.eqb_refl.
Qed.

Lemma key_eqb_refl (a : Key) : key_eqb a a = true.
Proof. now apply key_eqb_eq. Qed.

Lemma key_eqb_neq (a b : Key) : key_eqb a b = false <-> a <> b.
Proof.
  split.
  - intros H Heq. apply key_eqb_eq in Heq. congruence.
  - intros H. destruct (key_eqb a b) eqn:E; [|reflexivity].
    apply key_eqb_eq in E. contradiction.
Qed.

Lemma key_eqb_sym (a b : Key) : key_eqb a b = key_eqb b a.
Proof.
  destruct (key_eqb a b) eqn:E.
  - apply key_eqb_eq in E. subst. symmetry. apply key_eqb_refl.
  - apply key_eqb_neq in E. symmetry. apply key_eqb_neq. congruence.
Qed.

Lemma mapM_length {A B : Type} (f : A -> Result B) (l : list A) (r : list B) :
  mapM f l = Ok r -> List.length r = List.length l.
Proof.
  revert r; induction l as [|x l IH]; simpl; intros r H.
  - injection H as <-. reflexivity.
  - destruct (f x); simpl in H; try discriminate.
    destruct (mapM f l); simpl in H; try discriminate.
    injection H as <-. simpl. f_equal. now apply IH.
Qed.

Lemma mapM_Ok_ext {A B : Type} (f : A -> Result B) (g : A -> B) (l : list A) :
  Forall (fun x => f x = Ok (g x)) l -> mapM f l = Ok (map g l).
Proof.
  induction 1 as [|x l Hx _ IH]; simpl; [reflexivity|].
  now rewrite Hx, IH.
Qed.

(* ================================================================== *)
(** ** MultiBinary: construction *)

Section MultiBinaryFacts.
Context {RS : RandomSource}.

Lemma mapM_py_int_ints (l : list Z) : mapM py_int (map PyInt l) = Ok l.
Proof.
  induction l as [|z l IH]; simpl; [reflexivity|].
  fold (mapM py_int). now rewrite IH.
Qed.

Lemma mapM_scalar_int_ints (l : list Z) :
  mapM scalar_int (map SInt l) = Ok l.
Proof.
  induction l as [|z l IH]; simpl; [reflexivity|].
  fold (mapM scalar_int). now rewrite IH.
Qed.

Lemma forallb_pos_true (l : list Z) :
  Forall (fun i => 0 < i) l -> forallb (fun i => 0 <? i) l = true.
Proof.
  intros H. apply forallb_forall. intros z Hz.
  rewrite Forall_forall in H. apply Z.ltb_lt. now apply H.
Qed.

Lemma forallb_pos_false (l : list Z) :
  Exists (fun i => i <= 0) l -> forallb (fun i => 0 <? i) l = false.
Proof.
  induction 1 as [z l Hz | z l _ IH]; simpl.
  - apply Z.ltb_ge in Hz. now rewrite Hz.
  - rewrite IH. apply andb_false_r.
Qed.

(** What a constructed [MultiBinary] looks like: the shape is [n] as
    a tuple and every entry is positive. *)
Lemma MultiBinary_init_inv (arg : PyObj) (g : Generator) (self : Space) :
  MultiBinary_init arg g = Ok self ->
  exists n, self = MultiBinary n (size_shape n) g
            /\ Forall (fun i => 0 < i) (size_shape n).
Proof.
  unfold MultiBinary_init. intros H.
  assert (Hpos : forall l, forallb (fun i => 0 <? i) l = true ->
                           Forall (fun i => 0 < i) l).
  { intros l Hl. apply Forall_forall. intros z Hz.
    rewrite forallb_forall in Hl. apply Z.ltb_lt. now apply Hl. }
  destruct arg as [ | z | q | l | d | a]; try discriminate.
  - destruct (forallb _ [z]) eqn:E; try discriminate.
    injection H as <-. exists (n_int z). split; [reflexivity|]. now apply Hpos.
  - destruct (mapM py_int l) as [input_n| |]; simpl in H; try discriminate.
    destruct (forallb _ input_n) eqn:E; try discriminate.
    injection H as <-. exists (n_tuple input_n). split; [reflexivity|].
    now apply Hpos.
  - destruct (nd_shape a) as [|d0 [|d1 rest]]; try discriminate.
    destruct (mapM scalar_int (nd_data a)) as [input_n| |]; simpl in H;
      try discriminate.
    destruct (forallb _ input_n) eqn:E; try discriminate.
    injection H as <-. exists (n_tuple input_n). split; [reflexivity|].
    now apply Hpos.
Qed.

(** C7, as the code has it.  [MultiBinary(n)] accepts a positive
    integer, a sequence of positive integers or a one-dimensional array
    of positive integers, and stores it as [n] (the integer, or the
    tuple of the entries) with the matching shape; an entry that is not
    positive fails the assertion, in a sequence as in an array; an
    argument of any other type is rejected with a [ValueError] whose
    message ends in the type received. *)
Theorem MultiBinary_init_spec (g : Generator) :
  (forall z, 0 < z ->
     MultiBinary_init (PyInt z) g = Ok (MultiBinary (n_int z) [z] g))
  /\ (forall z, z <= 0 ->
        exists m, MultiBinary_init (PyInt z) g = Raise (AssertionError m))
  /\ (forall l, Forall (fun i => 0 < i) l ->
        MultiBinary_init (PyList (map PyInt l)) g
        = Ok (MultiBinary (n_tuple l) l g))
  /\ (forall l, Exists (fun i => i <= 0) l ->
        exists m, MultiBinary_init (PyList (map PyInt l)) g
                  = Raise (AssertionError m))
  /\ (forall a l,
        nd_shape a = [Z.of_nat (List.length l)] -> nd_data a = map SInt l ->
        Forall (fun i => 0 < i) l ->
        MultiBinary_init (PyNdarray a) g = Ok (MultiBinary (n_tuple l) l g))
  /\ (forall a l,
        nd_shape a = [Z.of_nat (List.length l)] -> nd_data a = map SInt l ->
        Exists (fun i => i <= 0) l ->
        exists m, MultiBinary_init (PyNdarray a) g = Raise (AssertionError m))
  /\ (forall n, type_of n <> ty_int -> type_of n <> ty_list ->
                type_of n <> ty_ndarray ->
        MultiBinary_init n g
        = Raise (ValueError
            [Lit "Expected n to be an int or a sequence of ints, actual type: ";
             Ty (type_of n)])).
Proof.
  repeat split.
  - intros z Hz. unfold MultiBinary_init. simpl.
    apply Z.ltb_lt in Hz. now rewrite Hz.
  - intros z Hz. unfold MultiBinary_init. simpl.
    apply Z.ltb_ge in Hz. rewrite Hz. simpl. eauto.
  - intros l Hl. unfold MultiBinary_init.
    rewrite mapM_py_int_ints. simpl. now rewrite forallb_pos_true.
  - intros l Hl. unfold MultiBinary_init.
    rewrite mapM_py_int_ints. simpl. rewrite forallb_pos_false by assumption.
    eauto.
  - intros a l Hsh Hd Hl. unfold MultiBinary_init.
    rewrite Hsh, Hd, mapM_scalar_int_ints. simpl. now rewrite forallb_pos_true.
  - intros a l Hsh Hd Hl. unfold MultiBinary_init.
    rewrite Hsh, Hd, mapM_scalar_int_ints. simpl.
    rewrite forallb_pos_false by assumption. eauto.
  - intros n H1 H2 H3. destruct n; simpl in *; congruence.
Qed.

End MultiBinaryFacts.

Lemma MultiBinary_init_spec_witness :
  @MultiBinary_init counterRS (PyInt 3) 0
    = Ok (@MultiBinary counterRS (n_int 3) [3] 0)
  /\ (exists m, @MultiBinary_init counterRS (PyInt 0) 0 = Raise (AssertionError m))
  /\ @MultiBinary_init counterRS (PyList (map PyInt [3; 2])) 0
     = Ok (@MultiBinary counterRS (n_tuple [3; 2]) [3; 2] 0)
  /\ (exists m, @MultiBinary_init counterRS (PyList (map PyInt [3; -1])) 0
                = Raise (AssertionError m))
  /\ @MultiBinary_init counterRS
       (PyNdarray (mk_ndarray int64 [2] [SInt 3; SInt 2])) 0
     = Ok (@MultiBinary counterRS (n_tuple [3; 2]) [3; 2] 0)
  /\ (exists m, @MultiBinary_init counterRS
                  (PyNdarray (mk_ndarray int64 [2] [SInt 3; SInt 0])) 0
                = Raise (AssertionError m))
  /\ @MultiBinary_init counterRS (PyFloat 2.5) 0
     = Raise (ValueError
         [Lit "Expected n to be an int or a sequence of ints, actual type: ";
          Ty ty_float]).
Proof.
  destruct (@MultiBinary_init_spec counterRS 0)
    as (H1 & H2 & H3 & H4 & H5 & H6 & H7).
  split; [apply H1; lia|].
  split; [apply H2; lia|].
  split; [apply H3; repeat constructor|].
  split; [apply H4; right; left; lia|].
  split; [apply (H5 (mk_ndarray int64 [2] [SInt 3; SInt 2]) [3; 2]);
          [reflexivity|reflexivity|repeat constructor]|].
  split; [apply (H6 (mk_ndarray int64 [2] [SInt 3; SInt 0]) [3; 0]);
          [reflexivity|reflexivity|right; left; lia]|].
  apply (H7 (PyFloat 2.5)); discriminate.
Defined.

(** C7 as stated fails: [MultiBinary(None)] raises a [ValueError], not a
    [TypeError]. *)
Lemma MultiBinary_init_other_type_not_TypeError :
  @MultiBinary_init counterRS PyNone 0
  = Raise (ValueError
      [Lit "Expected n to be an int or a sequence of ints, actual type: ";
       Ty ty_NoneType])
  /\ ~ (exists m, @MultiBinary_init counterRS PyNone 0 = Raise (TypeError m)).
Proof.
  split; [reflexivity|]. intros [m H]. discriminate H.
Qed.

(* ================================================================== *)
(** ** MultiBinary: membership *)

Lemma forallb_binary (d : list scalar) :
  forallb (fun s => scalar_eq_Z s 0 || scalar_eq_Z s 1) d = true
  <-> Forall binary d.
Proof.
  rewrite forallb_forall, Forall_forall. unfold binary.
  split; intros H s Hs; specialize (H s Hs).
  - now apply orb_true_iff.
  - now apply orb_true_iff.
Qed.

(** C6, as the code has it.  [contains] looks at [x] itself when it is
    an array and at [np.array(x)] when it is a sequence: it returns
    true iff that array has the shape of the space and holds only 0
    and 1; anything that is neither an array nor a sequence is not
    contained; when [np.array(x)] raises, [contains] raises the same. *)
Theorem MultiBinary_contains_spec (shape : list Z) (x : PyObj) :
  (forall a, x = PyNdarray a \/ (is_Sequence x = true /\ np_array x = Ok a) ->
     exists b, MultiBinary_contains shape x = Ok b
               /\ (b = true <-> shape = nd_shape a /\ Forall binary (nd_data a)))
  /\ (is_Sequence x = false -> (forall a, x <> PyNdarray a) ->
      MultiBinary_contains shape x = Ok false)
  /\ (forall e, is_Sequence x = true -> np_array x = Raise e ->
      MultiBinary_contains shape x = Raise e).
Proof.
  assert (Hiff : forall a,
    tuple_eqb shape (nd_shape a)
    && forallb (fun s => scalar_eq_Z s 0 || scalar_eq_Z s 1) (nd_data a) = true
    <-> shape = nd_shape a /\ Forall binary (nd_data a)).
  { intros a. rewrite andb_true_iff, tuple_eqb_eq, forallb_binary. tauto. }
  split; [|split].
  - intros a Ha. exists (tuple_eqb shape (nd_shape a)
      && forallb (fun s => scalar_eq_Z s 0 || scalar_eq_Z s 1) (nd_data a)).
    split; [|apply Hiff].
    unfold MultiBinary_contains.
    destruct Ha as [-> | [Hseq Ha]]; [reflexivity|].
    now rewrite Hseq, Ha.
  - intros Hseq Hnot. unfold MultiBinary_contains. rewrite Hseq. simpl.
    destruct x; try reflexivity. exfalso. now apply (Hnot a).
  - intros e Hseq He. unfold MultiBinary_contains. now rewrite Hseq, He.
Qed.

Lemma MultiBinary_contains_spec_witness :
  (exists b, MultiBinary_contains [2] (PyList [PyInt 0; PyInt 1]) = Ok b
             /\ (b = true <-> [2] = [2] /\ Forall binary [SInt 0; SInt 1]))
  /\ MultiBinary_contains [2] (PyInt 1) = Ok false
  /\ MultiBinary_contains [2] (PyList [PyList [PyInt 0; PyInt 1]; PyList [PyInt 0]])
     = Raise (ValueError
         [Lit "setting an array element with a sequence. The requested array has an inhomogeneous shape"]).
Proof.
  split; [|split].
  - apply (proj1 (MultiBinary_contains_spec [2] (PyList [PyInt 0; PyInt 1]))
             (mk_ndarray int64 [2] [SInt 0; SInt 1])).
    right. split; reflexivity.
  - apply (proj1 (proj2 (MultiBinary_contains_spec [2] (PyInt 1)))).
    + reflexivity.
    + discriminate.
  - apply (proj2 (proj2 (MultiBinary_contains_spec [2]
             (PyList [PyList [PyInt 0; PyInt 1]; PyList [PyInt 0]])))).
    + reflexivity.
    + reflexivity.
Defined.

(** C6 as stated fails: on a ragged list the coercion raises and
    [contains] does not return. *)
Lemma MultiBinary_contains_raises_on_ragged_list :
  MultiBinary_contains [2] (PyList [PyList [PyInt 0; PyInt 1]; PyList [PyInt 0]])
  = Raise (ValueError
      [Lit "setting an array element with a sequence. The requested array has an inhomogeneous shape"])
  /\ ~ (exists b, MultiBinary_contains [2]
                    (PyList [PyList [PyInt 0; PyInt 1]; PyList [PyInt 0]]) = Ok b).
Proof.
  split; [reflexivity|]. intros [b H]. discriminate H.
Qed.

(* ================================================================== *)
(** ** MultiBinary: sampling *)

Section MultiBinarySampling.
Context {RS : RandomSource}.

Lemma astype_int8_small (d : list scalar) :
  Forall (fun s => s = SInt 0 \/ s = SInt 1 \/ s = SInt 2) d ->
  mapM (fun s => z <- scalar_int s ;; Ok (SInt (wrap_int8 z))) d = Ok d.
Proof.
  induction 1 as [|s d Hs _ IH]; simpl; [reflexivity|].
  fold (mapM (fun s => z <- scalar_int s ;; Ok (SInt (wrap_int8 z)))).
  rewrite IH. destruct Hs as [-> | [-> | ->]]; reflexivity.
Qed.

Lemma where_data_length (f : scalar -> bool) (x y : list scalar) :
  List.length x = List.length y ->
  List.length (where_data (map f y) x y) = List.length y.
Proof.
  revert x; induction y as [|v y IH]; intros [|u x] H; simpl in *;
    try discriminate; try reflexivity.
  f_equal. apply IH. congruence.
Qed.

Lemma where_data_nth (f : scalar -> bool) (x y : list scalar) (i : nat) (m : scalar) :
  List.length x = List.length y ->
  nth_error y i = Some m ->
  exists u, nth_error x i = Some u
            /\ nth_error (where_data (map f y) x y) i
               = Some (if f m then u else m).
Proof.
  revert x i; induction y as [|v y IH]; intros [|u x] i H Hi; simpl in *;
    try discriminate; try (destruct i; discriminate).
  destruct i as [|i]; simpl in *.
  - injection Hi as ->. exists u. split; reflexivity.
  - apply IH; [congruence|assumption].
Qed.

(** C3.  Let [self] be a constructed [MultiBinary] in any generator
    state, and [mask] an [int8] array of the shape of [self] whose
    entries are 0, 1 or 2.  Then [sample(mask)] returns an [int8]
    array of that shape; where the mask is 0 or 1 the sample is the
    mask, where the mask is 2 the sample is 0 or 1. *)
Theorem MultiBinary_sample_mask (arg : PyObj) (g : Generator) (self : Space)
        (mask : ndarray) :
  MultiBinary_init arg g = Ok self ->
  nd_dtype mask = int8 ->
  Space_shape self = Some (nd_shape mask) ->
  List.length (nd_data mask) = Z.to_nat (nd_size (nd_shape mask)) ->
  Forall (fun s => s = SInt 0 \/ s = SInt 1 \/ s = SInt 2) (nd_data mask) ->
  exists r self',
    Space_sample self (PyNdarray mask) PyNone = Ok (PyNdarray r, self')
    /\ nd_dtype r = int8
    /\ nd_shape r = nd_shape mask
    /\ List.length (nd_data r) = List.length (nd_data mask)
    /\ forall i m, nth_error (nd_data mask) i = Some m ->
         exists v, nth_error (nd_data r) i = Some v
                   /\ (m = SInt 0 \/ m = SInt 1 -> v = m)
                   /\ (m = SInt 2 -> v = SInt 0 \/ v = SInt 1).
Proof.
  intros Hinit Hdt Hshape Hlen Hvals.
  destruct (MultiBinary_init_inv _ _ Hinit) as (n & -> & Hpos).
  simpl in Hshape. injection Hshape as Hshape.
  set (draw := rs_integers 0 2 (Z.to_nat (nd_size (size_shape n))) g).
  assert (Hdl : List.length (map SInt (fst draw)) = List.length (nd_data mask)).
  { rewrite length_map. unfold draw. rewrite rs_integers_length.
    now rewrite Hlen, Hshape. }
  assert (Hdr : Forall (fun z => 0 <= z < 2) (fst draw)).
  { unfold draw. apply rs_integers_range. lia. }
  exists (mk_ndarray int8 (nd_shape mask)
            (where_data (map (fun s => scalar_eq_Z s 2) (nd_data mask))
                        (map SInt (fst draw)) (nd_data mask))),
         (MultiBinary n (size_shape n) (snd draw)).
  split; [|split; [|split; [|split]]].
  - simpl. unfold MultiBinary_sample.
    rewrite Hdt. simpl. rewrite <- Hshape, tuple_eqb_refl. simpl.
    assert (Hchk : forallb (fun s => scalar_eq_Z s 0 || scalar_eq_Z s 1
                                     || scalar_eq_Z s 2) (nd_data mask) = true).
    { apply forallb_forall. intros s Hs. rewrite Forall_forall in Hvals.
      destruct (Hvals s Hs) as [-> | [-> | ->]]; reflexivity. }
    rewrite Hchk. simpl. unfold astype_int8.
    rewrite (astype_int8_small Hvals). simpl.
    unfold np_where. simpl. subst draw. rewrite Hshape. reflexivity.
  - reflexivity.
  - reflexivity.
  - simpl. now apply where_data_length.
  - intros i m Hi. simpl.
    destruct (where_data_nth (fun s => scalar_eq_Z s 2) (map SInt (fst draw))
                             (nd_data mask) i Hdl Hi) as (u & Hu & Hw).
    rewrite Hw. eexists. split; [reflexivity|]. split.
    + intros [-> | ->]; reflexivity.
    + intros ->. simpl.
      apply nth_error_In in Hu. apply in_map_iff in Hu.
      destruct Hu as (z & <- & Hz). rewrite Forall_forall in Hdr.
      specialize (Hdr z Hz).
      assert (z = 0 \/ z = 1) as [-> | ->] by lia; auto.
Qed.

(** What [sample(probability=p)] computes once [p] has passed the
    assertions: one comparison [u <= p] per position. *)
Lemma MultiBinary_sample_probability_eq (n : MBn) (shape : list Z)
      (g : Generator) (p : ndarray) :
  nd_dtype p = float64 ->
  nd_shape p = shape ->
  Forall (fun s => (0 <= scalar_Q s)%Q /\ (scalar_Q s <= 1)%Q) (nd_data p) ->
  MultiBinary_sample n shape g PyNone (PyNdarray p)
  = Ok (bool_astype_int8 shape
          (le_data (map SFloat (fst (rs_random (Z.to_nat (nd_size shape)) g)))
                   (nd_data p)),
        snd (rs_random (Z.to_nat (nd_size shape)) g)).
Proof.
  intros Hdt Hsh Hr. unfold MultiBinary_sample.
  rewrite Hdt, Hsh, tuple_eqb_refl. simpl.
  assert (Hchk : forallb (fun s => Qle_bool 0 (scalar_Q s)
                                   && Qle_bool (scalar_Q s) 1) (nd_data p) = true).
  { apply forallb_forall. intros s Hs. rewrite Forall_forall in Hr.
    destruct (Hr s Hs) as [H0 H1]. apply andb_true_iff.
    split; now apply Qle_bool_iff. }
  rewrite Hchk. reflexivity.
Qed.

Lemma le_data_ones (us : list Q) (ps : list scalar) :
  List.length us = List.length ps ->
  Forall (fun q => (0 <= q)%Q /\ (q < 1)%Q) us ->
  Forall (fun s => (scalar_Q s == 1)%Q) ps ->
  le_data (map SFloat us) ps = map (fun _ => true) ps.
Proof.
  revert us; induction ps as [|s ps IH]; intros [|u us] Hlen Hus Hps;
    simpl in *; try discriminate; try reflexivity.
  inversion Hus as [|? ? [_ Hu] Hus']; subst.
  inversion Hps as [|? ? Hs Hps']; subst.
  rewrite IH by (try congruence; assumption). f_equal.
  apply Qle_bool_iff. rewrite Hs. now apply Qlt_le_weak.
Qed.

Lemma le_data_zeros (us : list Q) (ps : list scalar) :
  List.length us = List.length ps ->
  Forall (fun q => (0 <= q)%Q /\ (q < 1)%Q) us ->
  Forall (fun s => (scalar_Q s == 0)%Q) ps ->
  le_data (map SFloat us) ps = map (fun u => Qeq_bool u 0) us.
Proof.
  revert us; induction ps as [|s ps IH]; intros [|u us] Hlen Hus Hps;
    simpl in *; try discriminate; try reflexivity.
  inversion Hus as [|? ? [Hu _] Hus']; subst.
  inversion Hps as [|? ? Hs Hps']; subst.
  rewrite IH by (try congruence; assumption). f_equal.
  destruct (Qeq_bool u 0) eqn:E.
  - apply Qeq_bool_iff in E. apply Qle_bool_iff. rewrite Hs, E. apply Qle_refl.
  - destruct (Qle_bool u (scalar_Q s)) eqn:E'; [|reflexivity].
    apply Qle_bool_iff in E'. rewrite Hs in E'.
    assert (Heq : (u == 0)%Q) by (apply Qle_antisym; assumption).
    apply Qeq_bool_iff in Heq. congruence.
Qed.

(** A probability array of ones gives the array of ones, whatever the
    generator draws. *)
Lemma MultiBinary_sample_probability_ones (n : MBn) (shape : list Z)
      (g : Generator) (p : ndarray) :
  nd_dtype p = float64 ->
  nd_shape p = shape ->
  List.length (nd_data p) = Z.to_nat (nd_size shape) ->
  Forall (fun s => (scalar_Q s == 1)%Q) (nd_data p) ->
  exists g',
    MultiBinary_sample n shape g PyNone (PyNdarray p)
    = Ok (mk_ndarray int8 shape (map (fun _ => SInt 1) (nd_data p)), g').
Proof.
  intros Hdt Hsh Hlen Hones. eexists.
  rewrite MultiBinary_sample_probability_eq; try assumption.
  - unfold bool_astype_int8. rewrite le_data_ones; try assumption.
    + rewrite map_map. reflexivity.
    + now rewrite rs_random_length.
    + apply rs_random_range.
  - eapply Forall_impl; [|exact Hones]. intros s Hs. simpl in Hs.
    rewrite Hs. split; discriminate.
Qed.

(** A probability array of zeros gives a 1 exactly where the
    generator draws [0.0]: the comparison is [u <= p]. *)
Lemma MultiBinary_sample_probability_zeros (n : MBn) (shape : list Z)
      (g : Generator) (p : ndarray) :
  nd_dtype p = float64 ->
  nd_shape p = shape ->
  List.length (nd_data p) = Z.to_nat (nd_size shape) ->
  Forall (fun s => (scalar_Q s == 0)%Q) (nd_data p) ->
  exists g',
    MultiBinary_sample n shape g PyNone (PyNdarray p)
    = Ok (mk_ndarray int8 shape
            (map (fun u => SInt (if Qeq_bool u 0 then 1 else 0))
                 (fst (rs_random (Z.to_nat (nd_size shape)) g))), g').
Proof.
  intros Hdt Hsh Hlen Hzeros. eexists.
  rewrite MultiBinary_sample_probability_eq; try assumption.
  - unfold bool_astype_int8. rewrite le_data_zeros; try assumption.
    + rewrite map_map. reflexivity.
    + now rewrite rs_random_length.
    + apply rs_random_range.
  - eapply Forall_impl; [|exact Hzeros]. intros s Hs. simpl in Hs.
    rewrite Hs. split; discriminate.
Qed.

End MultiBinarySampling.

Lemma MultiBinary_sample_mask_witness :
  exists r self',
    Space_sample (@MultiBinary counterRS (n_int 3) [3] 0)
      (PyNdarray (mk_ndarray int8 [3] [SInt 2; SInt 1; SInt 0])) PyNone
    = Ok (PyNdarray r, self')
    /\ nd_dtype r = int8
    /\ nd_shape r = [3]
    /\ List.length (nd_data r) = 3%nat
    /\ forall i m, nth_error [SInt 2; SInt 1; SInt 0] i = Some m ->
         exists v, nth_error (nd_data r) i = Some v
                   /\ (m = SInt 0 \/ m = SInt 1 -> v = m)
                   /\ (m = SInt 2 -> v = SInt 0 \/ v = SInt 1).
Proof.
  apply (@MultiBinary_sample_mask counterRS (PyInt 3) 0
           (@MultiBinary counterRS (n_int 3) [3] 0)
           (mk_ndarray int8 [3] [SInt 2; SInt 1; SInt 0])).
  - reflexivity.
  - reflexivity.
  - reflexivity.
  - reflexivity.
  - apply Forall_cons; [right; right; reflexivity|].
    apply Forall_cons; [right; left; reflexivity|].
    apply Forall_cons; [left; reflexivity|].
    apply Forall_nil.
Defined.

(** C4 fails on the code.  Take [MultiBinary(1)] with a generator whose
    next float is [0.0], the least value of [[0, 1)]: sampling with the
    probability array [[0.0]] returns [[1]], because the draw is
    compared with [<=]. *)
Theorem MultiBinary_sample_zero_probability_gives_one :
  fst (@rs_random counterRS 1 0) = [0%Q]
  /\ exists self,
       @MultiBinary_init counterRS (PyInt 1) 0 = Ok self
       /\ Space_sample self PyNone
            (PyNdarray (mk_ndarray float64 [1] [SFloat 0]))
          = Ok (PyNdarray (mk_ndarray int8 [1] [SInt 1]),
                @MultiBinary counterRS (n_int 1) [1] 1).
Proof.
  split; [reflexivity|]. eexists. split; reflexivity.
Qed.

(* ================================================================== *)
(** ** Dict: conversion from the JSON form *)

Section DictFromJsonable.
Context {RS : RandomSource}.

(** C10.  On a [Dict] without children [from_jsonable] raises
    [StopIteration], whatever it is given: there is no first child to
    take the batch size from. *)
Theorem Dict_from_jsonable_no_children (g : Generator) (sample_n : PyObj) :
  Space_from_jsonable (Dict [] g) sample_n = Raise StopIteration.
Proof. reflexivity. Qed.

Lemma mapM_Forall2 {A B : Type} (f : A -> Result B) (l : list A) (r : list B) :
  Forall2 (fun x y => f x = Ok y) l r -> mapM f l = Ok r.
Proof.
  induction 1 as [|x y l r Hxy _ IH]; simpl; [reflexivity|].
  fold (mapM f). now rewrite Hxy, IH.
Qed.

Lemma mapM_Ok_in {A B : Type} (f : A -> Result B) (g : A -> B) (l : list A) :
  (forall x, In x l -> f x = Ok (g x)) -> mapM f l = Ok (map g l).
Proof.
  intros H. apply mapM_Ok_ext. now apply Forall_forall.
Qed.

(** C9.  Let every child of a [Dict] decode its entry of [sample_n],
    the first stored child to the batch [first], and let no child
    decode to a batch shorter than [first].  Then [from_jsonable]
    raises nothing and returns [len(first)] rows; row [n] holds, for
    every child, element [n] of the batch decoded for it.  What the
    longer batches hold beyond [len(first)] is dropped. *)
Theorem Dict_from_jsonable_truncates (g : Generator)
        (k0 : Key) (c0 : Space) (rest : list (Key * Space))
        (sample_n : PyObj) (first : list PyObj)
        (decoded : pydict (list PyObj)) :
  Forall2 (fun kc kv =>
             fst kv = fst kc
             /\ exists j, py_getitem sample_n (fst kc) = Ok j
                          /\ Space_from_jsonable (snd kc) j = Ok (snd kv))
          ((k0, c0) :: rest) ((k0, first) :: decoded) ->
  Forall (fun kv => (List.length first <= List.length (snd kv))%nat) decoded ->
  exists result,
    Space_from_jsonable (Dict ((k0, c0) :: rest) g) sample_n = Ok result
    /\ List.length result = List.length first
    /\ forall n, (n < List.length first)%nat ->
         nth_error result n = Some (row_at ((k0, first) :: decoded) n).
Proof.
  intros Hdec Hlen.
  set (dol := (k0, first) :: decoded) in *.
  exists (map (row_at dol) (seq 0 (List.length first))).
  split; [|split].
  - cbn [Space_from_jsonable].
    rewrite (mapM_Forall2 _ (r := dol)).
    + cbn [bind dict_values dol map snd py_next].
      apply mapM_Ok_in. intros n Hn. apply in_seq in Hn.
      unfold row_at.
      rewrite (mapM_Ok_in _ (fun kv => (fst kv, nth n (snd kv) PyNone))).
      * reflexivity.
      * intros kv Hkv. unfold list_getitem.
        assert (Hge : (List.length first <= List.length (snd kv))%nat).
        { destruct Hkv as [<- | Hkv]; [simpl; lia|].
          rewrite Forall_forall in Hlen. now apply Hlen. }
        rewrite (nth_error_nth' (snd kv) PyNone) by lia. reflexivity.
    + eapply Forall2_impl; [|exact Hdec].
      intros [k c] [k' v] [Hk (j & Hj & Hv)]. simpl in *. subst k'.
      rewrite Hj. simpl. rewrite Hv. reflexivity.
  - now rewrite length_map, length_seq.
  - intros n Hn. rewrite nth_error_map.
    rewrite (nth_error_nth' _ 0%nat) by (now rewrite length_seq).
    rewrite seq_nth by assumption. reflexivity.
Qed.

End DictFromJsonable.

Lemma Dict_from_jsonable_truncates_witness :
  exists result,
    Space_from_jsonable
      (@Dict counterRS [(KStr "a", ex_A); (KStr "b", ex_A)] 0)
      (PyDict [(KStr "a", PyList [PyList [PyInt 0]]);
               (KStr "b", PyList [PyList [PyInt 1]; PyList [PyInt 0]])])
    = Ok result
    /\ List.length result = 1%nat
    /\ forall n, (n < 1)%nat ->
         nth_error result n
         = Some (row_at
             [(KStr "a", [PyNdarray (mk_ndarray int8 [1] [SInt 0])]);
              (KStr "b", [PyNdarray (mk_ndarray int8 [1] [SInt 1]);
                          PyNdarray (mk_ndarray int8 [1] [SInt 0])])] n).
Proof.
  apply (@Dict_from_jsonable_truncates counterRS 0 (KStr "a") ex_A
           [(KStr "b", ex_A)]
           (PyDict [(KStr "a", PyList [PyList [PyInt 0]]);
                    (KStr "b", PyList [PyList [PyInt 1]; PyList [PyInt 0]])])
           [PyNdarray (mk_ndarray int8 [1] [SInt 0])]
           [(KStr "b", [PyNdarray (mk_ndarray int8 [1] [SInt 1]);
                        PyNdarray (mk_ndarray int8 [1] [SInt 0])])]).
  - apply Forall2_cons.
    + split; [reflexivity|]. eexists. split; reflexivity.
    + apply Forall2_cons; [|apply Forall2_nil].
      split; [reflexivity|]. eexists. split; reflexivity.
  - apply Forall_cons; [simpl; lia|apply Forall_nil].
Defined.

(* ================================================================== *)
(** ** Facts about dictionaries *)

Lemma dict_get_some_in {V : Type} (k : Key) (d : pydict V) :
  In k (dict_keys d) <-> exists v, dict_get k d = Some v.
Proof.
  induction d as [|[k' v'] d IH]; simpl.
  - split; [contradiction|]. intros [v H]. discriminate.
  - destruct (key_eqb k k') eqn:E.
    + apply key_eqb_eq in E. subst. split; eauto.
    + apply key_eqb_neq in E. rewrite <- IH. split.
      * intros [H | H]; [congruence|assumption].
      * auto.
Qed.

Lemma dict_mem_in {V : Type} (k : Key) (d : pydict V) :
  dict_mem k d = true <-> In k (dict_keys d).
Proof.
  rewrite dict_get_some_in. unfold dict_mem.
  destruct (dict_get k d); split; eauto; try discriminate.
  intros [v H]. discriminate.
Qed.

Lemma dict_keys_length {V : Type} (d : pydict V) :
  List.length (dict_keys d) = List.length d.
Proof. apply length_map. Qed.

(** On dicts, whose keys are distinct, [a.keys() == b.keys()] says that
    the two hold the same keys. *)
Lemma keys_eqb_iff {V W : Type} (a : pydict V) (b : pydict W) :
  NoDup (dict_keys a) -> NoDup (dict_keys b) ->
  (keys_eqb a b = true <-> forall k, In k (dict_keys a) <-> In k (dict_keys b)).
Proof.
  intros Ha Hb. unfold keys_eqb. rewrite andb_true_iff, Nat.eqb_eq, forallb_forall.
  split.
  - intros [Hlen Hincl].
    assert (Hab : incl (dict_keys a) (dict_keys b)).
    { intros k Hk. apply dict_mem_in. now apply Hincl. }
    intros k. split; [apply Hab|].
    apply (NoDup_length_incl Ha); [|exact Hab].
    rewrite !dict_keys_length. lia.
  - intros Heq. split.
    + rewrite <- !dict_keys_length. apply Nat.le_antisymm.
      * apply NoDup_incl_length; [assumption|]. intros k. apply Heq.
      * apply NoDup_incl_length; [assumption|]. intros k. apply Heq.
    + intros k Hk. apply dict_mem_in. now apply Heq.
Qed.

Lemma dict_get_map {V W : Type} (f : V -> W) (k : Key) (d : pydict V) :
  dict_get k (map (fun kv => (fst kv, f (snd kv))) d)
  = option_map f (dict_get k d).
Proof.
  induction d as [|[k' v] d IH]; simpl; [reflexivity|].
  destruct (key_eqb k k'); [reflexivity|assumption].
Qed.

Lemma dict_set_keys {V : Type} (k : Key) (v : V) (d : pydict V) :
  In k (dict_keys d) -> dict_keys (dict_set k v d) = dict_keys d.
Proof.
  induction d as [|[k' v'] d IH]; simpl; [contradiction|].
  intros H. destruct (key_eqb k k') eqn:E; simpl; [reflexivity|].
  f_equal. apply IH. destruct H as [H | H]; [|assumption].
  apply key_eqb_neq in E. congruence.
Qed.

(** Setting a key that is present rewrites the one entry of that key. *)
Lemma dict_set_present {V : Type} (k : Key) (v : V) (d : pydict V) :
  In k (dict_keys d) -> NoDup (dict_keys d) ->
  dict_set k v d
  = map (fun kv => if key_eqb k (fst kv) then (fst kv, v) else kv) d.
Proof.
  induction d as [|[k' v'] d IH]; simpl; [contradiction|].
  intros Hin Hnd. inversion Hnd as [|? ? Hnotin Hnd']; subst.
  destruct (key_eqb k k') eqn:E.
  - apply key_eqb_eq in E. subst k'. f_equal.
    symmetry. rewrite <- (map_id d) at 2. apply map_ext_in.
    intros [k2 v2] H2. simpl.
    destruct (key_eqb k k2) eqn:E2; [|reflexivity].
    apply key_eqb_eq in E2. subst k2. exfalso. apply Hnotin.
    apply in_map_iff. exists (k, v2). auto.
  - f_equal. apply IH; [|assumption].
    destruct Hin as [H | H]; [|assumption].
    apply key_eqb_neq in E. congruence.
Qed.

(** A run of assignments to keys that are present. *)
Lemma dict_set_all {V : Type} (new : Key -> V) (ks : list Key) (d : pydict V) :
  NoDup (dict_keys d) -> incl ks (dict_keys d) ->
  fold_left (fun st k => dict_set k (new k) st) ks d
  = map (fun kv => (fst kv, if existsb (key_eqb (fst kv)) ks
                            then new (fst kv) else snd kv)) d.
Proof.
  revert d. induction ks as [|k ks IH]; intros d Hnd Hincl; simpl.
  - rewrite <- (map_id d) at 1. apply map_ext. now intros [k v].
  - assert (Hk : In k (dict_keys d)) by (apply Hincl; now left).
    rewrite IH.
    + rewrite dict_set_present by assumption. rewrite map_map.
      apply map_ext. intros [k' v']. simpl.
      rewrite (key_eqb_sym k' k).
      destruct (key_eqb k k') eqn:E; simpl; [|reflexivity].
      apply key_eqb_eq in E. subst k'.
      now destruct (existsb (key_eqb k) ks).
    + now rewrite dict_set_keys.
    + rewrite dict_set_keys by assumption.
      intros k' Hk'. apply Hincl. now right.
Qed.

Lemma existsb_key_in (k : Key) (ks : list Key) :
  existsb (key_eqb k) ks = true <-> In k ks.
Proof.
  rewrite existsb_exists. split.
  - intros [k' [Hin E]]. apply key_eqb_eq in E. now subst.
  - intros H. exists k. split; [assumption|apply key_eqb_refl].
Qed.

(* ================================================================== *)
(** ** Dict: seeding *)

Section DictSeeding.
Context {RS : RandomSource}.

Lemma seed_by_keys_ok (methods : pydict seed_method) (seed_d : pydict PyObj)
      (report : Key -> PyObj) (seeded : Key -> Space) (ks : list Key) :
  forall st,
    (forall k, In k ks ->
       exists m s, dict_get k methods = Some m /\ dict_get k seed_d = Some s
                   /\ m s = Ok (report k, seeded k)) ->
    seed_by_keys methods seed_d ks st
    = Ok (map (fun k => (k, report k)) ks,
          fold_left (fun st k => dict_set k (seeded k) st) ks st).
Proof.
  induction ks as [|k ks IH]; intros st H; simpl; [reflexivity|].
  destruct (H k (or_introl eq_refl)) as (m & s & Hm & Hs & Hms).
  unfold dict_getitem. rewrite Hm, Hs. simpl. rewrite Hms. simpl.
  rewrite IH; [reflexivity|].
  intros k' Hk'. apply H. now right.
Qed.

(** C8.  Let [self] be a [Dict].  [seed] with a dict whose keys are not
    exactly the keys of the children raises a [ValueError]; [seed] with
    anything that is not [None], an integer or a dict raises a
    [TypeError] that names the type; [seed] with a dict over exactly
    the keys of the children calls [seed] of each child with the entry
    of its key, and returns the dict that maps each key to the report
    of that call, leaving the children as these calls leave them. *)
Theorem Dict_seed_spec (spaces : pydict Space) (g : Generator) :
  NoDup (dict_keys spaces) ->
  (forall seed_d,
     NoDup (dict_keys seed_d) ->
     ~ (forall k, In k (dict_keys seed_d) <-> In k (dict_keys spaces)) ->
     exists m, Space_seed (Dict spaces g) (PyDict seed_d) = Raise (ValueError m))
  /\ (forall seed,
        type_of seed <> ty_NoneType -> type_of seed <> ty_int ->
        type_of seed <> ty_dict ->
        Space_seed (Dict spaces g) seed
        = Raise (TypeError
            [Lit "Expected seed type: dict, int or None, actual type: ";
             Ty (type_of seed)]))
  /\ (forall seed_d (report : Key -> PyObj) (seeded : Key -> Space),
        NoDup (dict_keys seed_d) ->
        (forall k, In k (dict_keys seed_d) <-> In k (dict_keys spaces)) ->
        (forall k s c, dict_get k seed_d = Some s -> dict_get k spaces = Some c ->
                       Space_seed c s = Ok (report k, seeded k)) ->
        Space_seed (Dict spaces g) (PyDict seed_d)
        = Ok (PyDict (map (fun ks => (fst ks, report (fst ks))) seed_d),
              Dict (map (fun kc => (fst kc, seeded (fst kc))) spaces) g)).
Proof.
  intros Hnd. split; [|split].
  - intros seed_d Hnds Hne. simpl. unfold Dict_seed.
    destruct (keys_eqb seed_d spaces) eqn:E.
    + exfalso. apply Hne. now apply keys_eqb_iff.
    + simpl. eauto.
  - intros seed H1 H2 H3. simpl. unfold Dict_seed.
    destruct seed; simpl in *; congruence.
  - intros seed_d report seeded Hnds Hkeys Hcall. simpl. unfold Dict_seed.
    assert (E : keys_eqb seed_d spaces = true) by now apply keys_eqb_iff.
    rewrite E. simpl.
    rewrite (seed_by_keys_ok _ _ report seeded).
    + simpl. unfold dict_keys at 1. rewrite map_map. f_equal. f_equal. f_equal.
      rewrite dict_set_all.
      * apply map_ext_in. intros [k c] Hin. simpl.
        assert (Hk : existsb (key_eqb k) (dict_keys seed_d) = true).
        { apply existsb_key_in. apply Hkeys. apply in_map_iff.
          exists (k, c). auto. }
        now rewrite Hk.
      * assumption.
      * intros k Hk. now apply Hkeys.
    + intros k Hk.
      destruct (proj1 (dict_get_some_in k seed_d) Hk) as [s Hs].
      destruct (proj1 (dict_get_some_in k spaces) (proj1 (Hkeys k) Hk)) as [c Hc].
      exists (Space_seed c), s. split; [|split].
      * rewrite (dict_get_map Space_seed). now rewrite Hc.
      * assumption.
      * now apply Hcall.
Qed.

End DictSeeding.

Lemma Dict_seed_spec_witness :
  (exists m, Space_seed ex_D (PyDict [(KStr "a", PyInt 1)]) = Raise (ValueError m))
  /\ Space_seed ex_D (PyFloat 1)
     = Raise (TypeError
         [Lit "Expected seed type: dict, int or None, actual type: "; Ty ty_float])
  /\ Space_seed ex_D
       (PyDict [(KStr "b", PyDict [(KStr "c", PyInt 7)]); (KStr "a", PyInt 5)])
     = Ok (PyDict [(KStr "b", PyDict [(KStr "c", PyInt 7)]); (KStr "a", PyInt 5)],
           @Dict counterRS
             [(KStr "a", @MultiBinary counterRS (n_int 1) [1] 5);
              (KStr "b", @Dict counterRS
                           [(KStr "c", @MultiBinary counterRS (n_int 2) [2] 7)] 0)]
             0).
Proof.
  assert (Hnd : NoDup (dict_keys
            [(KStr "a", ex_A); (KStr "b", @Dict counterRS [(KStr "c", ex_B)] 0)])).
  { simpl. apply NoDup_cons; [|apply NoDup_cons; [|apply NoDup_nil]].
    - intros [H | []]. discriminate H.
    - intros []. }
  destruct (@Dict_seed_spec counterRS _ 0 Hnd) as (H1 & H2 & H3).
  split; [|split].
  - apply H1.
    + simpl. apply NoDup_cons; [intros []|apply NoDup_nil].
    + intros H. destruct (proj2 (H (KStr "b"))) as [E | []].
      * simpl. right. left. reflexivity.
      * discriminate E.
  - apply (H2 (PyFloat 1)); discriminate.
  - apply (H3 [(KStr "b", PyDict [(KStr "c", PyInt 7)]); (KStr "a", PyInt 5)]
              (fun k => if key_eqb k (KStr "a") then PyInt 5
                        else PyDict [(KStr "c", PyInt 7)])
              (fun k => if key_eqb k (KStr "a")
                        then @MultiBinary counterRS (n_int 1) [1] 5
                        else @Dict counterRS
                               [(KStr "c", @MultiBinary counterRS (n_int 2) [2] 7)] 0)).
    + simpl. apply NoDup_cons; [|apply NoDup_cons; [|apply NoDup_nil]].
      * intros [H | []]. discriminate H.
      * intros [].
    + intros k. simpl. tauto.
    + intros k s c Hs Hc. simpl in Hs, Hc.
      destruct (key_eqb k (KStr "a")) eqn:Ea.
      * destruct (key_eqb k (KStr "b")) eqn:Eb.
        -- apply key_eqb_eq in Ea. subst k. discriminate Eb.
        -- injection Hs as <-. injection Hc as <-. reflexivity.
      * destruct (key_eqb k (KStr "b")) eqn:Eb; [|discriminate Hs].
        injection Hs as <-. injection Hc as <-. reflexivity.
Defined.

(* ================================================================== *)
(** ** The order of keys *)

Lemma ascii_compare_lt_trans (a b c : ascii) :
  Ascii.compare a b = Lt -> Ascii.compare b c = Lt -> Ascii.compare a c = Lt.
Proof.
  unfold Ascii.compare. rewrite !N.compare_lt_iff. apply N.lt_trans.
Qed.

Lemma string_compare_lt_trans (a b c : string) :
  String.compare a b = Lt -> String.compare b c = Lt -> String.compare a c = Lt.
Proof.
  revert b c. induction a as [|x a IH]; intros [|y b] [|z c]; simpl;
    try congruence.
  destruct (Ascii.compare x y) eqn:Exy; try discriminate;
    destruct (Ascii.compare y z) eqn:Eyz; try discriminate; intros Hab Hbc.
  - apply Ascii.compare_eq_iff in Exy, Eyz. subst.
    assert (E : Ascii.compare z z = Eq) by (unfold Ascii.compare; apply N.compare_refl).
    rewrite E. eapply IH; eassumption.
  - apply Ascii.compare_eq_iff in Exy. subst. now rewrite Eyz.
  - apply Ascii.compare_eq_iff in Eyz. subst. now rewrite Exy.
  - now rewrite (ascii_compare_lt_trans _ _ _ Exy Eyz).
Qed.

Lemma key_less_trans (a b c : Key) : key_less a b -> key_less b c -> key_less a c.
Proof.
  unfold key_less. destruct a, b, c; simpl; try discriminate.
  - unfold String.ltb. intros Hab Hbc.
    destruct (String.compare s s0) eqn:E1; try discriminate.
    destruct (String.compare s0 s1) eqn:E2; try discriminate.
    now rewrite (string_compare_lt_trans _ _ _ E1 E2).
  - intros Hab Hbc. injection Hab as Hab. injection Hbc as Hbc.
    apply Z.ltb_lt in Hab, Hbc. f_equal. apply Z.ltb_lt. lia.
Qed.

(** Two distinct keys of one type are ordered one way or the other. *)
Lemma key_lt_false_less (a b : Key) :
  a <> b -> key_lt a b = Ok false -> key_less b a.
Proof.
  unfold key_less. destruct a, b; simpl; try discriminate.
  - intros Hne H. injection H as H. f_equal. unfold String.ltb in *.
    rewrite String.compare_antisym.
    destruct (String.compare s s0) eqn:E; simpl; try reflexivity; try discriminate.
    apply String.compare_eq_iff in E. congruence.
  - intros Hne H. injection H as H. f_equal.
    apply Z.ltb_ge in H. apply Z.ltb_lt.
    assert (z <> z0) by congruence. lia.
Qed.

Lemma comparable_sym (a b : Key) : comparable a b -> comparable b a.
Proof. unfold comparable. destruct a, b; simpl; intros [r H]; eauto; discriminate. Qed.

Lemma comparable_trans (a b c : Key) :
  comparable a b -> comparable b c -> comparable a c.
Proof.
  unfold comparable. destruct a, b, c; simpl; intros [r H] [r' H']; eauto;
    discriminate.
Qed.

Lemma key_lt_cases (a b : Key) :
  (exists r, key_lt a b = Ok r) \/ (exists m, key_lt a b = Raise (TypeError m)).
Proof. destruct a, b; simpl; eauto. Qed.

Lemma dict_set_fresh {V : Type} (k : Key) (v : V) (d : pydict V) :
  ~ In k (dict_keys d) -> dict_set k v d = d ++ [(k, v)].
Proof.
  induction d as [|[k' v'] d IH]; simpl; [reflexivity|].
  intros H. destruct (key_eqb k k') eqn:E.
  - apply key_eqb_eq in E. subst. exfalso. apply H. now left.
  - f_equal. apply IH. intros Hin. apply H. now right.
Qed.

(** [dict(items)] keeps a list of items whose keys are distinct. *)
Lemma dict_of_items_nodup {V : Type} (items : list (Key * V)) :
  NoDup (dict_keys items) -> dict_of_items items = items.
Proof.
  unfold dict_of_items.
  assert (H : forall acc,
    NoDup (dict_keys (acc ++ items)) ->
    fold_left (fun d kv => dict_set (fst kv) (snd kv) d) items acc = acc ++ items).
  { induction items as [|[k v] items IH]; intros acc Hnd; simpl.
    - now rewrite app_nil_r.
    - rewrite dict_set_fresh.
      + rewrite IH; rewrite <- app_assoc; [reflexivity|exact Hnd].
      + unfold dict_keys in Hnd. rewrite map_app in Hnd. simpl in Hnd.
        apply NoDup_remove_2 in Hnd. intros Hin. apply Hnd.
        apply in_or_app. now left. }
  intros Hnd. now apply (H []).
Qed.

(* ================================================================== *)
(** ** Dict: construction *)

Section DictConstruction.
Context {RS : RandomSource}.

Lemma item_lt_distinct (a b : Key * Space) :
  fst a <> fst b -> item_lt a b = key_lt (fst a) (fst b).
Proof.
  intros H. unfold item_lt. apply key_eqb_neq in H. now rewrite H.
Qed.

Lemma item_lt_cases (a b : Key * Space) :
  (exists r, item_lt a b = Ok r) \/ (exists m, item_lt a b = Raise (TypeError m)).
Proof.
  unfold item_lt. destruct (key_eqb (fst a) (fst b)).
  - destruct (Space_eqb (snd a) (snd b)); eauto.
  - apply key_lt_cases.
Qed.

Lemma insert_item_cases (x : Key * Space) (l : list (Key * Space)) :
  (exists s, insert_item x l = Ok s)
  \/ (exists m, insert_item x l = Raise (TypeError m)).
Proof.
  induction l as [|y l IH]; simpl; [eauto|].
  destruct (item_lt_cases y x) as [[r ->] | [m ->]]; simpl; [|eauto].
  destruct r; [|eauto].
  destruct IH as [[s ->] | [m ->]]; simpl; eauto.
Qed.

Lemma py_sorted_cases (l : list (Key * Space)) :
  (exists s, py_sorted l = Ok s) \/ (exists m, py_sorted l = Raise (TypeError m)).
Proof.
  induction l as [|x l IH]; simpl; [eauto|].
  destruct IH as [[s ->] | [m ->]]; simpl; [|eauto].
  apply insert_item_cases.
Qed.

Lemma insert_item_perm (x : Key * Space) (l l' : list (Key * Space)) :
  insert_item x l = Ok l' -> Permutation (x :: l) l'.
Proof.
  revert l'. induction l as [|y l IH]; simpl; intros l' H.
  - injection H as <-. apply Permutation_refl.
  - destruct (item_lt y x) as [[|]| |]; simpl in H; try discriminate.
    + destruct (insert_item x l) as [l''| |]; simpl in H; try discriminate.
      injection H as <-.
      eapply Permutation_trans; [apply perm_swap|].
      apply perm_skip. now apply IH.
    + injection H as <-. apply Permutation_refl.
Qed.

Lemma insert_item_total (x : Key * Space) (l : list (Key * Space)) :
  (forall y, In y l -> fst y <> fst x /\ comparable (fst y) (fst x)) ->
  exists l', insert_item x l = Ok l'.
Proof.
  induction l as [|y l IH]; intros H; simpl; [eauto|].
  destruct (H y (or_introl eq_refl)) as [Hne [r Hr]].
  rewrite item_lt_distinct, Hr by assumption. simpl.
  destruct r; [|eauto].
  destruct IH as [l' ->]; [|simpl; eauto].
  intros z Hz. apply H. now right.
Qed.

Lemma insert_item_sorted (x : Key * Space) (l l' : list (Key * Space)) :
  (forall y, In y l -> fst y <> fst x) ->
  StronglySorted key_less (dict_keys l) ->
  insert_item x l = Ok l' ->
  StronglySorted key_less (dict_keys l').
Proof.
  revert l'. induction l as [|y l IH]; simpl; intros l' Hne Hs H.
  - injection H as <-. simpl. constructor; constructor.
  - assert (Hyx : fst y <> fst x) by (apply Hne; now left).
    rewrite item_lt_distinct in H by assumption.
    inversion Hs as [|? ? Hs' Hall]; subst.
    destruct (key_lt (fst y) (fst x)) as [[|]| |] eqn:E; simpl in H;
      try discriminate.
    + destruct (insert_item x l) as [l''| |] eqn:E'; simpl in H; try discriminate.
      injection H as <-. simpl. constructor.
      * apply IH; auto.
      * apply insert_item_perm in E'.
        apply (Permutation_Forall (Permutation_map fst E')).
        simpl. constructor; assumption.
    + injection H as <-. simpl.
      assert (Hlt : key_less (fst x) (fst y)) by now apply key_lt_false_less.
      constructor; [assumption|].
      constructor; [assumption|].
      eapply Forall_impl; [|exact Hall].
      intros k Hk. now apply key_less_trans with (fst y).
Qed.

(** When [sorted] returns, all keys were of one type, and the result is
    the sorted arrangement of the items. *)
Lemma py_sorted_Ok (l s : list (Key * Space)) :
  NoDup (dict_keys l) ->
  py_sorted l = Ok s ->
  Permutation l s /\ mutually_comparable (dict_keys l)
  /\ StronglySorted key_less (dict_keys s).
Proof.
  revert s. induction l as [|x l IH]; simpl; intros s Hnd H.
  - injection H as <-. repeat split; try constructor.
    intros a b [].
  - inversion Hnd as [|? ? Hnotin Hnd']; subst.
    destruct (py_sorted l) as [s0| |] eqn:E; simpl in H; try discriminate.
    destruct (IH s0 Hnd' eq_refl) as (Hperm & Hcmp & Hsorted).
    assert (Hne : forall y, In y s0 -> fst y <> fst x).
    { intros y Hy Heq. apply Hnotin. rewrite <- Heq.
      apply in_map. apply Permutation_sym in Hperm.
      now apply (Permutation_in _ Hperm). }
    split; [|split].
    + apply Permutation_trans with (x :: s0).
      * now apply perm_skip.
      * now apply insert_item_perm.
    + assert (Hx : forall b, In b (dict_keys l) -> comparable b (fst x)).
      { destruct s0 as [|y s0'].
        - apply Permutation_sym, Permutation_nil in Hperm. subst. intros b [].
        - simpl in H. rewrite item_lt_distinct in H by (apply Hne; now left).
          assert (Hy : comparable (fst y) (fst x)).
          { destruct (key_lt (fst y) (fst x)) as [r| |] eqn:E1; simpl in H;
              try discriminate. now exists r. }
          intros b Hb. apply comparable_trans with (fst y); [|assumption].
          apply Hcmp; [assumption|].
          apply in_map. apply Permutation_sym in Hperm.
          apply (Permutation_in _ Hperm). now left. }
      intros a b [<- | Ha] [<- | Hb].
      * destruct (fst x); eexists; reflexivity.
      * apply comparable_sym. now apply Hx.
      * now apply Hx.
      * now apply Hcmp.
    + eapply insert_item_sorted; eassumption.
Qed.

Lemma py_sorted_total (l : list (Key * Space)) :
  NoDup (dict_keys l) -> mutually_comparable (dict_keys l) ->
  exists s, py_sorted l = Ok s.
Proof.
  induction l as [|x l IH]; simpl; intros Hnd Hcmp; [eauto|].
  inversion Hnd as [|? ? Hnotin Hnd']; subst.
  destruct IH as [s Hs]; [assumption| |].
  { intros a b Ha Hb. apply Hcmp; now right. }
  rewrite Hs. simpl.
  destruct (py_sorted_Ok _ Hnd' Hs) as (Hperm & _ & _).
  apply insert_item_total. intros y Hy.
  apply Permutation_sym in Hperm.
  pose proof (Permutation_in _ Hperm Hy) as Hyl.
  split.
  - intros Heq. apply Hnotin. rewrite <- Heq. now apply in_map.
  - apply Hcmp; [right; now apply in_map|now left].
Qed.

(** C5.  Let [items] be the items of a mapping (not an [OrderedDict]),
    in insertion order.  If its keys are mutually comparable, the
    constructed [Dict] stores the same items in sorted key order.  If
    two of its keys are not comparable, the constructor does not raise
    and stores the items in insertion order. *)
Theorem Dict_init_key_order (items : list (Key * Space)) (g : Generator) :
  NoDup (dict_keys items) ->
  (mutually_comparable (dict_keys items) ->
   exists spaces,
     Dict_init (SpMapping items) [] g = Ok (Dict spaces g)
     /\ Permutation items spaces
     /\ StronglySorted key_less (dict_keys spaces))
  /\ ((exists a b, In a (dict_keys items) /\ In b (dict_keys items)
                   /\ ~ comparable a b) ->
      Dict_init (SpMapping items) [] g = Ok (Dict items g)).
Proof.
  intros Hnd. split.
  - intros Hcmp. destruct (py_sorted_total _ Hnd Hcmp) as [s Hs].
    destruct (py_sorted_Ok _ Hnd Hs) as (Hperm & _ & Hsorted).
    exists s. split; [|split]; try assumption.
    unfold Dict_init. rewrite Hs. simpl.
    rewrite dict_of_items_nodup; [reflexivity|].
    apply (Permutation_NoDup (Permutation_map fst Hperm)). exact Hnd.
  - intros (a & b & Ha & Hb & Hnc).
    unfold Dict_init.
    destruct (py_sorted_cases items) as [[s Hs] | [m Hm]].
    + exfalso. apply Hnc.
      destruct (py_sorted_Ok _ Hnd Hs) as (_ & Hcmp & _). now apply Hcmp.
    + rewrite Hm. simpl. now rewrite dict_of_items_nodup.
Qed.

End DictConstruction.

Lemma Dict_init_key_order_witness :
  (exists spaces,
     @Dict_init counterRS (SpMapping [(KStr "b", ex_B); (KStr "a", ex_A)]) [] 0
     = Ok (@Dict counterRS spaces 0)
     /\ Permutation [(KStr "b", ex_B); (KStr "a", ex_A)] spaces
     /\ StronglySorted key_less (dict_keys spaces))
  /\ @Dict_init counterRS (SpMapping [(KStr "b", ex_B); (KInt 3, ex_A)]) [] 0
     = Ok (@Dict counterRS [(KStr "b", ex_B); (KInt 3, ex_A)] 0).
Proof.
  split.
  - apply (proj1 (@Dict_init_key_order counterRS
                    [(KStr "b", ex_B); (KStr "a", ex_A)] 0
                    ltac:(simpl; repeat constructor; simpl; intuition discriminate))).
    intros a b [<- | [<- | []]] [<- | [<- | []]]; eexists; reflexivity.
  - apply (proj2 (@Dict_init_key_order counterRS
                    [(KStr "b", ex_B); (KInt 3, ex_A)] 0
                    ltac:(simpl; repeat constructor; simpl; intuition discriminate))).
    exists (KStr "b"), (KInt 3). simpl. repeat split; auto.
    intros [r H]. discriminate H.
Defined.

(* ================================================================== *)
(** ** Well-formed spaces and their equality *)

Section SpaceInduction.
Context {RS : RandomSource}.
Variable P : Space -> Prop.
Hypothesis P_MultiBinary : forall n shape g, P (MultiBinary n shape g).
Hypothesis P_Dict :
  forall spaces g, Forall (fun kc => P (snd kc)) spaces -> P (Dict spaces g).

(** Induction on a space, with the hypothesis for every child. *)
Fixpoint Space_induction (s : Space) : P s :=
  match s with
  | MultiBinary n shape g => P_MultiBinary n shape g
  | Dict spaces g =>
      P_Dict g
        ((fix all (l : list (Key * Space)) : Forall (fun kc => P (snd kc)) l :=
            match l with
            | [] => Forall_nil _
            | kc :: l' => Forall_cons kc (Space_induction (snd kc)) (all l')
            end) spaces)
  end.
End SpaceInduction.

Section SpaceEquality.
Context {RS : RandomSource}.

Lemma wf_Dict (spaces : pydict Space) (g : Generator) :
  wf_Space (Dict spaces g)
  <-> NoDup (dict_keys spaces) /\ Forall (fun kc => wf_Space (snd kc)) spaces.
Proof.
  simpl. apply and_iff_compat_l.
  induction spaces as [|kc l IH].
  - split; constructor.
  - rewrite IH. split.
    + intros [H1 H2]. now constructor.
    + intros H. inversion H. now split.
Qed.

Lemma MultiBinary_init_wf (arg : PyObj) (g : Generator) (self : Space) :
  MultiBinary_init arg g = Ok self -> wf_Space self.
Proof.
  intros H. destruct (MultiBinary_init_inv _ _ H) as (n & -> & Hpos).
  simpl. now split.
Qed.

Lemma dict_get_in_nodup {V : Type} (k : Key) (v : V) (d : pydict V) :
  NoDup (dict_keys d) -> In (k, v) d -> dict_get k d = Some v.
Proof.
  induction d as [|[k' v'] d IH]; simpl; [contradiction|].
  intros Hnd Hin. inversion Hnd as [|? ? Hnotin Hnd']; subst.
  destruct Hin as [Heq | Hin].
  - injection Heq as -> ->. now rewrite key_eqb_refl.
  - destruct (key_eqb k k') eqn:E.
    + apply key_eqb_eq in E. subst k'. exfalso. apply Hnotin.
      apply in_map_iff. exists (k, v). auto.
    + now apply IH.
Qed.

Lemma MBn_eqb_refl (n : MBn) : MBn_eqb n n = true.
Proof. destruct n; simpl; [apply Z.eqb_refl|apply tuple_eqb_refl]. Qed.

Lemma Forall2_in_left {A B : Type} (R : A -> B -> Prop) (l : list A) (l' : list B)
      (x : A) :
  Forall2 R l l' -> In x l -> exists y, In y l' /\ R x y.
Proof.
  induction 1 as [|a b l l' Hab _ IH]; simpl; [contradiction|].
  intros [<- | Hin].
  - exists b. auto.
  - destruct (IH Hin) as (y & Hy & Hxy). exists y. auto.
Qed.

(** Two dicts that list the same keys with equal values are equal. *)
Lemma dict_eqb_same_items (spaces spaces' : pydict Space) :
  NoDup (dict_keys spaces') ->
  Forall2 (fun a b => fst a = fst b /\ Space_eqb (snd a) (snd b) = true)
          spaces spaces' ->
  dict_eqb Space_eqb spaces spaces' = true.
Proof.
  intros Hnd H. unfold dict_eqb. apply andb_true_iff. split.
  - apply Nat.eqb_eq. eapply Forall2_length; eassumption.
  - apply forallb_forall. intros [k c] Hin.
    destruct (Forall2_in_left (k, c) H Hin) as ([k' c'] & Hin' & Hk & Hc).
    simpl in *. subst k'.
    now rewrite (dict_get_in_nodup k c' spaces' Hnd Hin').
Qed.

(** A well-formed space equals itself. *)
Lemma Space_eqb_refl (s : Space) : wf_Space s -> Space_eqb s s = true.
Proof.
  induction s as [n shape g | spaces g IH] using Space_induction; intros Hwf.
  - simpl. apply MBn_eqb_refl.
  - apply wf_Dict in Hwf. destruct Hwf as [Hnd Hwf]. simpl.
    apply dict_eqb_same_items; [assumption|].
    clear Hnd. induction spaces as [|kc l IHl]; constructor.
    + inversion IH; inversion Hwf; subst. split; auto.
    + inversion IH; inversion Hwf; subst. now apply IHl.
Qed.

(** C1, as the code has it.  Two [Dict]s that store the same keys with
    equal children are equal.  A [Dict] built from a plain mapping
    stores its keys sorted, so for any two spaces [A] and [B],
    [Dict({"a": A, "b": B})] and [Dict({"b": B, "a": A})] store the same
    dictionary and are equal, as [Dict({"a": A, "b": B})] is to
    itself. *)
Theorem Dict_eq_same_content :
  (forall spaces spaces' g g',
     NoDup (dict_keys spaces') ->
     Forall2 (fun a b => fst a = fst b /\ Space_eqb (snd a) (snd b) = true)
             spaces spaces' ->
     Space_eqb (Dict spaces g) (Dict spaces' g') = true)
  /\ (forall A B g g',
        wf_Space A -> wf_Space B ->
        Dict_init (SpMapping [(KStr "a", A); (KStr "b", B)]) [] g
        = Ok (Dict [(KStr "a", A); (KStr "b", B)] g)
        /\ Dict_init (SpMapping [(KStr "b", B); (KStr "a", A)]) [] g'
           = Ok (Dict [(KStr "a", A); (KStr "b", B)] g')
        /\ Space_eqb (Dict [(KStr "a", A); (KStr "b", B)] g)
                     (Dict [(KStr "a", A); (KStr "b", B)] g) = true
        /\ Space_eqb (Dict [(KStr "a", A); (KStr "b", B)] g)
                     (Dict [(KStr "a", A); (KStr "b", B)] g') = true).
Proof.
  split.
  - intros spaces spaces' g g' Hnd H. simpl. now apply dict_eqb_same_items.
  - intros A B g g' HA HB.
    apply Space_eqb_refl in HA, HB.
    split; [reflexivity|]. split; [reflexivity|].
    simpl. unfold dict_eqb. simpl. rewrite HA, HB. auto.
Qed.

End SpaceEquality.

Section ConstructedDict.
Context {RS : RandomSource}.

Lemma dict_set_NoDup {V : Type} (k : Key) (v : V) (d : pydict V) :
  NoDup (dict_keys d) -> NoDup (dict_keys (dict_set k v d)).
Proof.
  intros Hnd. destruct (dict_get k d) as [v0|] eqn:E.
  - rewrite dict_set_keys; [assumption|].
    apply dict_get_some_in. now exists v0.
  - assert (Hnotin : ~ In k (dict_keys d)).
    { intros Hin. apply dict_get_some_in in Hin. destruct Hin as [v1 Hv1].
      congruence. }
    rewrite dict_set_fresh by assumption.
    unfold dict_keys. rewrite map_app. simpl.
    apply NoDup_app; [assumption|apply NoDup_cons; [intros []|apply NoDup_nil]|].
    intros k' Hk' [<- | []]. contradiction.
Qed.

Lemma dict_set_Forall {V : Type} (P : Key * V -> Prop) (k : Key) (v : V)
      (d : pydict V) :
  (forall k', P (k', v)) -> Forall P d -> Forall P (dict_set k v d).
Proof.
  intros Hv. induction 1 as [|[k' v'] d Hkv Hd IH]; simpl.
  - constructor; [apply Hv|constructor].
  - destruct (key_eqb k k'); constructor; auto.
Qed.

(** [dict(items)] has distinct keys and holds values of [items]. *)
Lemma dict_of_items_wf {V : Type} (P : V -> Prop) (items : list (Key * V)) :
  NoDup (dict_keys (dict_of_items items))
  /\ (Forall (fun kv => P (snd kv)) items ->
      Forall (fun kv => P (snd kv)) (dict_of_items items)).
Proof.
  unfold dict_of_items.
  assert (H : forall acc,
    NoDup (dict_keys acc) ->
    NoDup (dict_keys (fold_left (fun d kv => dict_set (fst kv) (snd kv) d)
                                items acc))
    /\ (Forall (fun kv => P (snd kv)) acc ->
        Forall (fun kv => P (snd kv)) items ->
        Forall (fun kv => P (snd kv))
               (fold_left (fun d kv => dict_set (fst kv) (snd kv) d) items acc))).
  { induction items as [|[k v] items IH]; intros acc Hnd; simpl.
    - split; auto.
    - destruct (IH (dict_set k v acc) (dict_set_NoDup k v acc Hnd)) as [H1 H2].
      split; [assumption|].
      intros Hacc Hitems. inversion Hitems; subst. apply H2; [|assumption].
      apply dict_set_Forall; auto. }
  destruct (H [] (NoDup_nil _)) as [H1 H2].
  split; [assumption|]. intros Hitems. apply H2; [constructor|assumption].
Qed.

Lemma add_kwargs_wf (P : Space -> Prop) (kwargs : list (string * Space)) :
  forall d d',
    add_kwargs kwargs d = Ok d' ->
    NoDup (dict_keys d) ->
    NoDup (dict_keys d')
    /\ (Forall (fun kv => P (snd kv)) d ->
        Forall (fun kv => P (snd kv)) kwargs ->
        Forall (fun kv => P (snd kv)) d').
Proof.
  induction kwargs as [|[key space] rest IH]; intros d d' H Hnd; simpl in H.
  - injection H as <-. auto.
  - destruct (dict_mem (KStr key) d); simpl in H; try discriminate.
    destruct (IH _ _ H (dict_set_NoDup _ _ _ Hnd)) as [H1 H2].
    split; [assumption|].
    intros Hd Hkw. inversion Hkw; subst. apply H2; [|assumption].
    apply dict_set_Forall; auto.
Qed.

Lemma py_sorted_perm (l s : list (Key * Space)) :
  py_sorted l = Ok s -> Permutation l s.
Proof.
  revert s. induction l as [|x l IH]; simpl; intros s H.
  - injection H as <-. constructor.
  - destruct (py_sorted l) as [s0| |]; simpl in H; try discriminate.
    apply Permutation_trans with (x :: s0).
    + apply perm_skip. now apply IH.
    + now apply insert_item_perm.
Qed.

(** A [Dict] constructed from well-formed children is well-formed. *)
Lemma Dict_init_wf (spaces : spaces_arg) (kwargs : list (string * Space))
      (g : Generator) (D : Space) :
  Dict_init spaces kwargs g = Ok D ->
  Forall (fun kc => wf_Space (snd kc)) (children_of spaces) ->
  Forall (fun kc => wf_Space (snd kc)) kwargs ->
  wf_Space D.
Proof.
  unfold Dict_init. intros H Hc Hkw.
  assert (Hd : forall d,
    NoDup (dict_keys d) -> Forall (fun kc => wf_Space (snd kc)) d ->
    (d' <- add_kwargs kwargs d ;; Ok (Dict d' g)) = Ok D -> wf_Space D).
  { intros d Hnd Hwf Hd.
    destruct (add_kwargs kwargs d) as [d'| |] eqn:E; simpl in Hd; try discriminate.
    injection Hd as <-. apply wf_Dict.
    destruct (add_kwargs_wf wf_Space _ _ E Hnd) as [H1 H2]. auto. }
  destruct spaces as [ | items | items | pairs | t]; simpl in *.
  - apply (Hd []); [constructor|constructor|exact H].
  - destruct (dict_of_items_wf wf_Space items) as [H1 H2].
    apply (Hd (dict_of_items items)); auto.
  - destruct (py_sorted items) as [s|e|] eqn:E.
    + destruct (dict_of_items_wf wf_Space s) as [H1 H2].
      apply (Hd (dict_of_items s)); auto. apply H2.
      apply (Permutation_Forall (py_sorted_perm _ E)). exact Hc.
    + destruct (dict_of_items_wf wf_Space items) as [H1 H2].
      destruct e; simpl in H; try discriminate.
      apply (Hd (dict_of_items items)); auto.
    + discriminate.
  - destruct (dict_of_items_wf wf_Space pairs) as [H1 H2].
    apply (Hd (dict_of_items pairs)); auto.
  - discriminate.
Qed.

End ConstructedDict.

Lemma Dict_eq_same_content_witness :
  Space_eqb (@Dict counterRS [(KStr "x", ex_A)] 0)
            (@Dict counterRS [(KStr "x", ex_A)] 1) = true
  /\ @Dict_init counterRS (SpMapping [(KStr "a", ex_A); (KStr "b", ex_B)]) [] 0
     = Ok (@Dict counterRS [(KStr "a", ex_A); (KStr "b", ex_B)] 0)
  /\ @Dict_init counterRS (SpMapping [(KStr "b", ex_B); (KStr "a", ex_A)]) [] 1
     = Ok (@Dict counterRS [(KStr "a", ex_A); (KStr "b", ex_B)] 1)
  /\ Space_eqb (@Dict counterRS [(KStr "a", ex_A); (KStr "b", ex_B)] 0)
               (@Dict counterRS [(KStr "a", ex_A); (KStr "b", ex_B)] 0) = true
  /\ Space_eqb (@Dict counterRS [(KStr "a", ex_A); (KStr "b", ex_B)] 0)
               (@Dict counterRS [(KStr "a", ex_A); (KStr "b", ex_B)] 1) = true.
Proof.
  destruct (@Dict_eq_same_content counterRS) as [H1 H2].
  split.
  - apply H1.
    + simpl. apply NoDup_cons; [intros []|apply NoDup_nil].
    + apply Forall2_cons; [split; reflexivity|apply Forall2_nil].
  - apply (H2 ex_A ex_B 0 1); simpl; split; try reflexivity.
    + apply Forall_cons; [lia|apply Forall_nil].
    + apply Forall_cons; [lia|apply Forall_nil].
Defined.

(** C1 as stated fails.  With [A = MultiBinary(1)] and
    [B = MultiBinary(2)], which are not equal,
    [Dict({"a": A, "b": B})] equals [Dict({"b": B, "a": A})]: both store
    the keys sorted.  And two [Dict]s built from [OrderedDict]s, which
    keep the two different orders, are equal as well: the stored
    dictionaries are compared as [dict]s. *)
Lemma Dict_eq_not_order_sensitive :
  Space_eqb ex_A ex_B = false
  /\ (exists D1 D2,
        @Dict_init counterRS (SpMapping [(KStr "a", ex_A); (KStr "b", ex_B)]) [] 0
        = Ok D1
        /\ @Dict_init counterRS (SpMapping [(KStr "b", ex_B); (KStr "a", ex_A)]) [] 0
           = Ok D2
        /\ Space_eqb D1 D2 = true)
  /\ (exists D1 D2,
        @Dict_init counterRS (SpOrderedDict [(KStr "a", ex_A); (KStr "b", ex_B)]) [] 0
        = Ok D1
        /\ @Dict_init counterRS (SpOrderedDict [(KStr "b", ex_B); (KStr "a", ex_A)]) [] 0
           = Ok D2
        /\ D1 = @Dict counterRS [(KStr "a", ex_A); (KStr "b", ex_B)] 0
        /\ D2 = @Dict counterRS [(KStr "b", ex_B); (KStr "a", ex_A)] 0
        /\ Space_eqb D1 D2 = true).
Proof.
  split; [reflexivity|]. split.
  - eexists. eexists. split; [reflexivity|]. split; reflexivity.
  - eexists. eexists. repeat split; reflexivity.
Qed.

(* ================================================================== *)
(** ** Arrays and nested lists *)

Lemma chunks_length {A : Type} (k size : nat) (l : list A) :
  List.length (chunks k size l) = k.
Proof.
  revert l. induction k as [|k IH]; intros l; simpl; [reflexivity|].
  now rewrite IH.
Qed.

(** Cutting the concatenation of [k] lists of one length gives them
    back. *)
Lemma chunks_concat {A : Type} (size : nat) (cs : list (list A)) :
  Forall (fun c => List.length c = size) cs ->
  chunks (List.length cs) size (List.concat cs) = cs.
Proof.
  induction 1 as [|c cs Hc _ IH]; simpl; [reflexivity|].
  rewrite firstn_app, skipn_app, Hc, Nat.sub_diag. simpl.
  rewrite firstn_all2, skipn_all2 by lia.
  rewrite app_nil_r. simpl. now rewrite IH.
Qed.

(** Cutting a list of [k * size] elements gives [k] lists of [size]
    elements, which concatenate to the list. *)
Lemma concat_chunks {A : Type} (k size : nat) (l : list A) :
  List.length l = (k * size)%nat ->
  List.concat (chunks k size l) = l
  /\ Forall (fun c => List.length c = size) (chunks k size l).
Proof.
  revert l. induction k as [|k IH]; intros l Hlen; simpl in *.
  - destruct l; [split; constructor|discriminate].
  - destruct (IH (skipn size l)) as [Hc Hf].
    { rewrite length_skipn. lia. }
    split.
    + rewrite Hc. apply firstn_skipn.
    + constructor; [|assumption]. rewrite length_firstn. lia.
Qed.

Lemma chunks_Forall {A : Type} (P : A -> Prop) (k size : nat) (l : list A) :
  Forall P l -> Forall (Forall P) (chunks k size l).
Proof.
  revert l. induction k as [|k IH]; intros l H; simpl; constructor.
  - rewrite <- (firstn_skipn size l) in H. now apply Forall_app in H.
  - apply IH. rewrite <- (firstn_skipn size l) in H. now apply Forall_app in H.
Qed.

Lemma nd_size_pos (shape : list Z) :
  Forall (fun i => 0 < i) shape -> 0 < nd_size shape.
Proof.
  induction 1 as [|d shape Hd _ IH]; simpl; lia.
Qed.

Lemma nd_size_cons (d : Z) (shape : list Z) :
  0 < d -> Forall (fun i => 0 < i) shape ->
  Z.to_nat (nd_size (d :: shape)) = (Z.to_nat d * Z.to_nat (nd_size shape))%nat.
Proof.
  intros Hd Hs. simpl. pose proof (nd_size_pos Hs). apply Z2Nat.inj_mul; lia.
Qed.

Lemma fold_promote_same (dt : dtype) (l : list dtype) :
  Forall (fun d => d = dt) l -> fold_left promote l dt = dt.
Proof.
  induction 1 as [|d l -> _ IH]; simpl; [reflexivity|].
  replace (promote dt dt) with dt by (now destruct dt). exact IH.
Qed.

Lemma to_dtype_ints (dt : dtype) (d : list scalar) :
  dt <> float64 -> map (to_dtype dt) d = d.
Proof.
  intros H. rewrite <- (map_id d) at 2. apply map_ext.
  intros s. destruct dt, s; try reflexivity. congruence.
Qed.

Lemma np_array_PyList (l : list PyObj) :
  np_array (PyList l) = (subs <- mapM np_array l ;; np_stack subs).
Proof. reflexivity. Qed.

(** Stacking arrays of one shape and one integer dtype. *)
Lemma np_stack_same (dt : dtype) (shape : list Z) (a : ndarray) (rest : list ndarray) :
  dt <> float64 ->
  Forall (fun b => nd_dtype b = dt /\ nd_shape b = shape) (a :: rest) ->
  np_stack (a :: rest)
  = Ok (mk_ndarray dt (Z.of_nat (List.length (a :: rest)) :: shape)
          (List.concat (map nd_data (a :: rest)))).
Proof.
  intros Hdt H. inversion H as [|? ? [Ha Hs] Hrest]; subst.
  unfold np_stack.
  assert (E : forallb (fun b => tuple_eqb (nd_shape b) (nd_shape a)) rest = true).
  { apply forallb_forall. intros b Hb. rewrite Forall_forall in Hrest.
    destruct (Hrest b Hb) as [_ ->]. apply tuple_eqb_refl. }
  rewrite E.
  rewrite fold_promote_same.
  - now rewrite to_dtype_ints.
  - apply Forall_map. eapply Forall_impl; [|exact Hrest]. now intros b [-> _].
Qed.

Lemma mapM_map_Ok {A B C : Type} (f : B -> Result C) (g : A -> B) (h : A -> C)
      (l : list A) :
  (forall x, In x l -> f (g x) = Ok (h x)) -> mapM f (map g l) = Ok (map h l).
Proof.
  induction l as [|x l IH]; intros H; simpl; [reflexivity|].
  fold (mapM f). rewrite H by now left. simpl.
  rewrite IH; [reflexivity|]. intros y Hy. apply H. now right.
Qed.

(** [np.array(a.tolist())] has the shape and the elements of [a], for
    an integer array [a] without an empty axis. *)
Lemma np_array_tolist (shape : list Z) :
  Forall (fun i => 0 < i) shape ->
  forall d, List.length d = Z.to_nat (nd_size shape) ->
            Forall is_SInt d ->
            np_array (tolist_aux shape d) = Ok (mk_ndarray int64 shape d).
Proof.
  induction 1 as [|dim rest Hdim Hrest IH]; intros d Hlen Hints.
  - simpl in Hlen. destruct d as [|s [|s' d]]; try discriminate.
    inversion Hints as [|? ? [z ->] _]; subst. reflexivity.
  - rewrite nd_size_cons in Hlen by assumption.
    cbn [tolist_aux]. rewrite np_array_PyList.
    set (cs := chunks (Z.to_nat dim) (Z.to_nat (nd_size rest)) d).
    destruct (concat_chunks _ _ d Hlen) as [Hcat Hlens]. fold cs in Hcat, Hlens.
    assert (Hcs : Forall (Forall is_SInt) cs) by now apply chunks_Forall.
    assert (Hn : List.length cs = Z.to_nat dim) by apply chunks_length.
    rewrite (mapM_map_Ok np_array (tolist_aux rest) (mk_ndarray int64 rest)).
    + destruct cs as [|c cs'] eqn:Ecs.
      * simpl in Hn. lia.
      * cbn [bind map].
        rewrite (np_stack_same (dt := int64) (shape := rest)).
        -- change (mk_ndarray int64 rest c :: map (mk_ndarray int64 rest) cs')
             with (map (mk_ndarray int64 rest) (c :: cs')).
           rewrite map_map. cbn [nd_data]. rewrite map_id.
           rewrite Hcat, length_map, Hn. rewrite Z2Nat.id by lia. reflexivity.
        -- discriminate.
        -- apply Forall_forall. intros b Hb.
           change (In b (map (mk_ndarray int64 rest) (c :: cs'))) in Hb.
           apply in_map_iff in Hb. destruct Hb as [x [<- _]]. split; reflexivity.
    + intros c Hc. rewrite Forall_forall in Hlens, Hcs.
      apply IH; [now apply Hlens|now apply Hcs].
Qed.

(* ================================================================== *)
(** ** The JSON form: round trip *)

Lemma np_asarray_int8_tolist (shape : list Z) (a : ndarray) :
  Forall (fun i => 0 < i) shape ->
  binary_array shape a ->
  np_asarray_int8 (tolist_aux shape (nd_data a)) = Ok a.
Proof.
  intros Hpos (Hdt & Hsh & Hlen & Hbin). unfold np_asarray_int8.
  rewrite np_array_tolist; try assumption.
  - simpl.
    assert (E : forallb fits_int8 (nd_data a) = true).
    { apply forallb_forall. intros s Hs. rewrite Forall_forall in Hbin.
      destruct (Hbin s Hs) as [-> | ->]; reflexivity. }
    rewrite E. destruct a; simpl in *. now subst.
  - eapply Forall_impl; [|exact Hbin]. intros s [-> | ->]; eexists; reflexivity.
Qed.

Lemma arrays_of_samples (P : ndarray -> Prop) (S : list PyObj) :
  Forall (fun x => exists a, x = PyNdarray a /\ P a) S ->
  exists arrays, S = map PyNdarray arrays /\ Forall P arrays.
Proof.
  induction 1 as [|x S (a & -> & Ha) _ (arrays & -> & Hall)].
  - exists []. split; constructor.
  - exists (a :: arrays). split; [reflexivity|now constructor].
Qed.

(** The round trip through the JSON form for a batch of samples of a
    [MultiBinary]. *)
Lemma MultiBinary_round_trip (shape : list Z) (arrays : list ndarray) :
  Forall (fun i => 0 < i) shape ->
  Forall (binary_array shape) arrays ->
  exists j, MultiBinary_to_jsonable (PyList (map PyNdarray arrays)) = Ok j
            /\ MultiBinary_from_jsonable j = Ok (map PyNdarray arrays).
Proof.
  intros Hpos Hall.
  exists (PyList (map (tolist_aux shape) (map nd_data arrays))).
  split.
  - unfold MultiBinary_to_jsonable. rewrite np_array_PyList.
    rewrite (mapM_map_Ok np_array PyNdarray (fun a => a))
      by (intros; reflexivity).
    rewrite map_id. cbn [bind].
    destruct arrays as [|a rest]; [reflexivity|].
    rewrite (np_stack_same (dt := int8) (shape := shape)).
    + cbn [bind]. unfold tolist. cbn [nd_shape nd_data tolist_aux].
      rewrite Nat2Z.id.
      rewrite <- (length_map nd_data (a :: rest)).
      rewrite chunks_concat; [reflexivity|].
      apply Forall_map. eapply Forall_impl; [|exact Hall].
      now intros b (_ & _ & Hlen & _).
    + discriminate.
    + eapply Forall_impl; [|exact Hall]. now intros b (Hdt & Hsh & _).
  - unfold MultiBinary_from_jsonable. cbn [py_iter bind].
    rewrite map_map.
    rewrite (mapM_map_Ok np_asarray_int8 (fun a => tolist_aux shape (nd_data a))
                         (fun a => a)).
    + cbn [bind]. now rewrite map_id.
    + intros a Ha. rewrite Forall_forall in Hall.
      apply np_asarray_int8_tolist; [assumption|now apply Hall].
Qed.

Lemma map_seq_nth {A B : Type} (f : A -> B) (d : A) (l : list A) :
  map (fun n => f (nth n l d)) (seq 0 (List.length l)) = map f l.
Proof.
  induction l as [|x l IH]; [reflexivity|].
  cbn [List.length]. rewrite <- cons_seq, <- seq_shift. cbn [map nth].
  rewrite map_map. cbn [nth]. now rewrite IH.
Qed.

Lemma Forall_exists_Forall2 {A B : Type} (Q : A -> B -> Prop) (l : list A) :
  Forall (fun x => exists y, Q x y) l -> exists ys, Forall2 Q l ys.
Proof.
  induction 1 as [|x l [y Hy] _ [ys Hys]].
  - exists []. constructor.
  - exists (y :: ys). now constructor.
Qed.

Lemma Forall2_same_keys {V W : Type} (Q : Key * V -> Key * W -> Prop)
      (a : pydict V) (b : pydict W) :
  Forall2 (fun x y => fst y = fst x /\ Q x y) a b -> dict_keys b = dict_keys a.
Proof.
  induction 1 as [|x y a b [Hk _] _ IH]; simpl; [reflexivity|].
  now rewrite Hk, IH.
Qed.

Section RoundTrip.
Context {RS : RandomSource}.

Lemma is_sample_Dict (spaces : pydict Space) (g : Generator) (x : PyObj) :
  is_sample (Dict spaces g) x
  <-> exists d, x = PyDict d
                /\ NoDup (dict_keys d)
                /\ (forall k, In k (dict_keys d) <-> In k (dict_keys spaces))
                /\ Forall (fun kc => is_sample (snd kc) (entry (fst kc) x)) spaces.
Proof.
  simpl.
  assert (E : forall l,
    (fix all (l : list (Key * Space)) : Prop :=
       match l with
       | [] => True
       | kc :: l' => is_sample (snd kc) (entry (fst kc) x) /\ all l'
       end) l
    <-> Forall (fun kc => is_sample (snd kc) (entry (fst kc) x)) l).
  { induction l as [|kc l IH]; [split; constructor|].
    rewrite IH. split.
    - intros [H1 H2]. now constructor.
    - intros H. inversion H. now split. }
  split; intros (d & H1 & H2 & H3 & H4); exists d; repeat split;
    try assumption; try (now apply H3); now apply E.
Qed.

Lemma every_Dict_has_child_Dict (spaces : pydict Space) (g : Generator) :
  every_Dict_has_child (Dict spaces g)
  <-> spaces <> []
      /\ Forall (fun kc => every_Dict_has_child (snd kc)) spaces.
Proof.
  simpl. apply and_iff_compat_l.
  induction spaces as [|kc l IH]; [split; constructor|].
  rewrite IH. split.
  - intros [H1 H2]. now constructor.
  - intros H. inversion H. now split.
Qed.

Lemma Space_to_jsonable_Dict (spaces : pydict Space) (g : Generator)
      (sample_n : PyObj) :
  Space_to_jsonable (Dict spaces g) sample_n
  = (cols <- mapM (fun kc =>
                     samples <- py_iter sample_n ;;
                     col <- mapM (fun sample => py_getitem sample (fst kc)) samples ;;
                     j <- Space_to_jsonable (snd kc) (PyList col) ;;
                     Ok (fst kc, j)) spaces ;;
     Ok (PyDict cols)).
Proof. reflexivity. Qed.

Lemma Space_from_jsonable_Dict (spaces : pydict Space) (g : Generator)
      (sample_n : PyObj) :
  Space_from_jsonable (Dict spaces g) sample_n
  = (dict_of_list <- mapM (fun kc =>
                             j <- py_getitem sample_n (fst kc) ;;
                             v <- Space_from_jsonable (snd kc) j ;;
                             Ok (fst kc, v)) spaces ;;
     first <- py_next (dict_values dict_of_list) ;;
     mapM (fun n =>
             row <- mapM (fun kv => x <- list_getitem (snd kv) n ;;
                                    Ok (fst kv, x)) dict_of_list ;;
             Ok (PyDict row))
          (seq 0 (List.length first))).
Proof. reflexivity. Qed.

(** The column of a key in a batch of samples of a [Dict]. *)
Lemma column_of_samples (spaces : pydict Space) (g : Generator) (S : list PyObj)
      (k : Key) (c : Space) :
  Forall (is_sample (Dict spaces g)) S ->
  In (k, c) spaces ->
  mapM (fun sample => py_getitem sample k) S = Ok (map (entry k) S)
  /\ Forall (is_sample c) (map (entry k) S).
Proof.
  intros HS Hin. split.
  - apply mapM_Ok_in. intros x Hx. rewrite Forall_forall in HS.
    pose proof (HS x Hx) as Hxs. apply is_sample_Dict in Hxs.
    destruct Hxs as (d & -> & Hnd & Hkeys & _).
    assert (Hk : In k (dict_keys d)).
    { apply Hkeys. apply in_map_iff. exists (k, c). auto. }
    apply dict_get_some_in in Hk. destruct Hk as [v Hv].
    simpl. unfold dict_getitem. now rewrite Hv.
  - apply Forall_map. eapply Forall_impl; [|exact HS].
    intros x Hx. apply is_sample_Dict in Hx.
    destruct Hx as (d & _ & _ & _ & Hall).
    rewrite Forall_forall in Hall. apply (Hall (k, c) Hin).
Qed.

(** The round trip returns every sample with its items in stored
    order. *)
Lemma Space_round_trip (D : Space) :
  wf_Space D -> every_Dict_has_child D ->
  forall S, Forall (is_sample D) S ->
  exists j, Space_to_jsonable D (PyList S) = Ok j
            /\ Space_from_jsonable D j = Ok (map (in_stored_order D) S).
Proof.
  induction D as [n shape g | spaces g IH] using Space_induction;
    intros Hwf Hne S HS.
  - destruct Hwf as [_ Hpos].
    destruct (@arrays_of_samples (binary_array shape) S) as (arrays & -> & Hall).
    { eapply Forall_impl; [|exact HS]. intros x (a & -> & H). now exists a. }
    simpl. rewrite map_id. now apply MultiBinary_round_trip with (shape := shape).
  - apply wf_Dict in Hwf. destruct Hwf as [Hnd Hwf].
    apply every_Dict_has_child_Dict in Hne. destruct Hne as [Hnil Hne].
    set (col := fun kc : Key * Space => map (entry (fst kc)) S).
    set (dec := fun kc : Key * Space => map (in_stored_order (snd kc)) (col kc)).
    assert (Hcols : exists cols,
      Forall2 (fun kc kj =>
                 fst kj = fst kc
                 /\ (mapM (fun sample => py_getitem sample (fst kc)) S = Ok (col kc)
                     /\ Space_to_jsonable (snd kc) (PyList (col kc)) = Ok (snd kj)
                     /\ Space_from_jsonable (snd kc) (snd kj) = Ok (dec kc)))
              spaces cols).
    { apply Forall_exists_Forall2. apply Forall_forall. intros [k c] Hin.
      rewrite Forall_forall in IH, Hwf, Hne.
      destruct (@column_of_samples spaces g S k c HS Hin) as [Hget Hcol].
      destruct (IH (k, c) Hin (Hwf (k, c) Hin) (Hne (k, c) Hin) _ Hcol)
        as (j & Hto & Hfrom).
      exists (k, j). simpl. auto. }
    destruct Hcols as [cols Hcols].
    assert (Hkeys : dict_keys cols = dict_keys spaces)
      by (eapply Forall2_same_keys; exact Hcols).
    exists (PyDict cols). split.
    + rewrite Space_to_jsonable_Dict.
      rewrite (mapM_Forall2 _ (l := spaces) (r := cols)); [reflexivity|].
      eapply Forall2_impl; [|exact Hcols].
      intros [k c] [k' j] (Hk & Hget & Hto & _). simpl in *. subst k'.
      rewrite Hget. simpl. rewrite Hto. reflexivity.
    + rewrite Space_from_jsonable_Dict.
      rewrite (mapM_Ok_in _ (fun kc => (fst kc, dec kc))).
      * destruct spaces as [|kc0 spaces']; [congruence|].
        cbn [bind dict_values map snd py_next].
        assert (Hlen : List.length (dec kc0) = List.length S).
        { unfold dec, col. now rewrite !length_map. }
        rewrite Hlen.
        rewrite (mapM_Ok_in _ (fun n => in_stored_order (Dict (kc0 :: spaces') g)
                                          (nth n S PyNone))).
        -- now rewrite map_seq_nth.
        -- intros n Hn. apply in_seq in Hn.
           rewrite (mapM_Ok_in _ (fun kv => (fst kv, nth n (snd kv) PyNone))).
           ++ cbn [bind in_stored_order]. f_equal. f_equal.
              change ((fst kc0, dec kc0) :: map (fun kc => (fst kc, dec kc)) spaces')
                with (map (fun kc => (fst kc, dec kc)) (kc0 :: spaces')).
              rewrite map_map. apply map_ext. intros kc. cbn [fst snd].
              f_equal. unfold dec, col.
              rewrite (nth_indep _ PyNone
                         (in_stored_order (snd kc) (entry (fst kc) PyNone)))
                by (rewrite !length_map; lia).
              rewrite map_map.
              now rewrite (map_nth (fun x => in_stored_order (snd kc)
                                               (entry (fst kc) x))).
           ++ intros kv Hkv. unfold list_getitem.
              assert (Hl : List.length (snd kv) = List.length S).
              { change ((fst kc0, dec kc0) :: map (fun kc => (fst kc, dec kc)) spaces')
                  with (map (fun kc => (fst kc, dec kc)) (kc0 :: spaces')) in Hkv.
                apply in_map_iff in Hkv. destruct Hkv as (kc & <- & _).
                unfold dec, col. simpl. now rewrite !length_map. }
              rewrite (nth_error_nth' (snd kv) PyNone) by lia. reflexivity.
      * intros [k c] Hin.
        destruct (Forall2_in_left (k, c) Hcols Hin)
          as ([k' j] & Hin' & Hk & _ & _ & Hfrom).
        simpl in *. subst k'.
        unfold dict_getitem.
        rewrite (dict_get_in_nodup k j cols) by (try rewrite Hkeys; assumption).
        simpl. rewrite Hfrom. reflexivity.
Qed.

End RoundTrip.

(* ================================================================== *)
(** ** Samples, membership and sampling *)

Section SamplesFacts.
Context {RS : RandomSource}.

(** A sample of a space is contained in it. *)
Lemma is_sample_contained (D : Space) :
  wf_Space D -> forall x, is_sample D x -> Space_contains D x = Ok true.
Proof.
  induction D as [n shape g | spaces g IH] using Space_induction;
    intros Hwf x Hx.
  - destruct Hx as (a & -> & _ & Hsh & _ & Hbin). simpl.
    unfold MultiBinary_contains. simpl.
    rewrite Hsh, tuple_eqb_refl. simpl. f_equal.
    apply forallb_forall. intros s Hs. rewrite Forall_forall in Hbin.
    destruct (Hbin s Hs) as [-> | ->]; reflexivity.
  - apply wf_Dict in Hwf. destruct Hwf as [Hnd Hwf].
    apply is_sample_Dict in Hx. destruct Hx as (d & -> & Hndd & Hkeys & Hall).
    cbn [Space_contains].
    rewrite (proj2 (keys_eqb_iff d spaces Hndd Hnd) Hkeys).
    assert (Hsub : incl (dict_keys spaces) (dict_keys d)).
    { intros k Hk. now apply Hkeys. }
    clear Hnd Hkeys.
    induction spaces as [|[k c] l IHl]; [reflexivity|].
    inversion IH as [|? ? IHc IHrest]; subst.
    inversion Hwf as [|? ? Hwfc Hwfrest]; subst.
    inversion Hall as [|? ? Hc Hrest]; subst.
    cbn [fst snd] in *.
    assert (Hk : In k (dict_keys d)) by (apply Hsub; now left).
    apply dict_get_some_in in Hk. destruct Hk as [v Hv].
    unfold dict_getitem. rewrite Hv. cbn [bind].
    assert (Hentry : entry k (PyDict d) = v) by (simpl; now rewrite Hv).
    rewrite Hentry in Hc. rewrite (IHc Hwfc v Hc). cbn [bind].
    apply IHl; try assumption.
    intros k' Hk'. apply Hsub. now right.
Qed.

(** The items of a dictionary, taken key by key, are the dictionary. *)
Lemma entries_in_order (d : pydict PyObj) :
  NoDup (dict_keys d) ->
  map (fun k => (k, entry k (PyDict d))) (dict_keys d) = d.
Proof.
  induction d as [|[k v] d IH]; intros Hnd; [reflexivity|].
  inversion Hnd as [|? ? Hnotin Hnd']; subst.
  cbn [dict_keys map fst]. f_equal.
  - simpl. now rewrite key_eqb_refl.
  - rewrite <- (IH Hnd') at 2. apply map_ext_in. intros k' Hk'.
    f_equal. simpl.
    destruct (key_eqb k' k) eqn:E; [|reflexivity].
    apply key_eqb_eq in E. subst k'. contradiction.
Qed.

Lemma lists_keys_in_stored_order_Dict (spaces : pydict Space) (g : Generator)
      (x : PyObj) :
  lists_keys_in_stored_order (Dict spaces g) x
  <-> (exists d, x = PyDict d /\ dict_keys d = dict_keys spaces)
      /\ Forall (fun kc => lists_keys_in_stored_order (snd kc) (entry (fst kc) x))
                spaces.
Proof.
  simpl. apply and_iff_compat_l.
  induction spaces as [|kc l IH]; [split; constructor|].
  rewrite IH. split.
  - intros [H1 H2]. now constructor.
  - intros H. inversion H. now split.
Qed.

(** On such a sample [in_stored_order] changes nothing: the round trip
    returns the very batch. *)
Lemma in_stored_order_id (D : Space) :
  wf_Space D ->
  forall x, lists_keys_in_stored_order D x -> in_stored_order D x = x.
Proof.
  induction D as [n shape g | spaces g IH] using Space_induction;
    intros Hwf x Hx; [reflexivity|].
  apply wf_Dict in Hwf. destruct Hwf as [Hnd Hwf].
  apply lists_keys_in_stored_order_Dict in Hx.
  destruct Hx as [(d & -> & Hkeys) Hall].
  cbn [in_stored_order]. f_equal.
  transitivity (map (fun k => (k, entry k (PyDict d))) (dict_keys d));
    [|apply entries_in_order; now rewrite Hkeys].
  rewrite Hkeys. unfold dict_keys. rewrite map_map.
  apply map_ext_in. intros [k c] Hin. cbn [fst snd]. f_equal.
  rewrite Forall_forall in IH, Hwf, Hall.
  apply (IH (k, c) Hin (Hwf (k, c) Hin)). apply (Hall (k, c) Hin).
Qed.

End SamplesFacts.

Section SamplingGivesSamples.
Context {RS : RandomSource}.

Lemma Space_sample_Dict_unconstrained (spaces : pydict Space) (g : Generator) :
  Space_sample (Dict spaces g) PyNone PyNone
  = ('(vs, cs) <- sample_each spaces ;; Ok (PyDict vs, Dict cs g)).
Proof. reflexivity. Qed.

(** [sample()] returns a sample of the space, with the keys of every
    dictionary in stored order. *)
Lemma Space_sample_is_sample (D : Space) :
  wf_Space D ->
  exists x D', Space_sample D PyNone PyNone = Ok (x, D')
               /\ is_sample D x
               /\ lists_keys_in_stored_order D x.
Proof.
  induction D as [n shape g | spaces g IH] using Space_induction; intros Hwf.
  - destruct Hwf as [-> Hpos].
    set (draw := rs_integers 0 2 (Z.to_nat (nd_size (size_shape n))) g).
    exists (PyNdarray (mk_ndarray int8 (size_shape n) (map SInt (fst draw)))),
           (MultiBinary n (size_shape n) (snd draw)).
    split; [reflexivity|]. split; [|exact I].
    eexists. split; [reflexivity|]. cbn [nd_dtype nd_shape nd_data].
    repeat split.
    + rewrite length_map. apply rs_integers_length.
    + apply Forall_map.
      eapply Forall_impl; [|apply (@rs_integers_range RS 0 2 _ g); lia].
      intros z Hz. cbn beta in *. assert (z = 0 \/ z = 1) as [-> | ->] by lia; auto.
  - apply wf_Dict in Hwf. destruct Hwf as [Hnd Hwf].
    assert (Hloop : exists vs cs,
      sample_each spaces = Ok (vs, cs)
      /\ Forall2 (fun kc kv => fst kv = fst kc
                               /\ is_sample (snd kc) (snd kv)
                               /\ lists_keys_in_stored_order (snd kc) (snd kv))
                 spaces vs).
    { clear Hnd. induction spaces as [|[k c] l IHl].
      - exists [], []. split; constructor.
      - inversion IH as [|? ? IHc IHrest]; subst.
        inversion Hwf as [|? ? Hwfc Hwfrest]; subst.
        destruct (IHc Hwfc) as (v & c' & Hv & Hsample & Hord).
        destruct (IHl IHrest Hwfrest) as (vs & cs & Hvs & Hall).
        exists ((k, v) :: vs), ((k, c') :: cs). split.
        + cbn [sample_each fst snd] in *. rewrite Hv. cbn [bind].
          rewrite Hvs. reflexivity.
        + constructor; [|exact Hall]. simpl. auto. }
    destruct Hloop as (vs & cs & Hvs & Hall).
    assert (Hkeys : dict_keys vs = dict_keys spaces)
      by (eapply Forall2_same_keys; exact Hall).
    assert (Hentry : forall k c, In (k, c) spaces ->
              is_sample c (entry k (PyDict vs))
              /\ lists_keys_in_stored_order c (entry k (PyDict vs))).
    { intros k c Hin.
      destruct (Forall2_in_left (k, c) Hall Hin) as ([k' v] & Hin' & Hk & Hs & Ho).
      simpl in *. subst k'.
      rewrite (dict_get_in_nodup k v vs) by (try rewrite Hkeys; assumption).
      auto. }
    exists (PyDict vs), (Dict cs g). split; [|split].
    + rewrite Space_sample_Dict_unconstrained, Hvs. reflexivity.
    + apply is_sample_Dict. exists vs. split; [reflexivity|].
      split; [now rewrite Hkeys|]. split; [now rewrite Hkeys|].
      apply Forall_forall. intros [k c] Hin. now apply Hentry.
    + apply lists_keys_in_stored_order_Dict. split; [now exists vs|].
      apply Forall_forall. intros [k c] Hin. now apply Hentry.
Qed.

End SamplingGivesSamples.

Section RoundTripTheorem.
Context {RS : RandomSource}.

Lemma same_value_PyDict (a b : pydict PyObj) :
  same_value (PyDict a) (PyDict b) = dict_eqb same_value a b.
Proof. reflexivity. Qed.

Lemma data_same_refl (d : list scalar) :
  Forall (fun s => s = SInt 0 \/ s = SInt 1) d -> data_same d d = true.
Proof.
  induction 1 as [|s d Hs _ IH]; simpl; [reflexivity|].
  rewrite IH. now destruct Hs as [-> | ->].
Qed.

Lemma dtype_eqb_refl (d : dtype) : dtype_eqb d d = true.
Proof. now destruct d. Qed.

(** Listing the items in stored order does not change a sample. *)
Lemma same_value_in_stored_order (D : Space) :
  wf_Space D ->
  forall x, is_sample D x -> same_value x (in_stored_order D x) = true.
Proof.
  induction D as [n shape g | spaces g IH] using Space_induction;
    intros Hwf x Hx.
  - destruct Hx as (a & -> & _ & _ & _ & Hbin). simpl.
    now rewrite dtype_eqb_refl, tuple_eqb_refl, data_same_refl.
  - apply wf_Dict in Hwf. destruct Hwf as [Hnd Hwf].
    apply is_sample_Dict in Hx. destruct Hx as (d & -> & Hndd & Hkeys & Hall).
    cbn [in_stored_order]. rewrite same_value_PyDict.
    set (d' := map (fun kc => (fst kc, in_stored_order (snd kc)
                                         (entry (fst kc) (PyDict d)))) spaces).
    assert (Hk' : dict_keys d' = dict_keys spaces).
    { unfold d', dict_keys. rewrite map_map. reflexivity. }
    unfold dict_eqb. apply andb_true_iff. split.
    + apply Nat.eqb_eq. unfold d'. rewrite length_map.
      rewrite <- (dict_keys_length d), <- (dict_keys_length spaces).
      apply Nat.le_antisymm; apply NoDup_incl_length; try assumption;
        intros k; apply Hkeys.
    + apply forallb_forall. intros [k v] Hin. cbn [fst snd].
      assert (Hks : In k (dict_keys spaces)).
      { apply Hkeys. apply in_map_iff. exists (k, v). auto. }
      apply in_map_iff in Hks. destruct Hks as ([k0 c] & Hk0 & Hinc).
      simpl in Hk0. subst k0.
      rewrite (dict_get_in_nodup k (in_stored_order c (entry k (PyDict d))) d').
      * rewrite Forall_forall in IH, Hwf, Hall.
        assert (Hv : entry k (PyDict d) = v).
        { simpl. now rewrite (dict_get_in_nodup k v d). }
        rewrite Hv. apply (IH (k, c) Hinc (Hwf (k, c) Hinc)).
        rewrite <- Hv. apply (Hall (k, c) Hinc).
      * now rewrite Hk'.
      * unfold d'. apply in_map_iff. exists (k, c). auto.
Qed.

(** C2, as the code has it.  Let [D] be a well-formed [Dict] in which
    every [Dict], [D] included, has at least one child, and let [S] be
    a batch of samples of [D], possibly empty.  Then
    [D.from_jsonable(D.to_jsonable(S))] returns a batch [S'] that
    reproduces [S] element for element: [S'] holds each sample of [S],
    with its items listed in the order in which [D] stores its keys;
    when the samples of [S] list their keys in that order, as
    [D.sample()] returns them, [S'] is [S]. *)
Theorem Dict_jsonable_round_trip (spaces : pydict Space) (g : Generator)
        (S : list PyObj) :
  wf_Space (Dict spaces g) ->
  every_Dict_has_child (Dict spaces g) ->
  Forall (is_sample (Dict spaces g)) S ->
  exists j S',
    Space_to_jsonable (Dict spaces g) (PyList S) = Ok j
    /\ Space_from_jsonable (Dict spaces g) j = Ok S'
    /\ S' = map (in_stored_order (Dict spaces g)) S
    /\ Forall2 (fun x y => same_value x y = true) S S'
    /\ (Forall (lists_keys_in_stored_order (Dict spaces g)) S -> S' = S).
Proof.
  intros Hwf Hne HS.
  destruct (Space_round_trip (Dict spaces g) Hwf Hne HS) as (j & Hto & Hfrom).
  exists j, (map (in_stored_order (Dict spaces g)) S).
  split; [assumption|]. split; [assumption|]. split; [reflexivity|]. split.
  - clear Hto Hfrom. induction HS as [|x S Hx _ IH]; constructor.
    + now apply same_value_in_stored_order.
    + exact IH.
  - intros Hord. rewrite <- (map_id S) at 2. apply map_ext_in.
    intros x Hx. rewrite Forall_forall in Hord.
    apply in_stored_order_id; [assumption|now apply Hord].
Qed.

End RoundTripTheorem.

Lemma Dict_jsonable_round_trip_witness :
  exists j S',
    Space_to_jsonable ex_D (PyList [ex_sample; ex_sample]) = Ok j
    /\ Space_from_jsonable ex_D j = Ok S'
    /\ S' = map (in_stored_order ex_D) [ex_sample; ex_sample]
    /\ Forall2 (fun x y => same_value x y = true) [ex_sample; ex_sample] S'
    /\ (Forall (lists_keys_in_stored_order ex_D) [ex_sample; ex_sample] ->
        S' = [ex_sample; ex_sample]).
Proof.
  assert (Hnd1 : forall (k : Key), NoDup [k]).
  { intros k. apply NoDup_cons; [intros []|apply NoDup_nil]. }
  assert (Hnd2 : forall (k k' : Key), k <> k' -> NoDup [k; k']).
  { intros k k' H. apply NoDup_cons; [|apply Hnd1]. intros [E | []]. congruence. }
  assert (Hs : is_sample ex_D ex_sample).
  { exists [(KStr "b", PyDict [(KStr "c", PyNdarray (mk_ndarray int8 [2] [SInt 0; SInt 1]))]);
            (KStr "a", PyNdarray (mk_ndarray int8 [1] [SInt 1]))].
    split; [reflexivity|]. split; [apply Hnd2; discriminate|].
    split; [intros k; simpl; tauto|].
    split; [|split; [|exact I]].
    - exists (mk_ndarray int8 [1] [SInt 1]).
      repeat split. apply Forall_cons; [now right|apply Forall_nil].
    - exists [(KStr "c", PyNdarray (mk_ndarray int8 [2] [SInt 0; SInt 1]))].
      split; [reflexivity|]. split; [apply Hnd1|].
      split; [intros k; simpl; tauto|].
      split; [|exact I].
      exists (mk_ndarray int8 [2] [SInt 0; SInt 1]).
      repeat split.
      apply Forall_cons; [now left|].
      apply Forall_cons; [now right|apply Forall_nil]. }
  apply (@Dict_jsonable_round_trip counterRS
           [(KStr "a", ex_A); (KStr "b", @Dict counterRS [(KStr "c", ex_B)] 0)]
           0 [ex_sample; ex_sample]).
  - split; [apply Hnd2; discriminate|].
    split; [|split; [|exact I]].
    + split; [reflexivity|]. apply Forall_cons; [lia|apply Forall_nil].
    + split; [apply Hnd1|]. split; [|exact I].
      split; [reflexivity|]. apply Forall_cons; [lia|apply Forall_nil].
  - split; [discriminate|]. split; [exact I|]. split; [|exact I].
    split; [discriminate|]. split; exact I.
  - apply Forall_cons; [exact Hs|]. apply Forall_cons; [exact Hs|apply Forall_nil].
Defined.

(** C2 as stated fails on a [Dict] without children: the batch that
    holds the one sample [{}] is converted to [{}], and [from_jsonable]
    raises on it. *)
Lemma Dict_jsonable_round_trip_fails_without_children :
  is_sample (@Dict counterRS [] 0) (PyDict [])
  /\ Space_to_jsonable (@Dict counterRS [] 0) (PyList [PyDict []]) = Ok (PyDict [])
  /\ Space_from_jsonable (@Dict counterRS [] 0) (PyDict []) = Raise StopIteration
  /\ ~ (exists S', Space_from_jsonable (@Dict counterRS [] 0) (PyDict []) = Ok S').
Proof.
  split; [|split; [|split]].
  - exists []. repeat split; try tauto. apply NoDup_nil.
  - reflexivity.
  - reflexivity.
  - intros [S' H]. discriminate H.
Qed.


(* ================================================================== *)
(** ** Further properties: what sampling and seeding leave unchanged *)

Section Structure.
Context {RS : RandomSource}.

Lemma same_structure_Dict (sa sb : pydict Space) (ga gb : Generator) :
  same_structure (Dict sa ga) (Dict sb gb)
  <-> Forall2 (fun x y => fst x = fst y /\ same_structure (snd x) (snd y)) sa sb.
Proof.
  simpl. revert sb. induction sa as [|x sa IH]; intros [|y sb].
  - split; constructor.
  - split; [contradiction|]. intros H. inversion H.
  - split; [contradiction|]. intros H. inversion H.
  - rewrite IH. split.
    + intros (H1 & H2 & H3). constructor; auto.
    + intros H. inversion H as [|? ? ? ? [H1 H2] H3]; subst. auto.
Qed.

Lemma same_structure_refl (D : Space) : same_structure D D.
Proof.
  induction D as [n shape g | spaces g IH] using Space_induction.
  - simpl. auto.
  - apply same_structure_Dict. induction IH; constructor; auto.
Qed.

Lemma same_structure_keys (sa sb : pydict Space) :
  Forall2 (fun x y => fst x = fst y /\ same_structure (snd x) (snd y)) sa sb ->
  dict_keys sb = dict_keys sa.
Proof.
  induction 1 as [|x y sa sb [Hk _] _ IH]; simpl; [reflexivity|].
  now rewrite Hk, IH.
Qed.

(** Spaces of one structure are well-formed together and equal. *)
Lemma same_structure_wf_eq (D : Space) :
  forall D', same_structure D D' -> wf_Space D ->
             wf_Space D' /\ Space_eqb D D' = true.
Proof.
  induction D as [n shape g | spaces g IH] using Space_induction;
    intros D' Hs Hwf.
  - destruct D' as [n' shape' g' | ]; [|contradiction].
    destruct Hs as [<- <-]. split; [exact Hwf|]. simpl. apply MBn_eqb_refl.
  - destruct D' as [ | spaces' g']; [contradiction|].
    apply same_structure_Dict in Hs.
    apply wf_Dict in Hwf. destruct Hwf as [Hnd Hwf].
    pose proof (same_structure_keys Hs) as Hkeys.
    assert (Hboth : Forall (fun kc => wf_Space (snd kc)) spaces'
              /\ Forall2 (fun a b => fst a = fst b
                                     /\ Space_eqb (snd a) (snd b) = true)
                         spaces spaces').
    { clear Hnd Hkeys. induction Hs as [|x y sa sb [Hk Hxy] Hrest IHs].
      - split; constructor.
      - inversion IH as [|? ? IHx IHrest]; subst.
        inversion Hwf as [|? ? Hwx Hwrest]; subst.
        destruct (IHx _ Hxy Hwx) as [Hwy Heq].
        destruct (IHs IHrest Hwrest) as [H1 H2].
        split; constructor; auto. }
    destruct Hboth as [Hwf' Heq]. split.
    + apply wf_Dict. split; [now rewrite Hkeys|assumption].
    + simpl. apply dict_eqb_same_items; [now rewrite Hkeys|assumption].
Qed.

Lemma Space_sample_Dict (spaces : pydict Space) (g : Generator)
      (mask probability : PyObj) :
  Space_sample (Dict spaces g) mask probability
  = (if negb (is_None mask) && negb (is_None probability) then
       Raise (ValueError
         [Lit "Only one of `mask` or `probability` can be provided, actual values: mask=";
          Val mask; Lit ", probability="; Val probability])
     else if negb (is_None mask) then
       match mask with
       | PyDict md =>
           if negb (keys_eqb md spaces) then
             Raise (AssertionError
               [Lit "Expected sample mask keys to be same as space keys, mask keys: ";
                KeysView (dict_keys md); Lit ", space keys: ";
                KeysView (dict_keys spaces)])
           else
             '(vs, cs) <- sample_children
                            (fun k => x <- dict_getitem k md ;; Ok (x, PyNone))
                            spaces ;;
             Ok (PyDict vs, Dict cs g)
       | _ =>
           Raise (AssertionError
             [Lit "Expected sample mask to be a dict, actual type: ";
              Ty (type_of mask)])
       end
     else if negb (is_None probability) then
       match probability with
       | PyDict pd =>
           if negb (keys_eqb pd spaces) then
             Raise (AssertionError
               [Lit "Expected sample probability mask keys to be same as space keys, mask keys: ";
                KeysView (dict_keys pd); Lit ", space keys: ";
                KeysView (dict_keys spaces)])
           else
             '(vs, cs) <- sample_children
                            (fun k => x <- dict_getitem k pd ;; Ok (PyNone, x))
                            spaces ;;
             Ok (PyDict vs, Dict cs g)
       | _ =>
           Raise (AssertionError
             [Lit "Expected sample probability mask to be a dict, actual type: ";
              Ty (type_of probability)])
       end
     else
       '(vs, cs) <- sample_children (fun _ => Ok (PyNone, PyNone)) spaces ;;
       Ok (PyDict vs, Dict cs g)).
Proof. reflexivity. Qed.

End Structure.

(* ================================================================== *)
(** ** Further properties: sampling *)

Lemma Forall_Forall2_impl {A B : Type} (P : A -> Prop) (R Q : A -> B -> Prop)
      (l : list A) (l' : list B) :
  Forall P l -> Forall2 R l l' ->
  (forall x y, P x -> R x y -> Q x y) -> Forall2 Q l l'.
Proof.
  intros HP HR HQ. induction HR as [|x y l l' Hxy _ IH]; constructor.
  - inversion HP; subst. auto.
  - apply IH. now inversion HP.
Qed.


Lemma ex_D_wf : wf_Space ex_D.
Proof.
  assert (Hnd1 : forall (k : Key), NoDup [k]).
  { intros k. apply NoDup_cons; [intros []|apply NoDup_nil]. }
  split.
  - apply NoDup_cons; [|apply Hnd1]. intros [E | []]. discriminate.
  - split; [|split; [|exact I]].
    + split; [reflexivity|]. apply Forall_cons; [lia|apply Forall_nil].
    + split; [apply Hnd1|]. split; [|exact I].
      split; [reflexivity|]. apply Forall_cons; [lia|apply Forall_nil].
Qed.

Section Sampling.
Context {RS : RandomSource}.

Lemma sample_children_cons (arg : Key -> Result (PyObj * PyObj))
      (kc : Key * Space) (l : list (Key * Space)) :
  sample_children arg (kc :: l)
  = ('(m, p) <- arg (fst kc) ;;
     '(v, c') <- Space_sample (snd kc) m p ;;
     '(vs, cs) <- sample_children arg l ;;
     Ok ((fst kc, v) :: vs, (fst kc, c') :: cs)).
Proof. reflexivity. Qed.

(** What the loop of [Dict.sample] has done when it returns: one call
    of [sample] per child, in stored order. *)
Lemma sample_children_inv (arg : Key -> Result (PyObj * PyObj))
      (l : list (Key * Space)) :
  forall vs cs,
    sample_children arg l = Ok (vs, cs) ->
    Forall2 (fun kc kv =>
               fst kv = fst kc
               /\ exists m p c', arg (fst kc) = Ok (m, p)
                    /\ Space_sample (snd kc) m p = Ok (snd kv, c')) l vs
    /\ Forall2 (fun kc kc' =>
                  fst kc' = fst kc
                  /\ exists m p v, arg (fst kc) = Ok (m, p)
                       /\ Space_sample (snd kc) m p = Ok (v, snd kc')) l cs.
Proof.
  induction l as [|kc l IH]; intros vs cs H.
  - injection H as <- <-. split; constructor.
  - rewrite sample_children_cons in H.
    destruct (arg (fst kc)) as [[m p]| |] eqn:Ea; try discriminate.
    cbn [bind] in H.
    destruct (Space_sample (snd kc) m p) as [[v c']| |] eqn:Es; try discriminate.
    cbn [bind] in H.
    destruct (sample_children arg l) as [[vs' cs']| |] eqn:El; try discriminate.
    cbn [bind] in H. injection H as <- <-.
    destruct (IH _ _ eq_refl) as [H1 H2].
    split; constructor; try assumption; cbn [fst snd]; split; eauto.
Qed.

Lemma Space_sample_Dict_inv (spaces : pydict Space) (g : Generator)
      (mask probability x : PyObj) (D' : Space) :
  Space_sample (Dict spaces g) mask probability = Ok (x, D') ->
  exists arg vs cs,
    sample_children arg spaces = Ok (vs, cs) /\ x = PyDict vs /\ D' = Dict cs g.
Proof.
  rewrite Space_sample_Dict. intros H.
  destruct (negb (is_None mask) && negb (is_None probability)); [discriminate|].
  destruct (negb (is_None mask)).
  - destruct mask as [ | | | | md | ]; try discriminate.
    destruct (negb (keys_eqb md spaces)); [discriminate|].
    match type of H with
    | context [sample_children ?a spaces] =>
        destruct (sample_children a spaces) as [[vs cs]| |] eqn:E;
        try discriminate; exists a, vs, cs
    end.
    injection H as <- <-. auto.
  - destruct (negb (is_None probability)).
    + destruct probability as [ | | | | pd | ]; try discriminate.
      destruct (negb (keys_eqb pd spaces)); [discriminate|].
      match type of H with
      | context [sample_children ?a spaces] =>
          destruct (sample_children a spaces) as [[vs cs]| |] eqn:E;
          try discriminate; exists a, vs, cs
      end.
      injection H as <- <-. auto.
    + match type of H with
      | context [sample_children ?a spaces] =>
          destruct (sample_children a spaces) as [[vs cs]| |] eqn:E;
          try discriminate; exists a, vs, cs
      end.
      injection H as <- <-. auto.
Qed.

Lemma sample_keeps_structure (D : Space) :
  forall mask probability x D',
    Space_sample D mask probability = Ok (x, D') -> same_structure D D'.
Proof.
  induction D as [n shape g | spaces g IH] using Space_induction;
    intros mask probability x D' H.
  - cbn [Space_sample] in H.
    destruct (MultiBinary_sample n shape g mask probability) as [[a g']| |];
      try discriminate.
    injection H as _ <-. simpl. auto.
  - apply Space_sample_Dict_inv in H. destruct H as (arg & vs & cs & H & _ & ->).
    apply sample_children_inv in H. destruct H as [_ H].
    apply same_structure_Dict.
    eapply Forall_Forall2_impl; [exact IH|exact H|].
    intros kc kc' IHc (Hk & m & p & v & _ & Hs). cbn beta in *.
    split; [now rewrite Hk|]. eapply IHc; exact Hs.
Qed.

(** X3.  Sampling changes generators only.  Whatever [mask] or
    [probability] is given, a call of [sample] that returns leaves a
    space of the same classes, [n], shapes and keys in the same order;
    a well-formed space stays well-formed and equal ([==]) to what it
    was. *)
Theorem Space_sample_same_structure (D : Space) (mask probability x : PyObj)
        (D' : Space) :
  Space_sample D mask probability = Ok (x, D') ->
  same_structure D D'
  /\ (wf_Space D -> wf_Space D' /\ Space_eqb D D' = true).
Proof.
  intros H. pose proof (sample_keeps_structure _ _ _ H) as Hs.
  split; [exact Hs|]. intros Hwf. now apply same_structure_wf_eq.
Qed.



Lemma Space_contains_Dict (spaces : pydict Space) (g : Generator)
      (xd : pydict PyObj) :
  Space_contains (Dict spaces g) (PyDict xd)
  = (if keys_eqb xd spaces then contains_all xd spaces else Ok false).
Proof. reflexivity. Qed.

Lemma contains_all_cons (xd : pydict PyObj) (kc : Key * Space)
      (l : list (Key * Space)) :
  contains_all xd (kc :: l)
  = (v <- dict_getitem (fst kc) xd ;;
     b <- Space_contains (snd kc) v ;;
     if b then contains_all xd l else Ok false).
Proof. reflexivity. Qed.




(** X1.  [sample()] without arguments raises nothing on a well-formed
    space: it returns a member of the space that lists the keys of
    every dictionary in the order in which the space stores them, and
    leaves a space of the same structure. *)
Theorem Space_sample_unconstrained (D : Space) :
  wf_Space D ->
  exists x D',
    Space_sample D PyNone PyNone = Ok (x, D')
    /\ Space_contains D x = Ok true
    /\ lists_keys_in_stored_order D x
    /\ same_structure D D'.
Proof.
  intros Hwf.
  destruct (Space_sample_is_sample D Hwf) as (x & D' & Hs & Hx & Hord).
  exists x, D'. split; [exact Hs|]. split; [|split].
  - now apply is_sample_contained.
  - exact Hord.
  - exact (sample_keeps_structure _ _ _ Hs).
Qed.

End Sampling.

Lemma Space_sample_same_structure_witness :
  same_structure ex_D
    (@Dict counterRS
       [(KStr "a", @MultiBinary counterRS (n_int 1) [1] 1);
        (KStr "b", @Dict counterRS
                     [(KStr "c", @MultiBinary counterRS (n_int 2) [2] 2)] 0)] 0)
  /\ (wf_Space ex_D ->
      wf_Space (@Dict counterRS
         [(KStr "a", @MultiBinary counterRS (n_int 1) [1] 1);
          (KStr "b", @Dict counterRS
                       [(KStr "c", @MultiBinary counterRS (n_int 2) [2] 2)] 0)] 0)
      /\ Space_eqb ex_D
           (@Dict counterRS
              [(KStr "a", @MultiBinary counterRS (n_int 1) [1] 1);
               (KStr "b", @Dict counterRS
                            [(KStr "c", @MultiBinary counterRS (n_int 2) [2] 2)] 0)] 0)
         = true).
Proof.
  apply (@Space_sample_same_structure counterRS ex_D PyNone PyNone
           (PyDict [(KStr "a", PyNdarray (mk_ndarray int8 [1] [SInt 0]));
                    (KStr "b", PyDict [(KStr "c",
                       PyNdarray (mk_ndarray int8 [2] [SInt 0; SInt 1]))])])).
  reflexivity.
Defined.


Lemma Space_sample_unconstrained_witness :
  exists x D',
    Space_sample ex_D PyNone PyNone = Ok (x, D')
    /\ Space_contains ex_D x = Ok true
    /\ lists_keys_in_stored_order ex_D x
    /\ same_structure ex_D D'.
Proof.
  apply (@Space_sample_unconstrained counterRS ex_D). exact ex_D_wf.
Defined.

(* ================================================================== *)
(** ** Further properties: seeding *)

Lemma nth_error_combine {A B : Type} (l : list A) (l' : list B) (i : nat) :
  nth_error (combine l l') i
  = match nth_error l i, nth_error l' i with
    | Some a, Some b => Some (a, b)
    | _, _ => None
    end.
Proof.
  revert l' i. induction l as [|a l IH]; intros [|b l'] [|i]; simpl;
    try reflexivity.
  - now destruct (nth_error l i).
  - apply IH.
Qed.

Lemma dict_get_In {V : Type} (k : Key) (v : V) (d : pydict V) :
  dict_get k d = Some v -> In (k, v) d.
Proof.
  induction d as [|[k' v'] d IH]; simpl; [discriminate|].
  destruct (key_eqb k k') eqn:E.
  - intros [= ->]. apply key_eqb_eq in E. subst. now left.
  - intros H. right. now apply IH.
Qed.

Section Seeding.
Context {RS : RandomSource}.

Lemma seed_items_None (spaces : pydict Space) :
  map (fun km => (fst km, snd km, PyNone))
      (map (fun kc => (fst kc, Space_seed (snd kc))) spaces)
  = seed_items spaces (map (fun _ => PyNone) spaces).
Proof.
  unfold seed_items. induction spaces as [|kc l IH]; [reflexivity|].
  cbn [map combine fst snd]. now rewrite IH.
Qed.

Lemma seed_items_int (spaces : pydict Space) (subseeds : list Z) :
  map (fun ks => (fst (fst ks), snd (fst ks), PyInt (snd ks)))
      (combine (map (fun kc => (fst kc, Space_seed (snd kc))) spaces) subseeds)
  = seed_items spaces (map PyInt subseeds).
Proof.
  unfold seed_items. revert subseeds.
  induction spaces as [|kc l IH]; intros [|z subseeds]; try reflexivity.
  cbn [map combine fst snd]. now rewrite IH.
Qed.

Lemma seed_each_cons (key : Key) (m : seed_method) (s : PyObj)
      (rest : list (Key * seed_method * PyObj)) :
  seed_each ((key, m, s) :: rest)
  = ('(r, c') <- m s ;;
     '(rs, cs) <- seed_each rest ;;
     Ok ((key, r) :: rs, (key, c') :: cs)).
Proof. reflexivity. Qed.

(** What the loop has done when it returns: one call per item, in the
    order of the items. *)
Lemma seed_each_nth (items : list (Key * seed_method * PyObj)) :
  forall rs cs,
    seed_each items = Ok (rs, cs) ->
    List.length rs = List.length items
    /\ List.length cs = List.length items
    /\ forall i key m s,
         nth_error items i = Some (key, m, s) ->
         exists r c', m s = Ok (r, c')
                      /\ nth_error rs i = Some (key, r)
                      /\ nth_error cs i = Some (key, c').
Proof.
  induction items as [|[[key m] s] rest IH]; intros rs cs H.
  - injection H as <- <-. split; [reflexivity|]. split; [reflexivity|].
    intros [|i] ? ? ? Hi; discriminate.
  - rewrite seed_each_cons in H.
    destruct (m s) as [[r c']| |] eqn:Em; try discriminate. cbn [bind] in H.
    destruct (seed_each rest) as [[rs' cs']| |] eqn:Er; try discriminate.
    cbn [bind] in H. injection H as <- <-.
    destruct (IH _ _ eq_refl) as (H1 & H2 & H3).
    split; [simpl; now rewrite H1|]. split; [simpl; now rewrite H2|].
    intros [|i] key' m' s' Hi.
    + injection Hi as <- <- <-. exists r, c'. auto.
    + apply (H3 i key' m' s' Hi).
Qed.

(** The loop returns when each of its calls does. *)
Lemma seed_each_total (items : list (Key * seed_method * PyObj)) :
  Forall (fun it => exists rc, snd (fst it) (snd it) = Ok rc) items ->
  exists rs cs, seed_each items = Ok (rs, cs).
Proof.
  induction 1 as [|[[key m] s] rest ([r c'] & Hm) _ (rs & cs & IH)].
  - exists [], []. reflexivity.
  - exists ((key, r) :: rs), ((key, c') :: cs).
    rewrite seed_each_cons. cbn [fst snd] in Hm. rewrite Hm. cbn [bind].
    rewrite IH. reflexivity.
Qed.

Lemma seed_items_nth (spaces : pydict Space) (seeds : list PyObj) (i : nat)
      (k : Key) (c : Space) (s : PyObj) :
  nth_error spaces i = Some (k, c) ->
  nth_error seeds i = Some s ->
  nth_error (seed_items spaces seeds) i = Some (k, Space_seed c, s).
Proof.
  intros Hc Hs. unfold seed_items.
  rewrite nth_error_map, nth_error_combine, Hc, Hs. reflexivity.
Qed.

Lemma seed_items_length (spaces : pydict Space) (seeds : list PyObj) :
  List.length seeds = List.length spaces ->
  List.length (seed_items spaces seeds) = List.length spaces.
Proof.
  intros H. unfold seed_items. rewrite length_map, length_combine. lia.
Qed.

Lemma seed_items_children (spaces : pydict Space) :
  forall seeds rs cs,
    List.length seeds = List.length spaces ->
    seed_each (seed_items spaces seeds) = Ok (rs, cs) ->
    Forall2 (fun kc kc' =>
               fst kc = fst kc'
               /\ exists s r, Space_seed (snd kc) s = Ok (r, snd kc'))
            spaces cs.
Proof.
  induction spaces as [|[k c] l IH]; intros [|s seeds] rs cs Hlen H;
    try discriminate.
  - injection H as _ <-. constructor.
  - unfold seed_items in H. cbn [combine map fst snd] in H.
    rewrite seed_each_cons in H.
    destruct (Space_seed c s) as [[r c']| |] eqn:Ec; try discriminate.
    cbn [bind] in H.
    fold (seed_items l seeds) in H.
    destruct (seed_each (seed_items l seeds)) as [[rs' cs']| |] eqn:El;
      try discriminate.
    cbn [bind] in H. injection H as _ <-.
    constructor.
    + cbn [fst snd]. split; [reflexivity|]. eauto.
    + apply (IH seeds rs' cs'); [simpl in Hlen; lia|exact El].
Qed.

Lemma seed_by_keys_cons (methods : pydict seed_method) (seed : pydict PyObj)
      (key : Key) (ks : list Key) (spaces : pydict Space) :
  seed_by_keys methods seed (key :: ks) spaces
  = (m <- dict_getitem key methods ;;
     s <- dict_getitem key seed ;;
     '(r, c') <- m s ;;
     '(rs, spaces') <- seed_by_keys methods seed ks (dict_set key c' spaces) ;;
     Ok ((key, r) :: rs, spaces')).
Proof. reflexivity. Qed.

Lemma dict_set_same_structure (spaces cur : pydict Space) (key : Key)
      (c c' : Space) :
  Forall2 (fun x y => fst x = fst y /\ same_structure (snd x) (snd y)) spaces cur ->
  dict_get key spaces = Some c ->
  same_structure c c' ->
  Forall2 (fun x y => fst x = fst y /\ same_structure (snd x) (snd y))
          spaces (dict_set key c' cur).
Proof.
  induction 1 as [|[k0 c0] [k0' c0'] spaces cur [Hk Hs] Hrest IH];
    intros Hget Hc; [discriminate|].
  cbn [fst snd] in *. subst k0'. cbn [dict_get dict_set] in *.
  destruct (key_eqb key k0).
  - injection Hget as ->. constructor; [split; auto|exact Hrest].
  - constructor; [split; auto|]. now apply IH.
Qed.

Lemma seed_by_keys_structure (spaces : pydict Space) (seed_d : pydict PyObj) :
  Forall (fun kc => forall seed r c',
            Space_seed (snd kc) seed = Ok (r, c') -> same_structure (snd kc) c')
         spaces ->
  forall ks cur rs out,
    Forall2 (fun x y => fst x = fst y /\ same_structure (snd x) (snd y))
            spaces cur ->
    seed_by_keys (map (fun kc => (fst kc, Space_seed (snd kc))) spaces)
                 seed_d ks cur = Ok (rs, out) ->
    Forall2 (fun x y => fst x = fst y /\ same_structure (snd x) (snd y))
            spaces out.
Proof.
  intros IH. induction ks as [|key ks IHks]; intros cur rs out Hcur H.
  - injection H as _ <-. exact Hcur.
  - rewrite seed_by_keys_cons in H. unfold dict_getitem in H.
    rewrite dict_get_map in H.
    destruct (dict_get key spaces) as [c|] eqn:Ec; [|discriminate].
    cbn [option_map bind] in H.
    destruct (dict_get key seed_d) as [s|]; [|discriminate].
    cbn [bind] in H.
    destruct (Space_seed c s) as [[r c']| |] eqn:Es; try discriminate.
    cbn [bind] in H.
    destruct (seed_by_keys _ seed_d ks (dict_set key c' cur))
      as [[rs' out']| |] eqn:Er; try discriminate.
    cbn [bind] in H. injection H as _ <-.
    apply (IHks (dict_set key c' cur) rs' out'); [|exact Er].
    apply dict_set_same_structure with (c := c); try assumption.
    rewrite Forall_forall in IH.
    apply (IH (key, c) (dict_get_In _ _ Ec) s r c' Es).
Qed.

Lemma seed_keeps_structure (D : Space) :
  forall seed report D',
    Space_seed D seed = Ok (report, D') -> same_structure D D'.
Proof.
  induction D as [n shape g | spaces g IH] using Space_induction;
    intros seed report D' H.
  - cbn [Space_seed] in H.
    destruct (base_seed seed g) as [[r g']| |]; try discriminate.
    injection H as _ <-. simpl. auto.
  - cbn [Space_seed] in H. unfold Dict_seed in H.
    assert (Hloop : forall seeds rs cs,
      List.length seeds = List.length spaces ->
      seed_each (seed_items spaces seeds) = Ok (rs, cs) ->
      Forall2 (fun x y => fst x = fst y /\ same_structure (snd x) (snd y))
              spaces cs).
    { intros seeds rs cs Hlen Hs.
      eapply Forall_Forall2_impl;
        [exact IH|exact (seed_items_children _ _ Hlen Hs)|].
      intros kc kc' IHc (Hk & s & r & Hc). split; [exact Hk|].
      exact (IHc _ _ _ Hc). }
    destruct seed as [ | z | q | l | seed_d | a]; try discriminate.
    + rewrite seed_items_None in H.
      destruct (seed_each _) as [[rs cs]| |] eqn:E; try discriminate.
      cbn [bind] in H. injection H as _ <-.
      apply same_structure_Dict. eapply Hloop; [|exact E].
      apply length_map.
    + destruct (base_seed (PyInt z) g) as [[r0 g1]| |]; try discriminate.
      cbn [bind] in H. cbv zeta in H. rewrite seed_items_int in H.
      destruct (seed_each _) as [[rs cs]| |] eqn:E; try discriminate.
      cbn [bind] in H. injection H as _ <-.
      apply same_structure_Dict. eapply Hloop; [|exact E].
      rewrite length_map. apply rs_integers_length.
    + destruct (negb (keys_eqb seed_d spaces)); [discriminate|].
      destruct (seed_by_keys _ seed_d (dict_keys seed_d) spaces)
        as [[rs out]| |] eqn:E; try discriminate.
      cbn [bind] in H. injection H as _ <-.
      apply same_structure_Dict.
      eapply seed_by_keys_structure; [exact IH| |exact E].
      clear. induction spaces as [|kc l IHl]; constructor; auto.
      split; [reflexivity|apply same_structure_refl].
Qed.

(** X4.  Seeding changes generators only.  A call of [seed] that
    returns, with [None], an integer or a dict of seeds, leaves a space
    of the same classes, [n], shapes and keys in the same order; a
    well-formed space stays well-formed and equal ([==]) to what it
    was. *)
Theorem Space_seed_same_structure (D : Space) (seed report : PyObj)
        (D' : Space) :
  Space_seed D seed = Ok (report, D') ->
  same_structure D D'
  /\ (wf_Space D -> wf_Space D' /\ Space_eqb D D' = true).
Proof.
  intros H. pose proof (seed_keeps_structure _ _ H) as Hs.
  split; [exact Hs|]. intros Hwf. now apply same_structure_wf_eq.
Qed.

(** X5.  [Dict.seed(None)] calls [seed(None)] of every child in stored
    order and reports the results under the keys of the children; the
    generator of the [Dict] itself is left as it was.  The call returns
    when the calls on the children do. *)
Theorem Dict_seed_None (spaces : pydict Space) (g : Generator) :
  (Forall (fun kc => exists rc, Space_seed (snd kc) PyNone = Ok rc) spaces ->
   exists report D', Space_seed (Dict spaces g) PyNone = Ok (report, D'))
  /\ (forall report D',
        Space_seed (Dict spaces g) PyNone = Ok (report, D') ->
        exists rs cs,
          report = PyDict rs /\ D' = Dict cs g
          /\ List.length rs = List.length spaces
          /\ List.length cs = List.length spaces
          /\ forall i k c,
               nth_error spaces i = Some (k, c) ->
               exists r c', Space_seed c PyNone = Ok (r, c')
                            /\ nth_error rs i = Some (k, r)
                            /\ nth_error cs i = Some (k, c')).
Proof.
  assert (Heq : forall seed,
    Space_seed (Dict spaces g) seed
    = Dict_seed (map (fun kc => (fst kc, Space_seed (snd kc))) spaces)
                spaces g seed) by reflexivity.
  assert (Hlen : List.length (map (fun _ : Key * Space => PyNone) spaces)
                 = List.length spaces) by apply length_map.
  split.
  - intros Hall.
    destruct (@seed_each_total (seed_items spaces (map (fun _ => PyNone) spaces)))
      as (rs & cs & E).
    { unfold seed_items. apply Forall_forall. intros it Hit.
      apply in_map_iff in Hit. destruct Hit as ([kc s] & <- & Hin).
      pose proof (in_combine_l _ _ _ _ Hin) as Hl.
      pose proof (in_combine_r _ _ _ _ Hin) as Hr.
      apply in_map_iff in Hr. destruct Hr as (? & <- & _).
      rewrite Forall_forall in Hall. apply (Hall kc Hl). }
    exists (PyDict rs), (Dict cs g).
    rewrite Heq. unfold Dict_seed. rewrite seed_items_None, E. reflexivity.
  - intros report D' H. rewrite Heq in H. unfold Dict_seed in H.
    rewrite seed_items_None in H.
    destruct (seed_each _) as [[rs cs]| |] eqn:E; try discriminate.
    cbn [bind] in H. injection H as <- <-.
    destruct (seed_each_nth _ E) as (H1 & H2 & H3).
    rewrite (@seed_items_length _ _ Hlen) in H1, H2.
    exists rs, cs. repeat (split; [assumption || reflexivity|]).
    intros i k c Hi.
    apply (H3 i k (Space_seed c) PyNone).
    apply seed_items_nth; [exact Hi|].
    rewrite nth_error_map, Hi. reflexivity.
Qed.

(** X6.  [Dict.seed(int)] seeds the generator of the [Dict] through the
    base class, draws from it one integer of [[0, 2^31 - 1)] per child,
    and calls [seed] of the [i]-th child, in stored order, with the
    [i]-th integer; it reports the results under the keys of the
    children.  The call returns when the base class and the calls on
    the children do. *)
Theorem Dict_seed_int (spaces : pydict Space) (g : Generator) (z : Z)
        (r0 : PyObj) (g1 : Generator) :
  base_seed (PyInt z) g = Ok (r0, g1) ->
  let draw := rs_integers 0 int32_max (List.length spaces) g1 in
  List.length (fst draw) = List.length spaces
  /\ Forall (fun s => 0 <= s < int32_max) (fst draw)
  /\ ((forall i k c s, nth_error spaces i = Some (k, c) ->
                       nth_error (fst draw) i = Some s ->
                       exists rc, Space_seed c (PyInt s) = Ok rc) ->
      exists report D', Space_seed (Dict spaces g) (PyInt z) = Ok (report, D'))
  /\ (forall report D',
        Space_seed (Dict spaces g) (PyInt z) = Ok (report, D') ->
        exists rs cs,
          report = PyDict rs /\ D' = Dict cs (snd draw)
          /\ List.length rs = List.length spaces
          /\ List.length cs = List.length spaces
          /\ forall i k c,
               nth_error spaces i = Some (k, c) ->
               exists s r c',
                 nth_error (fst draw) i = Some s
                 /\ Space_seed c (PyInt s) = Ok (r, c')
                 /\ nth_error rs i = Some (k, r)
                 /\ nth_error cs i = Some (k, c')).
Proof.
  intros Hbase draw.
  assert (Heq : Space_seed (Dict spaces g) (PyInt z)
    = ('(rs, cs) <- seed_each (seed_items spaces (map PyInt (fst draw))) ;;
       Ok (PyDict rs, Dict cs (snd draw)))).
  { cbn [Space_seed]. unfold Dict_seed. rewrite Hbase. cbn [bind]. cbv zeta.
    now rewrite seed_items_int. }
  assert (Hlen : List.length (fst draw) = List.length spaces)
    by apply rs_integers_length.
  assert (Hlen' : List.length (map PyInt (fst draw)) = List.length spaces)
    by now rewrite length_map.
  split; [exact Hlen|]. split; [|split].
  - apply rs_integers_range. reflexivity.
  - intros Hall.
    destruct (@seed_each_total (seed_items spaces (map PyInt (fst draw))))
      as (rs & cs & E).
    { apply Forall_forall. intros it Hit.
      apply In_nth_error in Hit. destruct Hit as [i Hi].
      unfold seed_items in Hi.
      rewrite nth_error_map, nth_error_combine, nth_error_map in Hi.
      destruct (nth_error spaces i) as [[k c]|] eqn:Ec; [|discriminate].
      destruct (nth_error (fst draw) i) as [s|] eqn:Es; [|discriminate].
      injection Hi as <-. cbn [fst snd]. exact (Hall i k c s Ec Es). }
    exists (PyDict rs), (Dict cs (snd draw)). rewrite Heq, E. reflexivity.
  - intros report D' H. rewrite Heq in H.
    destruct (seed_each _) as [[rs cs]| |] eqn:E; try discriminate.
    cbn [bind] in H. injection H as <- <-.
    destruct (seed_each_nth _ E) as (H1 & H2 & H3).
    rewrite (@seed_items_length _ _ Hlen') in H1, H2.
    exists rs, cs. repeat (split; [assumption || reflexivity|]).
    intros i k c Hi.
    destruct (nth_error (fst draw) i) as [s|] eqn:Es.
    + destruct (H3 i k (Space_seed c) (PyInt s)) as (r & c' & Hc & Hr & Hcs).
      { apply seed_items_nth; [exact Hi|]. rewrite nth_error_map.
        fold draw. now rewrite Es. }
      exists s, r, c'. auto.
    + apply nth_error_None in Es.
      assert (i < List.length spaces)%nat
        by (apply nth_error_Some; congruence).
      lia.
Qed.

End Seeding.

Lemma Space_seed_same_structure_witness :
  same_structure ex_D
    (@Dict counterRS
       [(KStr "a", @MultiBinary counterRS (n_int 1) [1] 5);
        (KStr "b", @Dict counterRS
                     [(KStr "c", @MultiBinary counterRS (n_int 2) [2] 6)] 7)] 7)
  /\ (wf_Space ex_D ->
      wf_Space (@Dict counterRS
         [(KStr "a", @MultiBinary counterRS (n_int 1) [1] 5);
          (KStr "b", @Dict counterRS
                       [(KStr "c", @MultiBinary counterRS (n_int 2) [2] 6)] 7)] 7)
      /\ Space_eqb ex_D
           (@Dict counterRS
              [(KStr "a", @MultiBinary counterRS (n_int 1) [1] 5);
               (KStr "b", @Dict counterRS
                            [(KStr "c", @MultiBinary counterRS (n_int 2) [2] 6)] 7)] 7)
         = true).
Proof.
  apply (@Space_seed_same_structure counterRS ex_D (PyInt 5)
           (PyDict [(KStr "a", PyInt 5); (KStr "b", PyDict [(KStr "c", PyInt 6)])])).
  reflexivity.
Defined.

Lemma Dict_seed_None_witness :
  exists report D', Space_seed ex_D PyNone = Ok (report, D').
Proof.
  apply (proj1 (@Dict_seed_None counterRS
                  [(KStr "a", ex_A); (KStr "b", @Dict counterRS [(KStr "c", ex_B)] 0)]
                  0)).
  apply Forall_cons; [eexists; reflexivity|].
  apply Forall_cons; [eexists; reflexivity|].
  apply Forall_nil.
Defined.

Lemma Dict_seed_int_witness :
  exists rs cs,
    PyDict [(KStr "a", PyInt 5); (KStr "b", PyDict [(KStr "c", PyInt 6)])]
    = PyDict rs
    /\ @Dict counterRS
         [(KStr "a", @MultiBinary counterRS (n_int 1) [1] 5);
          (KStr "b", @Dict counterRS
                       [(KStr "c", @MultiBinary counterRS (n_int 2) [2] 6)] 7)] 7
       = @Dict counterRS cs 7
    /\ List.length rs = 2%nat
    /\ List.length cs = 2%nat
    /\ forall i k c,
         nth_error [(KStr "a", ex_A); (KStr "b", @Dict counterRS [(KStr "c", ex_B)] 0)] i
         = Some (k, c) ->
         exists s r c',
           nth_error [5; 6] i = Some s
           /\ Space_seed c (PyInt s) = Ok (r, c')
           /\ nth_error rs i = Some (k, r)
           /\ nth_error cs i = Some (k, c').
Proof.
  apply (proj2 (proj2 (proj2
           (@Dict_seed_int counterRS
              [(KStr "a", ex_A); (KStr "b", @Dict counterRS [(KStr "c", ex_B)] 0)]
              0 5 (PyInt 5) 5 eq_refl)))).
  reflexivity.
Defined.

(* ================================================================== *)
(** ** Further properties: the arguments of [MultiBinary.sample] *)

Lemma dtype_eqb_eq (a b : dtype) : dtype_eqb a b = true <-> a = b.
Proof. destruct a, b; simpl; split; intros H; try reflexivity; discriminate. Qed.



Section MultiBinaryArguments.
Context {RS : RandomSource}.

(** X7.  The checks of [MultiBinary.sample].  With both a [mask] and a
    [probability] the call raises a [ValueError].  With a [mask] alone
    it returns exactly when the mask is an [int8] array of the shape of
    the space with entries 0, 1 or 2, and raises an [AssertionError]
    otherwise; with a [probability] alone it returns exactly when that
    is a [float64] array of the shape of the space with entries in
    [[0, 1]], and raises an [AssertionError] otherwise. *)
Theorem MultiBinary_sample_checks (n : MBn) (shape : list Z) (g : Generator) :
  (forall mask probability,
     mask <> PyNone -> probability <> PyNone ->
     exists m, MultiBinary_sample n shape g mask probability
               = Raise (ValueError m))
  /\ (forall mask,
        mask <> PyNone ->
        (valid_mask shape mask ->
         exists r, MultiBinary_sample n shape g mask PyNone = Ok r)
        /\ (~ valid_mask shape mask ->
            exists m, MultiBinary_sample n shape g mask PyNone
                      = Raise (AssertionError m)))
  /\ (forall probability,
        probability <> PyNone ->
        (valid_probability shape probability ->
         exists r, MultiBinary_sample n shape g PyNone probability = Ok r)
        /\ (~ valid_probability shape probability ->
            exists m, MultiBinary_sample n shape g PyNone probability
                      = Raise (AssertionError m))).
Proof.
  assert (HnotNone : forall o, o <> PyNone -> is_None o = false).
  { intros [ | | | | | ] H; try reflexivity. congruence. }
  split; [|split].
  - intros mask probability Hm Hp. unfold MultiBinary_sample.
    rewrite (HnotNone _ Hm), (HnotNone _ Hp). cbn [negb andb]. eauto.
  - intros mask Hm. unfold MultiBinary_sample.
    rewrite (HnotNone _ Hm). cbn [is_None negb andb]. split.
    + intros (m & -> & Hdt & Hsh & Hvals).
      rewrite Hdt, Hsh, tuple_eqb_refl. cbn [dtype_eqb negb].
      assert (Hchk : forallb (fun s => scalar_eq_Z s 0 || scalar_eq_Z s 1
                                       || scalar_eq_Z s 2) (nd_data m) = true).
      { apply forallb_forall. intros s Hs. rewrite Forall_forall in Hvals.
        destruct (Hvals s Hs) as [H | [H | H]]; rewrite H;
          rewrite ?orb_true_r; reflexivity. }
      rewrite Hchk. cbn [negb].
      destruct (Generator_integers 0 2 (size_shape n) int8 g) as [r g'].
      assert (Hcast : exists d,
        mapM (fun s => z <- scalar_int s ;; Ok (SInt (wrap_int8 z))) (nd_data m)
        = Ok d).
      { clear Hchk. induction Hvals as [|s d Hs _ (d' & IH)].
        - exists []. reflexivity.
        - assert (Hz : exists z, scalar_int s = Ok z).
          { destruct s as [z|q|]; simpl; eauto.
            destruct Hs as [H | [H | H]]; discriminate. }
          destruct Hz as [z Hz]. exists (SInt (wrap_int8 z) :: d').
          cbn [mapM].
          fold (mapM (fun s => z <- scalar_int s ;; Ok (SInt (wrap_int8 z)))).
          rewrite Hz. cbn [bind]. rewrite IH. reflexivity. }
      destruct Hcast as [d Hd]. unfold astype_int8. rewrite Hd. cbn [bind]. eauto.
    + intros Hbad.
      destruct mask as [ | | | | | m]; try (eexists; reflexivity);
        try congruence.
      destruct (dtype_eqb (nd_dtype m) int8) eqn:Edt;
        [|eexists; reflexivity].
      destruct (tuple_eqb (nd_shape m) shape) eqn:Esh;
        [|eexists; reflexivity].
      destruct (forallb (fun s => scalar_eq_Z s 0 || scalar_eq_Z s 1
                                  || scalar_eq_Z s 2) (nd_data m)) eqn:Ev;
        [|eexists; reflexivity].
      exfalso. apply Hbad. exists m. split; [reflexivity|].
      split; [now apply dtype_eqb_eq|]. split; [now apply tuple_eqb_eq|].
      apply Forall_forall. intros s Hs. rewrite forallb_forall in Ev.
      specialize (Ev s Hs).
      destruct (scalar_eq_Z s 0); [now left|].
      destruct (scalar_eq_Z s 1); [right; now left|].
      right; right. exact Ev.
  - intros probability Hp. unfold MultiBinary_sample.
    rewrite (HnotNone _ Hp). cbn [is_None negb andb]. split.
    + intros (p & -> & Hdt & Hsh & Hvals).
      rewrite Hdt, Hsh, tuple_eqb_refl. cbn [dtype_eqb negb].
      assert (Hchk : forallb (fun s => Qle_bool 0 (scalar_Q s)
                                       && Qle_bool (scalar_Q s) 1) (nd_data p)
                     = true).
      { apply forallb_forall. intros s Hs. rewrite Forall_forall in Hvals.
        destruct (Hvals s Hs) as [H0 H1]. apply andb_true_iff.
        split; now apply Qle_bool_iff. }
      rewrite Hchk. cbn [negb].
      destruct (Generator_random shape g) as [u g']. eauto.
    + intros Hbad.
      destruct probability as [ | | | | | p]; try (eexists; reflexivity);
        try congruence.
      destruct (dtype_eqb (nd_dtype p) float64) eqn:Edt;
        [|eexists; reflexivity].
      destruct (tuple_eqb (nd_shape p) shape) eqn:Esh;
        [|eexists; reflexivity].
      destruct (forallb (fun s => Qle_bool 0 (scalar_Q s)
                                  && Qle_bool (scalar_Q s) 1) (nd_data p)) eqn:Ev;
        [|eexists; reflexivity].
      exfalso. apply Hbad. exists p. split; [reflexivity|].
      split; [now apply dtype_eqb_eq|]. split; [now apply tuple_eqb_eq|].
      apply Forall_forall. intros s Hs. rewrite forallb_forall in Ev.
      specialize (Ev s Hs). apply andb_true_iff in Ev.
      destruct Ev as [H0 H1]. split; now apply Qle_bool_iff.
Qed.


End MultiBinaryArguments.

Lemma MultiBinary_sample_checks_witness :
  (exists m, @MultiBinary_sample counterRS (n_int 2) [2] 0
               (PyNdarray (mk_ndarray int8 [2] [SInt 2; SInt 0]))
               (PyNdarray (mk_ndarray float64 [2] [SFloat 1; SFloat 0]))
             = Raise (ValueError m))
  /\ (exists r, @MultiBinary_sample counterRS (n_int 2) [2] 0
                  (PyNdarray (mk_ndarray int8 [2] [SInt 2; SInt 0])) PyNone
                = Ok r)
  /\ (exists m, @MultiBinary_sample counterRS (n_int 2) [2] 0
                  (PyNdarray (mk_ndarray int8 [2] [SInt 3; SInt 0])) PyNone
                = Raise (AssertionError m))
  /\ (exists r, @MultiBinary_sample counterRS (n_int 2) [2] 0 PyNone
                  (PyNdarray (mk_ndarray float64 [2] [SFloat 1; SFloat 0]))
                = Ok r)
  /\ (exists m, @MultiBinary_sample counterRS (n_int 2) [2] 0 PyNone
                  (PyList [PyFloat 1; PyFloat 0])
                = Raise (AssertionError m)).
Proof.
  destruct (@MultiBinary_sample_checks counterRS (n_int 2) [2] 0)
    as (Hboth & Hmask & Hprob).
  split; [apply (Hboth (PyNdarray (mk_ndarray int8 [2] [SInt 2; SInt 0]))
                       (PyNdarray (mk_ndarray float64 [2] [SFloat 1; SFloat 0])));
          discriminate|].
  split.
  { apply (proj1 (Hmask (PyNdarray (mk_ndarray int8 [2] [SInt 2; SInt 0]))
                        ltac:(discriminate))).
    eexists. split; [reflexivity|]. split; [reflexivity|].
    split; [reflexivity|].
    apply Forall_cons; [right; right; reflexivity|].
    apply Forall_cons; [left; reflexivity|apply Forall_nil]. }
  split.
  { apply (proj2 (Hmask (PyNdarray (mk_ndarray int8 [2] [SInt 3; SInt 0]))
                        ltac:(discriminate))).
    intros (m & Hm & _ & _ & Hvals). injection Hm as <-.
    inversion Hvals as [|? ? [H | [H | H]] _]; discriminate H. }
  split.
  { apply (proj1 (Hprob (PyNdarray (mk_ndarray float64 [2] [SFloat 1; SFloat 0]))
                        ltac:(discriminate))).
    eexists. split; [reflexivity|]. split; [reflexivity|].
    split; [reflexivity|].
    apply Forall_cons; [split; discriminate|].
    apply Forall_cons; [split; discriminate|apply Forall_nil]. }
  apply (proj2 (Hprob (PyList [PyFloat 1; PyFloat 0]) ltac:(discriminate))).
  intros (p & Hp & _). discriminate Hp.
Defined.


(* ================================================================== *)
(** ** Further properties: the arguments of [Dict.sample] *)

Section DictSampling.
Context {RS : RandomSource}.

(** The loop returns the values and the children of its calls when
    each of them returns. *)
Lemma sample_children_ok (arg : Key -> Result (PyObj * PyObj))
      (value : Key -> PyObj) (sampled : Key -> Space) (l : list (Key * Space)) :
  Forall (fun kc => exists m p,
            arg (fst kc) = Ok (m, p)
            /\ Space_sample (snd kc) m p = Ok (value (fst kc), sampled (fst kc))) l ->
  sample_children arg l
  = Ok (map (fun kc => (fst kc, value (fst kc))) l,
        map (fun kc => (fst kc, sampled (fst kc))) l).
Proof.
  induction 1 as [|kc l (m & p & Ha & Hs) _ IH]; [reflexivity|].
  rewrite sample_children_cons, Ha. cbn [bind]. rewrite Hs. cbn [bind].
  rewrite IH. reflexivity.
Qed.

Lemma keys_eqb_false {V W : Type} (a : pydict V) (b : pydict W) :
  NoDup (dict_keys a) -> NoDup (dict_keys b) ->
  ~ (forall k, In k (dict_keys a) <-> In k (dict_keys b)) ->
  keys_eqb a b = false.
Proof.
  intros Ha Hb Hne. destruct (keys_eqb a b) eqn:E; [|reflexivity].
  exfalso. apply Hne. now apply keys_eqb_iff.
Qed.

(** X9.  What [Dict.sample] rejects.  With both a [mask] and a
    [probability] it raises a [ValueError]; a [mask] or a [probability]
    that is not a dict, or a dict whose keys are not exactly the keys
    of the children, fails an assertion, before any child is
    sampled. *)
Theorem Dict_sample_rejects (spaces : pydict Space) (g : Generator) :
  NoDup (dict_keys spaces) ->
  (forall mask probability,
     mask <> PyNone -> probability <> PyNone ->
     exists m, Space_sample (Dict spaces g) mask probability
               = Raise (ValueError m))
  /\ (forall mask,
        mask <> PyNone -> type_of mask <> ty_dict ->
        Space_sample (Dict spaces g) mask PyNone
        = Raise (AssertionError
            [Lit "Expected sample mask to be a dict, actual type: ";
             Ty (type_of mask)]))
  /\ (forall probability,
        probability <> PyNone -> type_of probability <> ty_dict ->
        Space_sample (Dict spaces g) PyNone probability
        = Raise (AssertionError
            [Lit "Expected sample probability mask to be a dict, actual type: ";
             Ty (type_of probability)]))
  /\ (forall d,
        NoDup (dict_keys d) ->
        ~ (forall k, In k (dict_keys d) <-> In k (dict_keys spaces)) ->
        (exists m, Space_sample (Dict spaces g) (PyDict d) PyNone
                   = Raise (AssertionError m))
        /\ (exists m, Space_sample (Dict spaces g) PyNone (PyDict d)
                      = Raise (AssertionError m))).
Proof.
  intros Hnd.
  assert (HnotNone : forall o, o <> PyNone -> is_None o = false).
  { intros [ | | | | | ] H; try reflexivity. congruence. }
  split; [|split; [|split]].
  - intros mask probability Hm Hp. rewrite Space_sample_Dict.
    rewrite (HnotNone _ Hm), (HnotNone _ Hp). cbn [negb andb]. eauto.
  - intros mask Hm Hty. rewrite Space_sample_Dict.
    rewrite (HnotNone _ Hm). cbn [is_None negb andb].
    destruct mask; try reflexivity; simpl in Hty; congruence.
  - intros probability Hp Hty. rewrite Space_sample_Dict.
    rewrite (HnotNone _ Hp). cbn [is_None negb andb].
    destruct probability; try reflexivity; simpl in Hty; congruence.
  - intros d Hd Hne. rewrite !Space_sample_Dict. cbn [is_None negb andb].
    rewrite (keys_eqb_false d spaces Hd Hnd Hne). cbn [negb]. eauto.
Qed.

(** X10.  How [Dict.sample] hands on its arguments.  With a dict [mask]
    over exactly the keys of the children, each child is sampled with
    the entry of its key as its [mask]; with such a [probability], with
    the entry of its key as its [probability].  The call returns the
    dict of the children's samples, listed in the order in which the
    space stores its keys, and raises nothing when the calls on the
    children return. *)
Theorem Dict_sample_delegates (spaces : pydict Space) (g : Generator)
        (d : pydict PyObj) (value : Key -> PyObj) (sampled : Key -> Space) :
  NoDup (dict_keys spaces) ->
  NoDup (dict_keys d) ->
  (forall k, In k (dict_keys d) <-> In k (dict_keys spaces)) ->
  ((forall k c m, dict_get k spaces = Some c -> dict_get k d = Some m ->
                  Space_sample c m PyNone = Ok (value k, sampled k)) ->
   Space_sample (Dict spaces g) (PyDict d) PyNone
   = Ok (PyDict (map (fun kc => (fst kc, value (fst kc))) spaces),
         Dict (map (fun kc => (fst kc, sampled (fst kc))) spaces) g))
  /\ ((forall k c p, dict_get k spaces = Some c -> dict_get k d = Some p ->
                     Space_sample c PyNone p = Ok (value k, sampled k)) ->
      Space_sample (Dict spaces g) PyNone (PyDict d)
      = Ok (PyDict (map (fun kc => (fst kc, value (fst kc))) spaces),
            Dict (map (fun kc => (fst kc, sampled (fst kc))) spaces) g)).
Proof.
  intros Hnd Hd Hkeys.
  assert (Heq : keys_eqb d spaces = true) by now apply keys_eqb_iff.
  assert (Hentry : forall k c, In (k, c) spaces ->
            dict_get k spaces = Some c /\ exists m, dict_get k d = Some m).
  { intros k c Hin. split; [now apply dict_get_in_nodup|].
    apply dict_get_some_in. apply Hkeys. apply in_map_iff.
    exists (k, c). auto. }
  split; intros Hchild; rewrite Space_sample_Dict; cbn [is_None negb andb];
    rewrite Heq; cbn [negb].
  - rewrite (@sample_children_ok _ value sampled); [reflexivity|].
    apply Forall_forall. intros [k c] Hin. cbn [fst snd].
    destruct (Hentry k c Hin) as (Hc & m & Hm).
    exists m, PyNone. unfold dict_getitem. rewrite Hm. cbn [bind].
    split; [reflexivity|]. exact (Hchild k c m Hc Hm).
  - rewrite (@sample_children_ok _ value sampled); [reflexivity|].
    apply Forall_forall. intros [k c] Hin. cbn [fst snd].
    destruct (Hentry k c Hin) as (Hc & p & Hp).
    exists PyNone, p. unfold dict_getitem. rewrite Hp. cbn [bind].
    split; [reflexivity|]. exact (Hchild k c p Hc Hp).
Qed.

End DictSampling.

(* ================================================================== *)
(** ** Further properties: membership in a [Dict] *)

Section DictMembership.
Context {RS : RandomSource}.

Lemma contains_all_iff (xd : pydict PyObj) (l : list (Key * Space)) :
  (forall kc, In kc l -> In (fst kc) (dict_keys xd)) ->
  (contains_all xd l = Ok true
   <-> Forall (fun kc => Space_contains (snd kc) (entry (fst kc) (PyDict xd))
                         = Ok true) l).
Proof.
  induction l as [|kc l IH]; intros Hkeys.
  - split; [constructor|reflexivity].
  - rewrite contains_all_cons.
    destruct (proj1 (dict_get_some_in (fst kc) xd) (Hkeys kc (or_introl eq_refl)))
      as [v Hv].
    assert (He : entry (fst kc) (PyDict xd) = v) by (simpl; now rewrite Hv).
    unfold dict_getitem. rewrite Hv. cbn [bind].
    specialize (IH (fun kc' H => Hkeys kc' (or_intror H))).
    split.
    + intros H. destruct (Space_contains (snd kc) v) as [[|]| |] eqn:Ec;
        try discriminate.
      constructor; [now rewrite He|]. apply IH. exact H.
    + intros H. apply Forall_cons_iff in H. destruct H as [Hc Hrest].
      rewrite He in Hc. rewrite Hc. cbn [bind]. now apply IH.
Qed.

(** [all(...)] stops at the first child that does not contain its
    entry. *)
Lemma contains_all_stops (xd : pydict PyObj) (pre post : list (Key * Space))
      (kc : Key * Space) :
  (forall kc', In kc' (pre ++ [kc]) -> In (fst kc') (dict_keys xd)) ->
  Forall (fun kc' => Space_contains (snd kc') (entry (fst kc') (PyDict xd))
                     = Ok true) pre ->
  Space_contains (snd kc) (entry (fst kc) (PyDict xd)) = Ok false ->
  contains_all xd (pre ++ kc :: post) = Ok false.
Proof.
  intros Hkeys Hpre Hkc.
  assert (Hget : forall kc', In kc' (pre ++ [kc]) ->
            dict_getitem (fst kc') xd = Ok (entry (fst kc') (PyDict xd))).
  { intros kc' Hin.
    destruct (proj1 (dict_get_some_in (fst kc') xd) (Hkeys kc' Hin)) as [v Hv].
    unfold dict_getitem. simpl. now rewrite Hv. }
  induction pre as [|kc0 pre IH].
  - cbn [app]. rewrite contains_all_cons.
    rewrite (Hget kc (or_introl eq_refl)). cbn [bind]. rewrite Hkc. reflexivity.
  - inversion Hpre as [|? ? H0 Hrest]; subst.
    cbn [app]. rewrite contains_all_cons.
    rewrite (Hget kc0 (or_introl eq_refl)). cbn [bind]. rewrite H0. cbn [bind].
    apply IH; try assumption.
    + intros kc' Hin. apply Hkeys. now right.
    + intros kc' Hin. apply Hget. now right.
Qed.

(** X11.  Membership in a [Dict].  A value that is not a dict, or a dict
    whose keys are not exactly the keys of the children, is not
    contained, and no child is asked.  A dict over exactly these keys
    is contained iff every child contains the entry of its key; the
    children are asked in stored order, and the first one that does
    not contain its entry settles the answer, whatever the later ones
    would do. *)
Theorem Dict_contains_spec (spaces : pydict Space) (g : Generator) :
  NoDup (dict_keys spaces) ->
  (forall x, type_of x <> ty_dict -> Space_contains (Dict spaces g) x = Ok false)
  /\ (forall xd,
        NoDup (dict_keys xd) ->
        ~ (forall k, In k (dict_keys xd) <-> In k (dict_keys spaces)) ->
        Space_contains (Dict spaces g) (PyDict xd) = Ok false)
  /\ (forall xd,
        NoDup (dict_keys xd) ->
        (forall k, In k (dict_keys xd) <-> In k (dict_keys spaces)) ->
        (Space_contains (Dict spaces g) (PyDict xd) = Ok true
         <-> Forall (fun kc => Space_contains (snd kc) (entry (fst kc) (PyDict xd))
                               = Ok true) spaces)
        /\ (forall pre kc post,
              spaces = pre ++ kc :: post ->
              Forall (fun kc' => Space_contains (snd kc')
                                   (entry (fst kc') (PyDict xd)) = Ok true) pre ->
              Space_contains (snd kc) (entry (fst kc) (PyDict xd)) = Ok false ->
              Space_contains (Dict spaces g) (PyDict xd) = Ok false)).
Proof.
  intros Hnd. split; [|split].
  - intros x Hty. destruct x; try reflexivity. simpl in Hty. congruence.
  - intros xd Hxd Hne. rewrite Space_contains_Dict.
    now rewrite (keys_eqb_false xd spaces Hxd Hnd Hne).
  - intros xd Hxd Hkeys. rewrite Space_contains_Dict.
    rewrite (proj2 (keys_eqb_iff xd spaces Hxd Hnd) Hkeys).
    assert (Hin : forall kc, In kc spaces -> In (fst kc) (dict_keys xd)).
    { intros kc H. apply Hkeys. now apply in_map. }
    split; [now apply contains_all_iff|].
    intros pre kc post -> Hpre Hkc.
    apply contains_all_stops; try assumption.
    intros kc' H. apply Hin. apply in_app_iff in H. apply in_app_iff.
    destruct H as [H | [<- | []]]; [now left|right; now left].
Qed.

End DictMembership.

Lemma ex_D_keys_NoDup :
  NoDup (dict_keys
           [(KStr "a", ex_A); (KStr "b", @Dict counterRS [(KStr "c", ex_B)] 0)]).
Proof.
  simpl. apply NoDup_cons; [|apply NoDup_cons; [|apply NoDup_nil]].
  - intros [H | []]. discriminate H.
  - intros [].
Qed.

Lemma Dict_sample_rejects_witness :
  (exists m, Space_sample ex_D (PyDict []) (PyDict []) = Raise (ValueError m))
  /\ Space_sample ex_D (PyInt 1) PyNone
     = Raise (AssertionError
         [Lit "Expected sample mask to be a dict, actual type: "; Ty ty_int])
  /\ Space_sample ex_D PyNone (PyFloat 1)
     = Raise (AssertionError
         [Lit "Expected sample probability mask to be a dict, actual type: ";
          Ty ty_float])
  /\ (exists m, Space_sample ex_D (PyDict [(KStr "a", PyNone)]) PyNone
                = Raise (AssertionError m))
  /\ (exists m, Space_sample ex_D PyNone (PyDict [(KStr "a", PyNone)])
                = Raise (AssertionError m)).
Proof.
  destruct (@Dict_sample_rejects counterRS _ 0 ex_D_keys_NoDup)
    as (H1 & H2 & H3 & H4).
  split; [apply (H1 (PyDict []) (PyDict [])); discriminate|].
  split; [apply (H2 (PyInt 1)); discriminate|].
  split; [apply (H3 (PyFloat 1)); discriminate|].
  apply (H4 [(KStr "a", PyNone)]).
  - simpl. apply NoDup_cons; [intros []|apply NoDup_nil].
  - intros H. destruct (proj2 (H (KStr "b"))) as [E | []].
    + simpl. right. left. reflexivity.
    + discriminate E.
Defined.

Lemma Dict_sample_delegates_witness :
  Space_sample ex_D
    (PyDict [(KStr "b", PyDict [(KStr "c",
                PyNdarray (mk_ndarray int8 [2] [SInt 2; SInt 0]))]);
             (KStr "a", PyNdarray (mk_ndarray int8 [1] [SInt 1]))])
    PyNone
  = Ok (PyDict [(KStr "a", PyNdarray (mk_ndarray int8 [1] [SInt 1]));
                (KStr "b", PyDict [(KStr "c",
                   PyNdarray (mk_ndarray int8 [2] [SInt 0; SInt 0]))])],
        @Dict counterRS
          [(KStr "a", @MultiBinary counterRS (n_int 1) [1] 1);
           (KStr "b", @Dict counterRS
                        [(KStr "c", @MultiBinary counterRS (n_int 2) [2] 2)] 0)]
          0).
Proof.
  apply (proj1 (@Dict_sample_delegates counterRS
           [(KStr "a", ex_A); (KStr "b", @Dict counterRS [(KStr "c", ex_B)] 0)] 0
           [(KStr "b", PyDict [(KStr "c",
               PyNdarray (mk_ndarray int8 [2] [SInt 2; SInt 0]))]);
            (KStr "a", PyNdarray (mk_ndarray int8 [1] [SInt 1]))]
           (fun k => if key_eqb k (KStr "a")
                     then PyNdarray (mk_ndarray int8 [1] [SInt 1])
                     else PyDict [(KStr "c",
                            PyNdarray (mk_ndarray int8 [2] [SInt 0; SInt 0]))])
           (fun k => if key_eqb k (KStr "a")
                     then @MultiBinary counterRS (n_int 1) [1] 1
                     else @Dict counterRS
                            [(KStr "c", @MultiBinary counterRS (n_int 2) [2] 2)] 0)
           ex_D_keys_NoDup
           ltac:(simpl; apply NoDup_cons;
                 [intros [H | []]; discriminate H
                 |apply NoDup_cons; [intros []|apply NoDup_nil]])
           ltac:(intros k; simpl; tauto))).
  intros k c m Hc Hm. simpl in Hc, Hm.
  destruct (key_eqb k (KStr "a")) eqn:Ea.
  - destruct (key_eqb k (KStr "b")) eqn:Eb.
    + apply key_eqb_eq in Ea. subst k. discriminate Eb.
    + injection Hc as <-. injection Hm as <-. reflexivity.
  - destruct (key_eqb k (KStr "b")) eqn:Eb; [|discriminate Hc].
    injection Hc as <-. injection Hm as <-. reflexivity.
Defined.

Lemma Dict_contains_spec_witness :
  Space_contains ex_D (PyInt 1) = Ok false
  /\ Space_contains ex_D (PyDict [(KStr "a", PyNone)]) = Ok false
  /\ Space_contains ex_D ex_sample = Ok true.
Proof.
  destruct (@Dict_contains_spec counterRS _ 0 ex_D_keys_NoDup) as (H1 & H2 & H3).
  split; [apply (H1 (PyInt 1)); discriminate|].
  split.
  { apply (H2 [(KStr "a", PyNone)]).
    - simpl. apply NoDup_cons; [intros []|apply NoDup_nil].
    - intros H. destruct (proj2 (H (KStr "b"))) as [E | []].
      + simpl. right. left. reflexivity.
      + discriminate E. }
  refine (proj2 (proj1 (H3
    [(KStr "b", PyDict [(KStr "c", PyNdarray (mk_ndarray int8 [2] [SInt 0; SInt 1]))]);
     (KStr "a", PyNdarray (mk_ndarray int8 [1] [SInt 1]))] _ _)) _).
  - simpl. apply NoDup_cons; [|apply NoDup_cons; [|apply NoDup_nil]].
    + intros [H | []]. discriminate H.
    + intros [].
  - intros k. simpl. tauto.
  - apply Forall_cons; [reflexivity|].
    apply Forall_cons; [reflexivity|apply Forall_nil].
Defined.

(* ================================================================== *)
(** ** Further properties: construction of a [Dict] *)

Lemma dict_get_set {V : Type} (k k' : Key) (v : V) (d : pydict V) :
  dict_get k (dict_set k' v d)
  = if key_eqb k k' then Some v else dict_get k d.
Proof.
  induction d as [|[k0 v0] d IH]; simpl.
  - reflexivity.
  - destruct (key_eqb k' k0) eqn:E0; simpl.
    + apply key_eqb_eq in E0. subst k0.
      destruct (key_eqb k k'); reflexivity.
    + rewrite IH. destruct (key_eqb k k0) eqn:E1; [|reflexivity].
      apply key_eqb_eq in E1. subst k0.
      destruct (key_eqb k k') eqn:E2; [|reflexivity].
      apply key_eqb_eq in E2. subst k'. rewrite key_eqb_refl in E0. discriminate.
Qed.

Lemma dict_get_app {V : Type} (k : Key) (a b : pydict V) :
  dict_get k (a ++ b)
  = match dict_get k a with Some v => Some v | None => dict_get k b end.
Proof.
  induction a as [|[k0 v0] a IH]; simpl; [reflexivity|].
  destruct (key_eqb k k0); [reflexivity|exact IH].
Qed.

(** In [dict(items)] the last value given for a key is the one kept. *)
Lemma dict_of_items_get {V : Type} (k : Key) (items : list (Key * V)) :
  dict_get k (dict_of_items items) = dict_get k (rev items).
Proof.
  unfold dict_of_items.
  assert (H : forall d,
    dict_get k (fold_left (fun d kv => dict_set (fst kv) (snd kv) d) items d)
    = match dict_get k (rev items) with
      | Some v => Some v
      | None => dict_get k d
      end).
  { induction items as [|[k0 v0] items IH]; intros d; [reflexivity|].
    cbn [fold_left rev fst snd]. rewrite IH, dict_get_app, dict_get_set.
    destruct (dict_get k (rev items)); [reflexivity|].
    simpl. destruct (key_eqb k k0); reflexivity. }
  rewrite H. now destruct (dict_get k (rev items)).
Qed.

Lemma dict_keys_app {V : Type} (a b : pydict V) :
  dict_keys (a ++ b) = dict_keys a ++ dict_keys b.
Proof. apply map_app. Qed.

Section DictKeywords.
Context {RS : RandomSource}.

Lemma kwargs_items_keys (kwargs : list (string * Space)) :
  dict_keys (kwargs_items kwargs) = map KStr (map fst kwargs).
Proof. unfold kwargs_items, dict_keys. now rewrite !map_map. Qed.

(** Keywords that are new to the dictionary are appended in the order
    in which they are given. *)
Lemma add_kwargs_app (pre rest : list (string * Space)) :
  forall d,
    NoDup (map fst pre) ->
    (forall name, In name (map fst pre) -> ~ In (KStr name) (dict_keys d)) ->
    add_kwargs (pre ++ rest) d = add_kwargs rest (d ++ kwargs_items pre).
Proof.
  induction pre as [|[name sp] pre IH]; intros d Hnd Hfresh.
  - cbn [app kwargs_items map]. now rewrite app_nil_r.
  - cbn [app add_kwargs].
    assert (Hn : ~ In (KStr name) (dict_keys d)) by (apply Hfresh; now left).
    assert (Hmem : dict_mem (KStr name) d = false).
    { destruct (dict_mem (KStr name) d) eqn:E; [|reflexivity].
      apply dict_mem_in in E. contradiction. }
    rewrite Hmem. cbn [negb]. rewrite (dict_set_fresh _ _ _ Hn).
    inversion Hnd as [|? ? Hnotin Hnd']; subst.
    rewrite IH; [|assumption|].
    + cbn [kwargs_items map fst snd]. now rewrite <- app_assoc.
    + intros name' Hin. rewrite dict_keys_app. intros Hk.
      apply in_app_iff in Hk. destruct Hk as [Hk | [Hk | []]].
      * apply (Hfresh name'); [now right|assumption].
      * injection Hk as ->. contradiction.
Qed.

(** X12.  Keyword arguments of the constructor.  Let the [spaces]
    argument be [None], an [OrderedDict] or a sequence of pairs with
    distinct keys.  Keywords whose names are not among these keys are
    stored after them, in the order in which they are given.  The
    first keyword whose name is among them makes the constructor raise
    a [ValueError] that names it. *)
Theorem Dict_init_keywords (items : list (Key * Space))
        (kwargs : list (string * Space)) (g : Generator) (arg : spaces_arg) :
  NoDup (dict_keys items) ->
  NoDup (map fst kwargs) ->
  arg = SpOrderedDict items \/ arg = SpSequence items
  \/ (arg = SpNone /\ items = []) ->
  ((forall name, In name (map fst kwargs) -> ~ In (KStr name) (dict_keys items)) ->
   Dict_init arg kwargs g = Ok (Dict (items ++ kwargs_items kwargs) g))
  /\ (forall pre name sp post,
        kwargs = pre ++ (name, sp) :: post ->
        (forall n, In n (map fst pre) -> ~ In (KStr n) (dict_keys items)) ->
        In (KStr name) (dict_keys items) ->
        Dict_init arg kwargs g
        = Raise (ValueError
            [Lit "Dict space keyword '"; KeyName (KStr name);
             Lit "' already exists in the spaces dictionary."])).
Proof.
  intros Hnd Hkw Harg.
  assert (Hbase : Dict_init arg kwargs g
                  = (d' <- add_kwargs kwargs items ;; Ok (Dict d' g))).
  { unfold Dict_init.
    destruct Harg as [-> | [-> | [-> ->]]];
      rewrite ?(dict_of_items_nodup _ Hnd); reflexivity. }
  rewrite Hbase. split.
  - intros Hfresh.
    rewrite <- (app_nil_r kwargs) at 1.
    rewrite (add_kwargs_app kwargs [] items Hkw Hfresh). reflexivity.
  - intros pre name sp post -> Hfresh Hin.
    rewrite map_app in Hkw. apply NoDup_app_remove_r in Hkw.
    rewrite (add_kwargs_app pre ((name, sp) :: post) items Hkw Hfresh).
    cbn [add_kwargs].
    assert (Hmem : dict_mem (KStr name) (items ++ kwargs_items pre) = true).
    { apply dict_mem_in. rewrite dict_keys_app. apply in_app_iff. now left. }
    rewrite Hmem. reflexivity.
Qed.

(** X13.  A sequence of pairs as the [spaces] argument.  The constructor
    raises nothing; the [Dict] stores each key of the sequence once,
    and when a key is given more than once it stores the last space
    given for it.  A sequence with distinct keys is stored as it is
    given, and so are the items of an [OrderedDict]. *)
Theorem Dict_init_sequence (pairs : list (Key * Space)) (g : Generator) :
  exists d,
    Dict_init (SpSequence pairs) [] g = Ok (Dict d g)
    /\ NoDup (dict_keys d)
    /\ (forall k, dict_get k d = dict_get k (rev pairs))
    /\ (NoDup (dict_keys pairs) ->
        d = pairs
        /\ Dict_init (SpOrderedDict pairs) [] g = Ok (Dict pairs g)).
Proof.
  exists (dict_of_items pairs). split; [reflexivity|]. split; [|split].
  - apply (dict_of_items_wf (fun _ : Space => True)).
  - intros k. apply dict_of_items_get.
  - intros Hnd. split; [now apply dict_of_items_nodup|].
    unfold Dict_init. now rewrite (dict_of_items_nodup _ Hnd).
Qed.

(** X14.  The constructors build well-formed spaces.  Whatever
    [MultiBinary(n)] returns has the shape [n] with positive entries;
    whatever [Dict(spaces, **kwargs)] returns for well-formed children
    has distinct keys and well-formed children. *)
Theorem init_well_formed :
  (forall arg g self, MultiBinary_init arg g = Ok self -> wf_Space self)
  /\ (forall spaces kwargs g D,
        Dict_init spaces kwargs g = Ok D ->
        Forall (fun kc => wf_Space (snd kc)) (children_of spaces) ->
        Forall (fun kc => wf_Space (snd kc)) kwargs ->
        wf_Space D).
Proof.
  split.
  - intros arg g self H. exact (MultiBinary_init_wf _ _ H).
  - intros spaces kwargs g D H Hc Hk. exact (Dict_init_wf _ _ H Hc Hk).
Qed.

End DictKeywords.

Lemma Dict_init_keywords_witness :
  @Dict_init counterRS (SpOrderedDict [(KStr "a", ex_A)])
    [("c", ex_B); ("b", ex_A)] 0
  = Ok (@Dict counterRS
          [(KStr "a", ex_A); (KStr "c", ex_B); (KStr "b", ex_A)] 0)
  /\ @Dict_init counterRS (SpOrderedDict [(KStr "a", ex_A)])
       [("c", ex_B); ("a", ex_A)] 0
     = Raise (ValueError
         [Lit "Dict space keyword '"; KeyName (KStr "a");
          Lit "' already exists in the spaces dictionary."]).
Proof.
  assert (Hnd : NoDup (dict_keys [(KStr "a", ex_A)])).
  { simpl. apply NoDup_cons; [intros []|apply NoDup_nil]. }
  assert (Hnd2 : forall (x y : string), x <> y -> NoDup [x; y]).
  { intros x y H. apply NoDup_cons; [|apply NoDup_cons; [intros []|apply NoDup_nil]].
    intros [E | []]. congruence. }
  split.
  - apply (proj1 (@Dict_init_keywords counterRS [(KStr "a", ex_A)]
                    [("c", ex_B); ("b", ex_A)] 0 (SpOrderedDict [(KStr "a", ex_A)])
                    Hnd (Hnd2 "c" "b" ltac:(discriminate)) (or_introl eq_refl))).
    intros name [<- | [<- | []]] [E | []]; discriminate E.
  - apply (proj2 (@Dict_init_keywords counterRS [(KStr "a", ex_A)]
                    [("c", ex_B); ("a", ex_A)] 0 (SpOrderedDict [(KStr "a", ex_A)])
                    Hnd (Hnd2 "c" "a" ltac:(discriminate)) (or_introl eq_refl))
                 [("c", ex_B)] "a" ex_A []).
    + reflexivity.
    + intros n [<- | []] [E | []]. discriminate E.
    + left. reflexivity.
Defined.

Lemma Dict_init_sequence_witness :
  exists d,
    @Dict_init counterRS
      (SpSequence [(KStr "a", ex_A); (KStr "b", ex_B); (KStr "a", ex_B)]) [] 0
    = Ok (@Dict counterRS d 0)
    /\ NoDup (dict_keys d)
    /\ dict_get (KStr "a") d = Some ex_B.
Proof.
  destruct (@Dict_init_sequence counterRS
              [(KStr "a", ex_A); (KStr "b", ex_B); (KStr "a", ex_B)] 0)
    as (d & H1 & H2 & H3 & _).
  exists d. split; [exact H1|]. split; [exact H2|].
  rewrite H3. reflexivity.
Defined.

Lemma init_well_formed_witness :
  wf_Space (@MultiBinary counterRS (n_tuple [3; 2]) [3; 2] 0)
  /\ wf_Space (@Dict counterRS [(KStr "a", ex_A); (KStr "b", ex_B)] 0).
Proof.
  destruct (@init_well_formed counterRS) as [H1 H2].
  assert (HA : wf_Space ex_A).
  { split; [reflexivity|]. apply Forall_cons; [lia|apply Forall_nil]. }
  assert (HB : wf_Space ex_B).
  { split; [reflexivity|]. apply Forall_cons; [lia|apply Forall_nil]. }
  split.
  - apply (H1 (PyList [PyInt 3; PyInt 2]) 0). reflexivity.
  - apply (H2 (SpOrderedDict [(KStr "a", ex_A)]) [("b", ex_B)] 0).
    + reflexivity.
    + apply Forall_cons; [exact HA|apply Forall_nil].
    + apply Forall_cons; [exact HB|apply Forall_nil].
Defined.

(* ================================================================== *)
(** ** Further properties: the JSON form of a [Dict] *)

Lemma mapM_cons {A B : Type} (f : A -> Result B) (x : A) (l : list A) :
  mapM f (x :: l) = (y <- f x ;; ys <- mapM f l ;; Ok (y :: ys)).
Proof. reflexivity. Qed.

Lemma mapM_ext_in {A B : Type} (f f' : A -> Result B) (l : list A) :
  (forall x, In x l -> f x = f' x) -> mapM f l = mapM f' l.
Proof.
  induction l as [|x l IH]; intros H; [reflexivity|].
  rewrite !mapM_cons, (H x (or_introl eq_refl)).
  rewrite IH; [reflexivity|]. intros y Hy. apply H. now right.
Qed.

Lemma mapM_Forall2_eq {A A' B : Type} (f : A -> Result B) (f' : A' -> Result B)
      (l : list A) (l' : list A') :
  Forall2 (fun x y => f x = f' y) l l' -> mapM f l = mapM f' l'.
Proof.
  induction 1 as [|x y l l' Hxy _ IH]; [reflexivity|].
  now rewrite !mapM_cons, Hxy, IH.
Qed.

(** A loop raises what its first failing element raises. *)
Lemma mapM_app_raise {A B : Type} (f : A -> Result B) (l1 l2 : list A) (x : A)
      (e : exn) :
  Forall (fun y => exists r, f y = Ok r) l1 ->
  f x = Raise e ->
  mapM f (l1 ++ x :: l2) = Raise e.
Proof.
  intros H Hx. induction H as [|y l1 [r Hy] _ IH].
  - cbn [app]. now rewrite mapM_cons, Hx.
  - cbn [app]. rewrite mapM_cons, Hy. cbn [bind]. now rewrite IH.
Qed.

(** A loop whose elements return or raise [e], and one of which raises,
    raises [e]. *)
Lemma mapM_raise {A B : Type} (f : A -> Result B) (l : list A) (e : exn) :
  Forall (fun x => (exists r, f x = Ok r) \/ f x = Raise e) l ->
  Exists (fun x => f x = Raise e) l ->
  mapM f l = Raise e.
Proof.
  induction 1 as [|x l Hx _ IH]; intros Hex.
  - inversion Hex.
  - rewrite mapM_cons. destruct Hx as [[r Hr] | Hr].
    + rewrite Hr. cbn [bind]. rewrite IH; [reflexivity|].
      inversion Hex as [? ? H | ? ? H]; subst; [congruence|assumption].
    + now rewrite Hr.
Qed.

Lemma mapM_Ok_or_raise {A B : Type} (f : A -> Result B) (l : list A) (e : exn) :
  Forall (fun x => (exists r, f x = Ok r) \/ f x = Raise e) l ->
  (exists r, mapM f l = Ok r) \/ mapM f l = Raise e.
Proof.
  induction 1 as [|x l Hx _ IH].
  - left. exists []. reflexivity.
  - rewrite mapM_cons. destruct Hx as [[r Hr] | Hr].
    + rewrite Hr. cbn [bind]. destruct IH as [[rs Hrs] | Hrs].
      * left. exists (r :: rs). now rewrite Hrs.
      * right. now rewrite Hrs.
    + right. now rewrite Hr.
Qed.

Section DictJson.
Context {RS : RandomSource}.

(** X15.  A child that decodes to too short a batch.  Let [from_jsonable]
    of every child return on the entry of its key, as in C9, and let
    some child decode to a batch shorter than the batch [first] of the
    first stored child.  Then [Dict.from_jsonable] raises an
    [IndexError]. *)
Theorem Dict_from_jsonable_short_child (g : Generator)
        (k0 : Key) (c0 : Space) (rest : list (Key * Space))
        (sample_n : PyObj) (first : list PyObj)
        (decoded : pydict (list PyObj)) :
  Forall2 (fun kc kv =>
             fst kv = fst kc
             /\ exists j, py_getitem sample_n (fst kc) = Ok j
                          /\ Space_from_jsonable (snd kc) j = Ok (snd kv))
          ((k0, c0) :: rest) ((k0, first) :: decoded) ->
  Exists (fun kv => (List.length (snd kv) < List.length first)%nat) decoded ->
  Space_from_jsonable (Dict ((k0, c0) :: rest) g) sample_n = Raise IndexError.
Proof.
  intros Hdec Hshort.
  set (dol := (k0, first) :: decoded) in *.
  rewrite Space_from_jsonable_Dict.
  rewrite (mapM_Forall2 _ (r := dol)).
  - cbn [bind dict_values dol map snd py_next].
    fold dol.
    assert (Hitem : forall n kv,
      (exists r, (x <- list_getitem (snd kv) n ;; Ok (fst kv, x)) = Ok r)
      \/ (x <- list_getitem (snd kv) n ;; Ok (fst kv, x))
         = (Raise IndexError : Result (Key * PyObj))).
    { intros n kv. unfold list_getitem.
      destruct (nth_error (snd kv) n); [left; eexists|right]; reflexivity. }
    apply mapM_raise.
    + apply Forall_forall. intros n _.
      destruct (@mapM_Ok_or_raise _ _
                  (fun kv => x <- list_getitem (snd kv) n ;; Ok (fst kv, x))
                  dol IndexError) as [[r Hr] | Hr].
      * apply Forall_forall. intros kv _. apply Hitem.
      * left. rewrite Hr. eexists. reflexivity.
      * right. now rewrite Hr.
    + apply Exists_exists in Hshort. destruct Hshort as (kv & Hin & Hlt).
      apply Exists_exists. exists (List.length (snd kv)). split.
      * apply in_seq. lia.
      * rewrite (@mapM_raise _ _
                   (fun kv' => x <- list_getitem (snd kv') (List.length (snd kv)) ;;
                               Ok (fst kv', x)) dol IndexError);
          [reflexivity| |].
        -- apply Forall_forall. intros kv' _. apply Hitem.
        -- apply Exists_exists. exists kv. split; [now right|].
           unfold list_getitem.
           rewrite (proj2 (nth_error_None (snd kv) (List.length (snd kv))))
             by lia.
           reflexivity.
  - eapply Forall2_impl; [|exact Hdec].
    intros [k c] [k' v] [Hk (j & Hj & Hv)]. simpl in *. subst k'.
    rewrite Hj. simpl. rewrite Hv. reflexivity.
Qed.

(** X16.  [Dict.to_jsonable] reads a sample at the keys of the space
    only.  Two batches whose samples agree at every key of the space
    are converted alike, whatever else the samples hold.  A sample
    that lacks the key of the first stored child makes the call raise
    a [KeyError] for that key. *)
Theorem Dict_to_jsonable_reads_space_keys (spaces : pydict Space)
        (g : Generator) :
  (forall S S',
     Forall2 (fun x y => forall k, In k (dict_keys spaces) ->
                                   py_getitem x k = py_getitem y k) S S' ->
     Space_to_jsonable (Dict spaces g) (PyList S)
     = Space_to_jsonable (Dict spaces g) (PyList S'))
  /\ (forall k0 c0 rest S1 d S2,
        spaces = (k0, c0) :: rest ->
        Forall (fun x => exists v, py_getitem x k0 = Ok v) S1 ->
        dict_get k0 d = None ->
        Space_to_jsonable (Dict spaces g) (PyList (S1 ++ PyDict d :: S2))
        = Raise (KeyError k0)).
Proof.
  split.
  - intros S S' H. rewrite !Space_to_jsonable_Dict.
    rewrite (@mapM_ext_in _ _ _
      (fun kc =>
         samples <- py_iter (PyList S') ;;
         col <- mapM (fun sample => py_getitem sample (fst kc)) samples ;;
         j <- Space_to_jsonable (snd kc) (PyList col) ;;
         Ok (fst kc, j)) spaces); [reflexivity|].
    intros kc Hin. cbn [py_iter bind].
    rewrite (@mapM_Forall2_eq _ _ _
               (fun sample => py_getitem sample (fst kc))
               (fun sample => py_getitem sample (fst kc)) S S');
      [reflexivity|].
    eapply Forall2_impl; [|exact H].
    intros x y Hxy. apply Hxy. now apply in_map.
  - intros k0 c0 rest S1 d S2 -> HS1 Hd.
    rewrite Space_to_jsonable_Dict, mapM_cons. cbn [py_iter bind fst snd].
    rewrite (@mapM_app_raise _ _ (fun sample => py_getitem sample k0)
               S1 S2 (PyDict d) (KeyError k0) HS1); [reflexivity|].
    simpl. unfold dict_getitem. now rewrite Hd.
Qed.

(** X17.  [Dict.from_jsonable] reads its argument at the keys of the
    space only.  Two dictionaries that agree at every key of the space
    are decoded alike, whatever other keys they hold.  A key of the
    space that the argument lacks makes the call raise a [KeyError]
    for that key, once the children stored before it are decoded. *)
Theorem Dict_from_jsonable_reads_space_keys (spaces : pydict Space)
        (g : Generator) :
  (forall j j',
     (forall k, In k (dict_keys spaces) -> dict_get k j = dict_get k j') ->
     Space_from_jsonable (Dict spaces g) (PyDict j)
     = Space_from_jsonable (Dict spaces g) (PyDict j'))
  /\ (forall pre k c post j,
        spaces = pre ++ (k, c) :: post ->
        Forall (fun kc => exists j0 v,
                  dict_get (fst kc) j = Some j0
                  /\ Space_from_jsonable (snd kc) j0 = Ok v) pre ->
        dict_get k j = None ->
        Space_from_jsonable (Dict spaces g) (PyDict j) = Raise (KeyError k)).
Proof.
  split.
  - intros j j' H. rewrite !Space_from_jsonable_Dict.
    rewrite (@mapM_ext_in _ _ _
      (fun kc =>
         j0 <- py_getitem (PyDict j') (fst kc) ;;
         v <- Space_from_jsonable (snd kc) j0 ;;
         Ok (fst kc, v)) spaces); [reflexivity|].
    intros kc Hin. cbn [py_getitem]. unfold dict_getitem.
    rewrite (H (fst kc)); [reflexivity|]. now apply in_map.
  - intros pre k c post j -> Hpre Hk.
    rewrite Space_from_jsonable_Dict.
    rewrite (@mapM_app_raise _ _ _ pre post (k, c) (KeyError k));
      [reflexivity| |].
    + eapply Forall_impl; [|exact Hpre].
      intros kc (j0 & v & Hj & Hv). cbn [py_getitem]. unfold dict_getitem.
      rewrite Hj. cbn [bind]. rewrite Hv. eexists. reflexivity.
    + cbn [py_getitem fst]. unfold dict_getitem. now rewrite Hk.
Qed.

End DictJson.

Lemma Dict_from_jsonable_short_child_witness :
  Space_from_jsonable
    (@Dict counterRS [(KStr "a", ex_A); (KStr "b", ex_A)] 0)
    (PyDict [(KStr "a", PyList [PyList [PyInt 0]; PyList [PyInt 1]]);
             (KStr "b", PyList [PyList [PyInt 1]])])
  = Raise IndexError.
Proof.
  apply (@Dict_from_jsonable_short_child counterRS 0 (KStr "a") ex_A
           [(KStr "b", ex_A)]
           (PyDict [(KStr "a", PyList [PyList [PyInt 0]; PyList [PyInt 1]]);
                    (KStr "b", PyList [PyList [PyInt 1]])])
           [PyNdarray (mk_ndarray int8 [1] [SInt 0]);
            PyNdarray (mk_ndarray int8 [1] [SInt 1])]
           [(KStr "b", [PyNdarray (mk_ndarray int8 [1] [SInt 1])])]).
  - apply Forall2_cons.
    + split; [reflexivity|]. eexists. split; reflexivity.
    + apply Forall2_cons; [|apply Forall2_nil].
      split; [reflexivity|]. eexists. split; reflexivity.
  - apply Exists_cons_hd. simpl. lia.
Defined.

Lemma Dict_to_jsonable_reads_space_keys_witness :
  Space_to_jsonable (@Dict counterRS [(KStr "a", ex_A)] 0)
    (PyList [PyDict [(KStr "a", PyNdarray (mk_ndarray int8 [1] [SInt 1]));
                     (KStr "z", PyInt 7)]])
  = Space_to_jsonable (@Dict counterRS [(KStr "a", ex_A)] 0)
      (PyList [PyDict [(KStr "a", PyNdarray (mk_ndarray int8 [1] [SInt 1]))]])
  /\ Space_to_jsonable (@Dict counterRS [(KStr "a", ex_A)] 0)
       (PyList ([PyDict [(KStr "a", PyNdarray (mk_ndarray int8 [1] [SInt 1]))]]
                ++ PyDict [(KStr "z", PyInt 7)] :: []))
     = Raise (KeyError (KStr "a")).
Proof.
  destruct (@Dict_to_jsonable_reads_space_keys counterRS [(KStr "a", ex_A)] 0)
    as [H1 H2].
  split.
  - apply H1. apply Forall2_cons; [|apply Forall2_nil].
    intros k [<- | []]. reflexivity.
  - apply (H2 (KStr "a") ex_A []).
    + reflexivity.
    + apply Forall_cons; [eexists; reflexivity|apply Forall_nil].
    + reflexivity.
Defined.

Lemma Dict_from_jsonable_reads_space_keys_witness :
  Space_from_jsonable (@Dict counterRS [(KStr "a", ex_A)] 0)
    (PyDict [(KStr "z", PyInt 7); (KStr "a", PyList [PyList [PyInt 1]])])
  = Space_from_jsonable (@Dict counterRS [(KStr "a", ex_A)] 0)
      (PyDict [(KStr "a", PyList [PyList [PyInt 1]])])
  /\ Space_from_jsonable (@Dict counterRS [(KStr "a", ex_A); (KStr "b", ex_A)] 0)
       (PyDict [(KStr "a", PyList [PyList [PyInt 1]])])
     = Raise (KeyError (KStr "b")).
Proof.
  split.
  - apply (proj1 (@Dict_from_jsonable_reads_space_keys counterRS
                    [(KStr "a", ex_A)] 0)).
    intros k [<- | []]. reflexivity.
  - apply (proj2 (@Dict_from_jsonable_reads_space_keys counterRS
                    [(KStr "a", ex_A); (KStr "b", ex_A)] 0)
                 [(KStr "a", ex_A)] (KStr "b") ex_A []).
    + reflexivity.
    + apply Forall_cons; [|apply Forall_nil].
      eexists. eexists. split; reflexivity.
    + reflexivity.
Defined.

(* ================================================================== *)
(** ** Further properties: [MultiBinary] and the JSON form *)

Lemma np_asarray_int8_tolist_any (shape : list Z) (a : ndarray) :
  Forall (fun i => 0 < i) shape ->
  int8_array shape a ->
  np_asarray_int8 (tolist a) = Ok a.
Proof.
  intros Hpos (Hdt & Hsh & Hlen & Hvals). unfold np_asarray_int8, tolist.
  rewrite Hsh. rewrite np_array_tolist; try assumption.
  - cbn [bind nd_data nd_shape].
    assert (E : forallb fits_int8 (nd_data a) = true).
    { apply forallb_forall. intros s Hs. rewrite Forall_forall in Hvals.
      destruct (Hvals s Hs) as (z & -> & Hz). simpl.
      apply andb_true_iff. split; apply Z.leb_le; lia. }
    rewrite E. destruct a; simpl in *. now subst.
  - eapply Forall_impl; [|exact Hvals]. intros s (z & -> & _). now exists z.
Qed.

Lemma binary_array_int8 (shape : list Z) (a : ndarray) :
  binary_array shape a -> int8_array shape a.
Proof.
  intros (Hdt & Hsh & Hlen & Hbin). repeat split; try assumption.
  eapply Forall_impl; [|exact Hbin].
  intros s [-> | ->]; eexists; (split; [reflexivity|lia]).
Qed.

(** The JSON form of a batch of arrays of one shape: the nested lists
    of each array. *)
Lemma MultiBinary_to_jsonable_tolist (shape : list Z) (arrays : list ndarray) :
  Forall (int8_array shape) arrays ->
  MultiBinary_to_jsonable (PyList (map PyNdarray arrays))
  = Ok (PyList (map tolist arrays)).
Proof.
  intros Hall. unfold MultiBinary_to_jsonable. rewrite np_array_PyList.
  rewrite (mapM_map_Ok np_array PyNdarray (fun a => a))
    by (intros; reflexivity).
  rewrite map_id. cbn [bind].
  destruct arrays as [|a rest]; [reflexivity|].
  rewrite (np_stack_same (dt := int8) (shape := shape)).
  - cbn [bind]. unfold tolist at 1. cbn [nd_shape nd_data tolist_aux].
    rewrite Nat2Z.id.
    rewrite <- (length_map nd_data (a :: rest)).
    rewrite chunks_concat.
    + rewrite map_map. do 2 f_equal. apply map_ext_in. intros b Hb.
      rewrite Forall_forall in Hall. destruct (Hall b Hb) as (_ & Hsh & _).
      unfold tolist. now rewrite Hsh.
    + apply Forall_map. eapply Forall_impl; [|exact Hall].
      now intros b (_ & _ & Hlen & _).
  - discriminate.
  - eapply Forall_impl; [|exact Hall]. now intros b (Hdt & Hsh & _).
Qed.

Lemma MultiBinary_from_jsonable_tolist (shape : list Z) (arrays : list ndarray) :
  Forall (fun i => 0 < i) shape ->
  Forall (int8_array shape) arrays ->
  MultiBinary_from_jsonable (PyList (map tolist arrays))
  = Ok (map PyNdarray arrays).
Proof.
  intros Hpos Hall. unfold MultiBinary_from_jsonable. cbn [py_iter bind].
  rewrite (mapM_map_Ok np_asarray_int8 tolist (fun a => a)).
  - cbn [bind]. now rewrite map_id.
  - intros a Ha. rewrite Forall_forall in Hall.
    apply np_asarray_int8_tolist_any with (shape := shape);
      [assumption|now apply Hall].
Qed.

Lemma tolist_is_Sequence (shape : list Z) (d : list scalar) :
  shape <> [] -> is_Sequence (tolist_aux shape d) = true.
Proof. destruct shape; [congruence|reflexivity]. Qed.

Lemma Qtrunc_ge_1 (q : Q) : (1 <= q)%Q -> Qtrunc q = Qfloor q /\ 0 < Qfloor q.
Proof.
  intros H. unfold Qtrunc.
  assert (H0 : Qle_bool 0 q = true).
  { apply Qle_bool_iff. eapply Qle_trans; [|exact H]. discriminate. }
  rewrite H0. split; [reflexivity|].
  pose proof (Qfloor_resp_le _ _ H) as Hf.
  change 1%Q with (inject_Z 1) in Hf. rewrite Qfloor_Z in Hf. lia.
Qed.

Lemma Qtrunc_lt_1 (q : Q) : (q < 1)%Q -> Qtrunc q <= 0.
Proof.
  intros H. unfold Qtrunc. destruct (Qle_bool 0 q) eqn:E.
  - pose proof (Qfloor_le q) as Hf.
    assert (Hlt : (inject_Z (Qfloor q) < inject_Z 1)%Q)
      by (eapply Qle_lt_trans; [exact Hf|exact H]).
    rewrite <- Zlt_Qlt in Hlt. lia.
  - assert (Hneg : (q < 0)%Q).
    { apply Qnot_le_lt. intros Hle. apply Qle_bool_iff in Hle. congruence. }
    pose proof (Qceiling_lt q) as Hc.
    assert (Hlt : (inject_Z (Qceiling q - 1) < inject_Z 0)%Q)
      by (eapply Qlt_trans; [exact Hc|exact Hneg]).
    rewrite <- Zlt_Qlt in Hlt. lia.
Qed.

Lemma mapM_py_int_floats (qs : list Q) :
  mapM py_int (map PyFloat qs) = Ok (map Qtrunc qs).
Proof.
  induction qs as [|q qs IH]; [reflexivity|].
  cbn [map]. rewrite mapM_cons. cbn [py_int bind]. now rewrite IH.
Qed.

Section MultiBinaryJson.
Context {RS : RandomSource}.

(** X18.  The JSON form of a batch of samples of a [MultiBinary].
    [to_jsonable] returns the list of the nested lists of the samples
    ([tolist()] of each), and [from_jsonable] on that list returns the
    very batch; an empty batch included. *)
Theorem MultiBinary_jsonable_round_trip (n : MBn) (shape : list Z)
        (g : Generator) (arrays : list ndarray) :
  wf_Space (MultiBinary n shape g) ->
  Forall (binary_array shape) arrays ->
  Space_to_jsonable (MultiBinary n shape g) (PyList (map PyNdarray arrays))
  = Ok (PyList (map tolist arrays))
  /\ Space_from_jsonable (MultiBinary n shape g) (PyList (map tolist arrays))
     = Ok (map PyNdarray arrays).
Proof.
  intros [_ Hpos] Hall.
  assert (Hall' : Forall (int8_array shape) arrays).
  { eapply Forall_impl; [|exact Hall]. intros a. apply binary_array_int8. }
  cbn [Space_to_jsonable Space_from_jsonable]. split.
  - now apply MultiBinary_to_jsonable_tolist with (shape := shape).
  - now apply MultiBinary_from_jsonable_tolist with (shape := shape).
Qed.

(** X19.  [MultiBinary.from_jsonable] checks nothing against the space.
    It decodes the nested lists of [int8] arrays of any one shape and
    any values of the [int8] range, whatever the shape of the space;
    when the shape differs from the shape of the space, none of the
    arrays it returns is contained in the space. *)
Theorem MultiBinary_from_jsonable_unchecked (n : MBn) (shape : list Z)
        (g : Generator) (shape' : list Z) (arrays : list ndarray) :
  Forall (fun i => 0 < i) shape' ->
  Forall (int8_array shape') arrays ->
  Space_from_jsonable (MultiBinary n shape g) (PyList (map tolist arrays))
  = Ok (map PyNdarray arrays)
  /\ (shape' <> shape ->
      Forall (fun x => Space_contains (MultiBinary n shape g) x = Ok false)
             (map PyNdarray arrays)).
Proof.
  intros Hpos Hall. split.
  - cbn [Space_from_jsonable].
    now apply MultiBinary_from_jsonable_tolist with (shape := shape').
  - intros Hne. apply Forall_map. eapply Forall_impl; [|exact Hall].
    intros a (_ & Hsh & _). cbn [Space_contains]. unfold MultiBinary_contains.
    cbn [is_Sequence bind]. rewrite Hsh.
    destruct (tuple_eqb shape shape') eqn:E; [|reflexivity].
    apply tuple_eqb_eq in E. congruence.
Qed.

(** X20.  Membership of the list form.  For a space whose shape has at
    least one axis, [contains] accepts the nested lists ([tolist()])
    of every sample; for the shape [()] the list form of a sample is a
    Python integer, which [contains] rejects. *)
Theorem MultiBinary_contains_tolist (shape : list Z) (a : ndarray) :
  Forall (fun i => 0 < i) shape ->
  binary_array shape a ->
  (shape <> [] -> MultiBinary_contains shape (tolist a) = Ok true)
  /\ (shape = [] -> MultiBinary_contains shape (tolist a) = Ok false).
Proof.
  intros Hpos (Hdt & Hsh & Hlen & Hbin). unfold tolist. rewrite Hsh. split.
  - intros Hne. unfold MultiBinary_contains.
    rewrite (tolist_is_Sequence _ Hne).
    rewrite np_array_tolist; try assumption.
    + cbn [bind nd_shape nd_data]. rewrite tuple_eqb_refl. cbn [andb].
      f_equal. apply forallb_forall. intros s Hs. rewrite Forall_forall in Hbin.
      destruct (Hbin s Hs) as [-> | ->]; reflexivity.
    + eapply Forall_impl; [|exact Hbin]. intros s [-> | ->]; eexists; reflexivity.
  - intros ->. simpl in Hlen.
    destruct (nd_data a) as [|s [|s' d]]; try discriminate.
    inversion Hbin as [|? ? [-> | ->] _]; reflexivity.
Qed.

(** X21.  [MultiBinary(z)] and [MultiBinary([z])].  For a positive
    integer [z] both are constructed, with the same shape [(z,)] and
    the same members, but [==] tells them apart: one stores the
    integer as [n], the other the tuple. *)
Theorem MultiBinary_eq_int_tuple (z : Z) (g g' : Generator) :
  0 < z ->
  exists A B,
    MultiBinary_init (PyInt z) g = Ok A
    /\ MultiBinary_init (PyList [PyInt z]) g' = Ok B
    /\ Space_shape A = Some [z]
    /\ Space_shape B = Some [z]
    /\ (forall x, Space_contains A x = Space_contains B x)
    /\ Space_eqb A B = false
    /\ Space_eqb B A = false.
Proof.
  intros Hz.
  assert (Hpos : forallb (fun i => 0 <? i) [z] = true).
  { simpl. rewrite andb_true_r. now apply Z.ltb_lt. }
  exists (MultiBinary (n_int z) [z] g), (MultiBinary (n_tuple [z]) [z] g').
  split; [|split].
  - unfold MultiBinary_init. cbv zeta. now rewrite Hpos.
  - unfold MultiBinary_init. cbn [mapM py_int bind]. now rewrite Hpos.
  - repeat split; reflexivity.
Qed.

(** X22.  A sequence of finite floats as [n].  The entries are
    truncated by [int()]: finite floats that are all at least 1 give
    the tuple of their integer parts as [n] and as shape; one finite
    float below 1 truncates to an integer that is not positive and
    fails the assertion.  (A rational stands for each finite float; an
    infinity or a NaN is no value of the embedding: [int()] raises on
    it before the assertion is reached.) *)
Theorem MultiBinary_init_floats (qs : list Q) (g : Generator) :
  (Forall (fun q => (1 <= q)%Q) qs ->
   MultiBinary_init (PyList (map PyFloat qs)) g
   = Ok (MultiBinary (n_tuple (map Qfloor qs)) (map Qfloor qs) g))
  /\ (Exists (fun q => (q < 1)%Q) qs ->
      exists m, MultiBinary_init (PyList (map PyFloat qs)) g
                = Raise (AssertionError m)).
Proof.
  unfold MultiBinary_init. rewrite mapM_py_int_floats. cbn [bind]. split.
  - intros H.
    assert (E : map Qtrunc qs = map Qfloor qs).
    { apply map_ext_in. intros q Hq. rewrite Forall_forall in H.
      apply Qtrunc_ge_1. now apply H. }
    rewrite E. rewrite forallb_pos_true; [reflexivity|].
    apply Forall_map. eapply Forall_impl; [|exact H].
    intros q Hq. now apply Qtrunc_ge_1.
  - intros H. rewrite forallb_pos_false; [eauto|].
    apply Exists_exists in H. destruct H as (q & Hin & Hq).
    apply Exists_exists. exists (Qtrunc q). split; [now apply in_map|].
    now apply Qtrunc_lt_1.
Qed.

End MultiBinaryJson.

Lemma MultiBinary_jsonable_round_trip_witness :
  Space_to_jsonable ex_B
    (PyList (map PyNdarray [mk_ndarray int8 [2] [SInt 0; SInt 1];
                            mk_ndarray int8 [2] [SInt 1; SInt 1]]))
  = Ok (PyList (map tolist [mk_ndarray int8 [2] [SInt 0; SInt 1];
                            mk_ndarray int8 [2] [SInt 1; SInt 1]]))
  /\ Space_from_jsonable ex_B
       (PyList (map tolist [mk_ndarray int8 [2] [SInt 0; SInt 1];
                            mk_ndarray int8 [2] [SInt 1; SInt 1]]))
     = Ok (map PyNdarray [mk_ndarray int8 [2] [SInt 0; SInt 1];
                          mk_ndarray int8 [2] [SInt 1; SInt 1]]).
Proof.
  apply (@MultiBinary_jsonable_round_trip counterRS (n_int 2) [2] 0).
  - split; [reflexivity|]. apply Forall_cons; [lia|apply Forall_nil].
  - apply Forall_cons.
    + repeat split.
      apply Forall_cons; [now left|]. apply Forall_cons; [now right|apply Forall_nil].
    + apply Forall_cons; [|apply Forall_nil]. repeat split.
      apply Forall_cons; [now right|]. apply Forall_cons; [now right|apply Forall_nil].
Defined.

Lemma MultiBinary_from_jsonable_unchecked_witness :
  Space_from_jsonable ex_B
    (PyList (map tolist [mk_ndarray int8 [3] [SInt 5; SInt (-7); SInt 1]]))
  = Ok (map PyNdarray [mk_ndarray int8 [3] [SInt 5; SInt (-7); SInt 1]])
  /\ ([3] <> [2] ->
      Forall (fun x => Space_contains ex_B x = Ok false)
             (map PyNdarray [mk_ndarray int8 [3] [SInt 5; SInt (-7); SInt 1]])).
Proof.
  apply (@MultiBinary_from_jsonable_unchecked counterRS (n_int 2) [2] 0 [3]).
  - apply Forall_cons; [lia|apply Forall_nil].
  - apply Forall_cons; [|apply Forall_nil]. repeat split.
    apply Forall_cons; [eexists; split; [reflexivity|lia]|].
    apply Forall_cons; [eexists; split; [reflexivity|lia]|].
    apply Forall_cons; [eexists; split; [reflexivity|lia]|apply Forall_nil].
Defined.

Lemma MultiBinary_contains_tolist_witness :
  MultiBinary_contains [2; 2]
    (tolist (mk_ndarray int8 [2; 2] [SInt 0; SInt 1; SInt 1; SInt 0]))
  = Ok true.
Proof.
  apply (proj1 (@MultiBinary_contains_tolist [2; 2]
                  (mk_ndarray int8 [2; 2] [SInt 0; SInt 1; SInt 1; SInt 0])
                  ltac:(apply Forall_cons; [lia|];
                        apply Forall_cons; [lia|apply Forall_nil])
                  ltac:(repeat split;
                        apply Forall_cons; [now left|];
                        apply Forall_cons; [now right|];
                        apply Forall_cons; [now right|];
                        apply Forall_cons; [now left|apply Forall_nil]))).
  discriminate.
Defined.

Lemma MultiBinary_eq_int_tuple_witness :
  exists A B,
    @MultiBinary_init counterRS (PyInt 3) 0 = Ok A
    /\ @MultiBinary_init counterRS (PyList [PyInt 3]) 0 = Ok B
    /\ Space_shape A = Some [3]
    /\ Space_shape B = Some [3]
    /\ (forall x, Space_contains A x = Space_contains B x)
    /\ Space_eqb A B = false
    /\ Space_eqb B A = false.
Proof.
  apply (@MultiBinary_eq_int_tuple counterRS 3 0 0). lia.
Defined.

Lemma MultiBinary_init_floats_witness :
  @MultiBinary_init counterRS (PyList (map PyFloat [5 # 2; 1%Q])) 0
  = Ok (@MultiBinary counterRS (n_tuple (map Qfloor [5 # 2; 1%Q]))
                     (map Qfloor [5 # 2; 1%Q]) 0)
  /\ exists m, @MultiBinary_init counterRS (PyList (map PyFloat [5 # 2; 1 # 2])) 0
               = Raise (AssertionError m).
Proof.
  split.
  - apply (proj1 (@MultiBinary_init_floats counterRS [5 # 2; 1%Q] 0)).
    apply Forall_cons; [discriminate|].
    apply Forall_cons; [discriminate|apply Forall_nil].
  - apply (proj2 (@MultiBinary_init_floats counterRS [5 # 2; 1 # 2] 0)).
    apply Exists_cons_tl. apply Exists_cons_hd. reflexivity.
Defined.

(* ================================================================== *)
(** ** Further properties: a [Dict] as a mapping *)

Section DictMapping.
Context {RS : RandomSource}.

(** X23.  [Dict] as a mapping.  After [d[key] = value], [d[key]] is
    [value] and every other key holds what it held; a key that was
    present keeps its place among the keys and the length is
    unchanged, a new key comes last and the length grows by one;
    distinct keys stay distinct.  [d[key]] for a key that [d] does not
    hold raises a [KeyError] for it, and [len(d)] is the number of keys
    that iteration yields. *)
Theorem Dict_setitem_getitem (spaces : pydict Space) (g : Generator)
        (key : Key) (value : Space) :
  exists spaces',
    Dict_setitem spaces g key value = Dict spaces' g
    /\ Dict_getitem spaces' key = Ok value
    /\ (forall k, k <> key -> Dict_getitem spaces' k = Dict_getitem spaces k)
    /\ (In key (Dict_iter spaces) ->
        Dict_iter spaces' = Dict_iter spaces /\ Dict_len spaces' = Dict_len spaces)
    /\ (~ In key (Dict_iter spaces) ->
        Dict_iter spaces' = Dict_iter spaces ++ [key]
        /\ Dict_len spaces' = S (Dict_len spaces))
    /\ (NoDup (Dict_iter spaces) -> NoDup (Dict_iter spaces'))
    /\ (forall k, ~ In k (Dict_iter spaces') ->
                  Dict_getitem spaces' k = Raise (KeyError k))
    /\ Dict_len spaces' = List.length (Dict_iter spaces').
Proof.
  exists (dict_set key value spaces). unfold Dict_getitem, Dict_iter, Dict_len.
  split; [reflexivity|]. split; [|split; [|split; [|split; [|split; [|split]]]]].
  - unfold dict_getitem. now rewrite dict_get_set, key_eqb_refl.
  - intros k Hk. unfold dict_getitem. rewrite dict_get_set.
    apply key_eqb_neq in Hk. now rewrite Hk.
  - intros Hin. pose proof (dict_set_keys key value spaces Hin) as Hk.
    split; [exact Hk|].
    rewrite <- (dict_keys_length (dict_set key value spaces)), Hk.
    apply dict_keys_length.
  - intros Hnot. rewrite (dict_set_fresh _ _ _ Hnot). split.
    + apply dict_keys_app.
    + rewrite length_app. simpl. lia.
  - apply dict_set_NoDup.
  - intros k Hk. unfold dict_getitem.
    destruct (dict_get k (dict_set key value spaces)) as [v|] eqn:E;
      [|reflexivity].
    exfalso. apply Hk. apply dict_get_some_in. eauto.
  - symmetry. apply dict_keys_length.
Qed.

(** X24.  In a universe of [MultiBinary] and [Dict] spaces every space is
    flattenable: [is_np_flattenable] is [True] for a [MultiBinary], and
    a [Dict] asks all its children. *)
Theorem Space_is_np_flattenable_true (D : Space) :
  Space_is_np_flattenable D = true.
Proof.
  induction D as [n shape g | spaces g IH] using Space_induction;
    [reflexivity|].
  cbn [Space_is_np_flattenable]. apply forallb_forall.
  intros kc Hin. rewrite Forall_forall in IH. now apply IH.
Qed.

End DictMapping.

Lemma Dict_setitem_getitem_witness :
  exists spaces',
    Dict_setitem [(KStr "a", ex_A); (KStr "b", ex_A)] 0 (KStr "a") ex_B
    = @Dict counterRS spaces' 0
    /\ Dict_getitem spaces' (KStr "a") = Ok ex_B
    /\ Dict_getitem spaces' (KStr "b") = Ok ex_A
    /\ Dict_iter spaces' = [KStr "a"; KStr "b"]
    /\ Dict_len spaces' = 2%nat
    /\ Dict_getitem spaces' (KStr "c") = Raise (KeyError (KStr "c")).
Proof.
  destruct (@Dict_setitem_getitem counterRS
              [(KStr "a", ex_A); (KStr "b", ex_A)] 0 (KStr "a") ex_B)
    as (spaces' & H1 & H2 & H3 & H4 & _ & _ & H7 & _).
  destruct (H4 (or_introl eq_refl)) as [Hiter Hlen].
  exists spaces'. split; [exact H1|]. split; [exact H2|].
  split; [rewrite (H3 (KStr "b")); [reflexivity|discriminate]|].
  split; [exact Hiter|]. split; [exact Hlen|].
  apply H7. rewrite Hiter. intros [E | [E | []]]; discriminate E.
Defined.

(* ================================================================== *)
(** ** Further properties: [==] on spaces *)

Lemma MBn_eqb_eq (n m : MBn) : MBn_eqb n m = true <-> n = m.
Proof.
  destruct n as [x|x], m as [y|y]; simpl; split; intros H; try discriminate.
  - apply Z.eqb_eq in H. now subst.
  - injection H as ->. apply Z.eqb_refl.
  - apply tuple_eqb_eq in H. now subst.
  - injection H as ->. apply tuple_eqb_refl.
Qed.

Section SpaceEqualityLaws.
Context {RS : RandomSource}.

(** What [==] on two dictionaries of spaces says, entry by entry. *)
Lemma dict_eqb_true (sa sb : pydict Space) :
  dict_eqb Space_eqb sa sb = true
  <-> List.length sa = List.length sb
      /\ forall k av, In (k, av) sa ->
           exists bv, dict_get k sb = Some bv /\ Space_eqb av bv = true.
Proof.
  unfold dict_eqb. rewrite andb_true_iff, Nat.eqb_eq, forallb_forall.
  apply and_iff_compat_l. split.
  - intros H k av Hin. specialize (H (k, av) Hin). cbn [fst snd] in H.
    destruct (dict_get k sb) as [bv|]; [eauto|discriminate].
  - intros H [k av] Hin. cbn [fst snd].
    destruct (H k av Hin) as (bv & -> & Hbv). exact Hbv.
Qed.

Lemma Space_eqb_Dict (sa sb : pydict Space) (ga gb : Generator) :
  Space_eqb (Dict sa ga) (Dict sb gb) = dict_eqb Space_eqb sa sb.
Proof. reflexivity. Qed.

Lemma Space_eqb_sym_true (a : Space) :
  wf_Space a ->
  forall b, wf_Space b -> Space_eqb a b = true -> Space_eqb b a = true.
Proof.
  induction a as [n shape g | sa ga IH] using Space_induction;
    intros Hwa b Hwb H.
  - destruct b as [m shape' g' | sb gb]; [|discriminate].
    simpl in *. apply MBn_eqb_eq in H. subst. apply MBn_eqb_refl.
  - destruct b as [m shape' g' | sb gb]; [discriminate|].
    rewrite Space_eqb_Dict in *.
    apply wf_Dict in Hwa, Hwb.
    destruct Hwa as [Hnda Hwa], Hwb as [Hndb Hwb].
    apply dict_eqb_true in H. destruct H as [Hlen H].
    apply dict_eqb_true. split; [now symmetry|].
    assert (Hincl : incl (dict_keys sa) (dict_keys sb)).
    { intros k Hk. apply in_map_iff in Hk. destruct Hk as ([k' av] & <- & Hin).
      destruct (H k' av Hin) as (bv & Hbv & _).
      apply dict_get_some_in. eauto. }
    assert (Hincl' : incl (dict_keys sb) (dict_keys sa)).
    { apply NoDup_length_incl; [assumption| |assumption].
      rewrite !dict_keys_length. lia. }
    intros k bv Hin.
    assert (Hk : In k (dict_keys sa)).
    { apply Hincl'. apply in_map_iff. exists (k, bv). auto. }
    apply dict_get_some_in in Hk. destruct Hk as [av Hav].
    exists av. split; [exact Hav|].
    pose proof (dict_get_In _ _ Hav) as Hina.
    destruct (H k av Hina) as (bv' & Hbv' & Heq).
    rewrite (dict_get_in_nodup k bv sb Hndb Hin) in Hbv'.
    injection Hbv' as <-.
    rewrite Forall_forall in IH, Hwa, Hwb.
    apply (IH (k, av) Hina (Hwa (k, av) Hina) bv (Hwb (k, bv) Hin) Heq).
Qed.

Lemma Space_eqb_trans_true (a : Space) :
  forall b c, Space_eqb a b = true -> Space_eqb b c = true ->
              Space_eqb a c = true.
Proof.
  induction a as [n shape g | sa ga IH] using Space_induction;
    intros b c Hab Hbc.
  - destruct b as [m s1 g1 | sb gb]; [|discriminate].
    destruct c as [p s2 g2 | sc gc]; [|discriminate].
    simpl in *. apply MBn_eqb_eq in Hab, Hbc. subst. apply MBn_eqb_refl.
  - destruct b as [m s1 g1 | sb gb]; [discriminate|].
    destruct c as [p s2 g2 | sc gc]; [discriminate|].
    rewrite Space_eqb_Dict in *.
    apply dict_eqb_true in Hab, Hbc.
    destruct Hab as [Hlab Hab], Hbc as [Hlbc Hbc].
    apply dict_eqb_true. split; [congruence|].
    intros k av Hin.
    destruct (Hab k av Hin) as (bv & Hbv & Heq1).
    destruct (Hbc k bv (dict_get_In _ _ Hbv)) as (cv & Hcv & Heq2).
    exists cv. split; [exact Hcv|].
    rewrite Forall_forall in IH. apply (IH (k, av) Hin bv cv Heq1 Heq2).
Qed.

(** X25.  [==] is an equivalence on well-formed spaces.  A space equals
    itself; [a == b] and [b == a] give the same answer; [a == b] and
    [b == c] give [a == c].  A [MultiBinary] never equals a [Dict]. *)
Theorem Space_eqb_equivalence (a b c : Space) :
  wf_Space a -> wf_Space b ->
  Space_eqb a a = true
  /\ Space_eqb a b = Space_eqb b a
  /\ (Space_eqb a b = true -> Space_eqb b c = true -> Space_eqb a c = true)
  /\ (forall n shape g spaces g',
        Space_eqb (MultiBinary n shape g) (Dict spaces g') = false
        /\ Space_eqb (Dict spaces g') (MultiBinary n shape g) = false).
Proof.
  intros Hwa Hwb. split; [now apply Space_eqb_refl|]. split; [|split].
  - destruct (Space_eqb a b) eqn:Eab, (Space_eqb b a) eqn:Eba;
      try reflexivity.
    + rewrite (Space_eqb_sym_true a Hwa b Hwb Eab) in Eba. discriminate.
    + rewrite (Space_eqb_sym_true b Hwb a Hwa Eba) in Eab. discriminate.
  - apply Space_eqb_trans_true.
  - intros. split; reflexivity.
Qed.

End SpaceEqualityLaws.

Lemma Space_eqb_equivalence_witness :
  Space_eqb ex_D ex_D = true
  /\ Space_eqb ex_D ex_A = Space_eqb ex_A ex_D
  /\ (Space_eqb ex_D ex_A = true -> Space_eqb ex_A ex_B = true ->
      Space_eqb ex_D ex_B = true)
  /\ (forall n shape g spaces g',
        Space_eqb (@MultiBinary counterRS n shape g) (Dict spaces g') = false
        /\ Space_eqb (Dict spaces g') (@MultiBinary counterRS n shape g) = false).
Proof.
  apply (@Space_eqb_equivalence counterRS ex_D ex_A ex_B).
  - exact ex_D_wf.
  - split; [reflexivity|]. apply Forall_cons; [lia|apply Forall_nil].
Defined.

(* ================================================================== *)
(** ** Further properties: a mapping with keywords, a mask of [None] *)

Section MoreDict.
Context {RS : RandomSource}.

(** X26.  A plain mapping with keywords.  When the keys of the mapping
    are distinct and mutually comparable and the keywords are new to
    it, the [Dict] stores the items of the mapping in sorted key order
    and the keywords after them, in the order in which they are given:
    the keywords are not sorted in. *)
Theorem Dict_init_mapping_keywords (items : list (Key * Space))
        (kwargs : list (string * Space)) (g : Generator) :
  NoDup (dict_keys items) ->
  mutually_comparable (dict_keys items) ->
  NoDup (map fst kwargs) ->
  (forall name, In name (map fst kwargs) -> ~ In (KStr name) (dict_keys items)) ->
  exists sorted,
    Dict_init (SpMapping items) kwargs g
    = Ok (Dict (sorted ++ kwargs_items kwargs) g)
    /\ Permutation items sorted
    /\ StronglySorted key_less (dict_keys sorted).
Proof.
  intros Hnd Hcmp Hkw Hfresh.
  destruct (py_sorted_total _ Hnd Hcmp) as [s Hs].
  destruct (py_sorted_Ok _ Hnd Hs) as (Hperm & _ & Hsorted).
  exists s. split; [|split]; try assumption.
  assert (Hnds : NoDup (dict_keys s)).
  { apply (Permutation_NoDup (Permutation_map fst Hperm)). exact Hnd. }
  unfold Dict_init. rewrite Hs. cbn [bind].
  rewrite (dict_of_items_nodup _ Hnds).
  rewrite <- (app_nil_r kwargs) at 1.
  rewrite (add_kwargs_app kwargs [] s Hkw); [reflexivity|].
  intros name Hin Hk. apply (Hfresh name Hin).
  apply (Permutation_in _ (Permutation_sym (Permutation_map fst Hperm)) Hk).
Qed.

Lemma sample_children_ext_in (arg arg' : Key -> Result (PyObj * PyObj))
      (l : list (Key * Space)) :
  (forall kc, In kc l -> arg (fst kc) = arg' (fst kc)) ->
  sample_children arg l = sample_children arg' l.
Proof.
  induction l as [|kc l IH]; intros H; [reflexivity|].
  rewrite !sample_children_cons, (H kc (or_introl eq_refl)).
  rewrite IH; [reflexivity|]. intros kc' Hin. apply H. now right.
Qed.

(** X27.  A mask of [None]s is no mask.  A [mask], or a [probability],
    that maps every key of the [Dict] to [None] makes [sample] do what
    it does without arguments. *)
Theorem Dict_sample_None_entries (spaces : pydict Space) (g : Generator)
        (d : pydict PyObj) :
  NoDup (dict_keys spaces) ->
  NoDup (dict_keys d) ->
  (forall k, In k (dict_keys d) <-> In k (dict_keys spaces)) ->
  Forall (fun kv => snd kv = PyNone) d ->
  Space_sample (Dict spaces g) (PyDict d) PyNone
  = Space_sample (Dict spaces g) PyNone PyNone
  /\ Space_sample (Dict spaces g) PyNone (PyDict d)
     = Space_sample (Dict spaces g) PyNone PyNone.
Proof.
  intros Hnd Hd Hkeys Hnone.
  assert (Heq : keys_eqb d spaces = true) by now apply keys_eqb_iff.
  assert (Hget : forall kc, In kc spaces -> dict_getitem (fst kc) d = Ok PyNone).
  { intros kc Hin.
    assert (Hk : In (fst kc) (dict_keys d)) by (apply Hkeys; now apply in_map).
    apply dict_get_some_in in Hk. destruct Hk as [v Hv].
    unfold dict_getitem. rewrite Hv.
    rewrite Forall_forall in Hnone.
    pose proof (Hnone (fst kc, v) (dict_get_In _ _ Hv)) as E.
    cbn [snd] in E. now rewrite E. }
  rewrite !Space_sample_Dict. cbn [is_None negb andb]. rewrite Heq. cbn [negb].
  split.
  - rewrite (@sample_children_ext_in
               (fun k => x <- dict_getitem k d ;; Ok (x, PyNone))
               (fun _ => Ok (PyNone, PyNone)) spaces); [reflexivity|].
    intros kc Hin. now rewrite (Hget kc Hin).
  - rewrite (@sample_children_ext_in
               (fun k => x <- dict_getitem k d ;; Ok (PyNone, x))
               (fun _ => Ok (PyNone, PyNone)) spaces); [reflexivity|].
    intros kc Hin. now rewrite (Hget kc Hin).
Qed.

End MoreDict.

Lemma Dict_init_mapping_keywords_witness :
  exists sorted,
    @Dict_init counterRS (SpMapping [(KStr "c", ex_B); (KStr "b", ex_A)])
      [("a", ex_A)] 0
    = Ok (@Dict counterRS (sorted ++ kwargs_items [("a", ex_A)]) 0)
    /\ Permutation [(KStr "c", ex_B); (KStr "b", ex_A)] sorted
    /\ StronglySorted key_less (dict_keys sorted).
Proof.
  apply (@Dict_init_mapping_keywords counterRS
           [(KStr "c", ex_B); (KStr "b", ex_A)] [("a", ex_A)] 0).
  - simpl. apply NoDup_cons; [|apply NoDup_cons; [|apply NoDup_nil]].
    + intros [H | []]. discriminate H.
    + intros [].
  - intros a b [<- | [<- | []]] [<- | [<- | []]]; eexists; reflexivity.
  - simpl. apply NoDup_cons; [intros []|apply NoDup_nil].
  - intros name [<- | []] [H | [H | []]]; discriminate H.
Defined.

Lemma Dict_sample_None_entries_witness :
  Space_sample ex_D (PyDict [(KStr "b", PyNone); (KStr "a", PyNone)]) PyNone
  = Space_sample ex_D PyNone PyNone
  /\ Space_sample ex_D PyNone (PyDict [(KStr "b", PyNone); (KStr "a", PyNone)])
     = Space_sample ex_D PyNone PyNone.
Proof.
  apply (@Dict_sample_None_entries counterRS
           [(KStr "a", ex_A); (KStr "b", @Dict counterRS [(KStr "c", ex_B)] 0)] 0
           [(KStr "b", PyNone); (KStr "a", PyNone)]).
  - exact ex_D_keys_NoDup.
  - simpl. apply NoDup_cons; [|apply NoDup_cons; [|apply NoDup_nil]].
    + intros [H | []]. discriminate H.
    + intros [].
  - intros k. simpl. tauto.
  - apply Forall_cons; [reflexivity|].
    apply Forall_cons; [reflexivity|apply Forall_nil].
Defined.

(* ================================================================== *)
(** ** Further properties: a mask that fixes every element, the columns
    of [Dict.to_jsonable] *)

Lemma where_data_fixed (x y : list scalar) :
  List.length x = List.length y ->
  Forall (fun s => s = SInt 0 \/ s = SInt 1) y ->
  where_data (map (fun s => scalar_eq_Z s 2) y) x y = y.
Proof.
  revert x. induction y as [|v y IH]; intros [|u x] Hlen Hy; try discriminate;
    [reflexivity|].
  inversion Hy as [|? ? Hv Hrest]; subst.
  cbn [map where_data]. rewrite IH; [|simpl in Hlen; lia|assumption].
  destruct Hv as [-> | ->]; reflexivity.
Qed.

Section FixedMask.
Context {RS : RandomSource}.

(** X28.  A mask without 2 fixes the sample, not the generator.  For a
    well-formed [MultiBinary] and an [int8] mask of its shape that
    holds 0 and 1 only, [sample(mask)] returns the mask, and leaves the
    generator in the state in which [sample()] without arguments
    leaves it: the integers are drawn although none of them is
    used. *)
Theorem MultiBinary_sample_fixed_mask (n : MBn) (shape : list Z)
        (g : Generator) (m : ndarray) :
  wf_Space (MultiBinary n shape g) ->
  nd_dtype m = int8 ->
  nd_shape m = shape ->
  List.length (nd_data m) = Z.to_nat (nd_size shape) ->
  Forall (fun s => s = SInt 0 \/ s = SInt 1) (nd_data m) ->
  exists r self',
    Space_sample (MultiBinary n shape g) PyNone PyNone = Ok (PyNdarray r, self')
    /\ Space_sample (MultiBinary n shape g) (PyNdarray m) PyNone
       = Ok (PyNdarray m, self').
Proof.
  intros [Hshape _] Hdt Hsh Hlen Hvals.
  set (draw := rs_integers 0 2 (Z.to_nat (nd_size (size_shape n))) g).
  exists (mk_ndarray int8 (size_shape n) (map SInt (fst draw))),
         (MultiBinary n shape (snd draw)).
  split; [reflexivity|].
  cbn [Space_sample]. unfold MultiBinary_sample. cbn [is_None negb andb].
  rewrite Hdt, Hsh, tuple_eqb_refl. cbn [dtype_eqb negb].
  assert (Hchk : forallb (fun s => scalar_eq_Z s 0 || scalar_eq_Z s 1
                                   || scalar_eq_Z s 2) (nd_data m) = true).
  { apply forallb_forall. intros s Hs. rewrite Forall_forall in Hvals.
    destruct (Hvals s Hs) as [-> | ->]; reflexivity. }
  rewrite Hchk. cbn [negb]. unfold Generator_integers. cbv zeta. fold draw.
  unfold astype_int8. rewrite astype_int8_small.
  - cbn [bind]. unfold np_where. cbn [nd_dtype nd_shape nd_data promote dtype_rank].
    rewrite where_data_fixed; try assumption.
    + destruct m as [dt sh d]. cbn [nd_dtype nd_shape nd_data] in *. subst.
      reflexivity.
    + rewrite length_map. unfold draw. rewrite rs_integers_length.
      now rewrite Hlen, Hshape.
  - eapply Forall_impl; [|exact Hvals]. intros s [-> | ->]; auto.
Qed.

(** X29.  The columns of [Dict.to_jsonable].  For a batch of dicts that
    hold every key of the space, the call converts, child by child in
    stored order, the list of the entries of the child's key with
    [to_jsonable] of that child, and returns the results in a dict
    under the keys of the children; it raises nothing when the calls
    on the children return. *)
Theorem Dict_to_jsonable_columns (spaces : pydict Space) (g : Generator)
        (S : list PyObj) (json : Key -> PyObj) :
  Forall (fun x => exists d, x = PyDict d
                             /\ forall k, In k (dict_keys spaces) ->
                                          In k (dict_keys d)) S ->
  (forall k c, In (k, c) spaces ->
               Space_to_jsonable c (PyList (map (entry k) S)) = Ok (json k)) ->
  Space_to_jsonable (Dict spaces g) (PyList S)
  = Ok (PyDict (map (fun kc => (fst kc, json (fst kc))) spaces)).
Proof.
  intros HS Hchild. rewrite Space_to_jsonable_Dict.
  rewrite (mapM_Ok_in _ (fun kc => (fst kc, json (fst kc)))); [reflexivity|].
  intros [k c] Hin. cbn [py_iter bind fst snd].
  rewrite (mapM_Ok_in _ (entry k)).
  - cbn [bind]. now rewrite (Hchild k c Hin).
  - intros x Hx. rewrite Forall_forall in HS.
    destruct (HS x Hx) as (d & -> & Hkeys).
    assert (Hk : In k (dict_keys d)).
    { apply Hkeys. apply in_map_iff. exists (k, c). auto. }
    apply dict_get_some_in in Hk. destruct Hk as [v Hv].
    simpl. unfold dict_getitem. now rewrite Hv.
Qed.

End FixedMask.

Lemma MultiBinary_sample_fixed_mask_witness :
  exists r self',
    Space_sample ex_B PyNone PyNone = Ok (PyNdarray r, self')
    /\ Space_sample ex_B (PyNdarray (mk_ndarray int8 [2] [SInt 1; SInt 0])) PyNone
       = Ok (PyNdarray (mk_ndarray int8 [2] [SInt 1; SInt 0]), self').
Proof.
  apply (@MultiBinary_sample_fixed_mask counterRS (n_int 2) [2] 0
           (mk_ndarray int8 [2] [SInt 1; SInt 0])).
  - split; [reflexivity|]. apply Forall_cons; [lia|apply Forall_nil].
  - reflexivity.
  - reflexivity.
  - reflexivity.
  - apply Forall_cons; [now right|]. apply Forall_cons; [now left|apply Forall_nil].
Defined.

Lemma Dict_to_jsonable_columns_witness :
  Space_to_jsonable (@Dict counterRS [(KStr "a", ex_A); (KStr "b", ex_B)] 0)
    (PyList [PyDict [(KStr "b", PyNdarray (mk_ndarray int8 [2] [SInt 0; SInt 1]));
                     (KStr "a", PyNdarray (mk_ndarray int8 [1] [SInt 1]))]])
  = Ok (PyDict
          (map (fun kc : Key * @Space counterRS =>
                  (fst kc,
                   if key_eqb (fst kc) (KStr "a")
                   then PyList [PyList [PyInt 1]]
                   else PyList [PyList [PyInt 0; PyInt 1]]))
               [(KStr "a", ex_A); (KStr "b", ex_B)])).
Proof.
  apply (@Dict_to_jsonable_columns counterRS
           [(KStr "a", ex_A); (KStr "b", ex_B)] 0
           [PyDict [(KStr "b", PyNdarray (mk_ndarray int8 [2] [SInt 0; SInt 1]));
                    (KStr "a", PyNdarray (mk_ndarray int8 [1] [SInt 1]))]]
           (fun k => if key_eqb k (KStr "a")
                     then PyList [PyList [PyInt 1]]
                     else PyList [PyList [PyInt 0; PyInt 1]])).
  - apply Forall_cons; [|apply Forall_nil].
    eexists. split; [reflexivity|]. intros k. simpl. tauto.
  - intros k c [H | [H | []]]; injection H as <- <-; reflexivity.
Defined.
